(** * Mini-PharmAtlas MCP servers: association resolution and aggregation

    A shallow embedding of the three server variants of the repository

      - [src/mcp_server/FunctionalMCP/mcpserver_drugdisease.py]
      - [src/mcp_server/.ipynb_checkpoints/mcp_diseaseEntity-checkpoint.py]
      - [src/mcp_server/.ipynb_checkpoints/mcp_generic-checkpoint.py]

    The servers receive decoded JSON documents from two remote services and
    walk them with Python's dynamically typed operations ([dict.get], [in],
    subscripting, iteration).  Documents are embedded as a JSON tree, the
    dynamic operations as functions into an exception type, and the network
    as an oracle that is consulted through a recorded trace of calls. *)

From Stdlib Require Import List String Ascii ZArith Bool Lia Permutation Sorted.
Import ListNotations.
Local Open Scope string_scope.
Local Open Scope Z_scope.
Local Open Scope list_scope.

(** ** Decoded JSON values

    What [response.json()] returns.  An object is kept as its key/value pairs
    in insertion order, with pairwise distinct keys (as a decoded [dict] has
    them).  Numbers are the integer-valued ones. *)

#[warnings="-register-all"]
Inductive json : Type :=
| JNull
| JBool (b : bool)
| JNum (n : Z)
| JStr (s : string)
| JArr (l : list json)
| JObj (kv : list (string * json)).

(** ** Exceptions and fallible results *)

Inductive exn : Type :=
| AttributeError            (* [.get] on something that is not a dict *)
| TypeError                 (* unhashable key, bad operand, not iterable *)
| KeyError
| IndexError
| HTTPStatusError (msg status_code text : string)
    (* [raise_for_status] on a non-2xx answer *)
| ExternalError (msg : string).
    (* whatever else the HTTP client raises: transport failure, timeout,
       a body that does not decode *)

(** [str(e)].  For the interpreter's own exceptions only the class is kept. *)
Definition str_exn (e : exn) : string :=
  match e with
  | AttributeError => "AttributeError"
  | TypeError => "TypeError"
  | KeyError => "KeyError"
  | IndexError => "IndexError"
  | HTTPStatusError msg _ _ => msg
  | ExternalError msg => msg
  end.

Inductive res (A : Type) : Type :=
| Ok (a : A)
| Raise (e : exn).
Arguments Ok {A} a.
Arguments Raise {A} e.

Definition rbind {A B} (r : res A) (k : A -> res B) : res B :=
  match r with
  | Ok a => k a
  | Raise e => Raise e
  end.

Declare Scope res_scope.
Delimit Scope res_scope with res.
Notation "'let?' x ':=' r 'in' k" := (rbind r (fun x => k))
  (at level 10, x name, r at level 100, k at level 200) : res_scope.

(** ** Python's operations on decoded values *)

Module Py.

Fixpoint lookup (k : string) (kv : list (string * json)) : option json :=
  match kv with
  | [] => None
  | (k', v) :: rest => if String.eqb k k' then Some v else lookup k rest
  end.

(** [a == b]: [bool] is a subclass of [int]; dicts compare as mappings. *)
Fixpoint eq (a b : json) {struct a} : bool :=
  match a, b with
  | JNull, JNull => true
  | JBool x, JBool y => Bool.eqb x y
  | JBool x, JNum n => Z.eqb (if x then 1 else 0) n
  | JNum n, JBool y => Z.eqb n (if y then 1 else 0)
  | JNum m, JNum n => Z.eqb m n
  | JStr s, JStr t => String.eqb s t
  | JArr l, JArr m =>
      (fix go (l m : list json) {struct l} : bool :=
         match l, m with
         | [], [] => true
         | x :: l', y :: m' => eq x y && go l' m'
         | _, _ => false
         end) l m
  | JObj kv, JObj kw =>
      Nat.eqb (List.length kv) (List.length kw) &&
      (fix go (kv : list (string * json)) {struct kv} : bool :=
         match kv with
         | [] => true
         | (k, v) :: rest =>
             match lookup k kw with
             | Some w => eq v w
             | None => false
             end && go rest
         end) kv
  | _, _ => false
  end.

(** Lists and dicts cannot be hashed, so they cannot be dict keys. *)
Definition hashable (x : json) : bool :=
  match x with
  | JArr _ | JObj _ => false
  | _ => true
  end.

(** [bool(x)] as used by [if x:]. *)
Definition truthy (x : json) : bool :=
  match x with
  | JNull => false
  | JBool b => b
  | JNum n => negb (Z.eqb n 0)
  | JStr s => negb (String.eqb s "")
  | JArr l => match l with [] => false | _ => true end
  | JObj kv => match kv with [] => false | _ => true end
  end.

(** [d.get(k, default)] *)
Definition get (d : json) (k : string) (default : json) : res json :=
  match d with
  | JObj kv => Ok (match lookup k kv with Some v => v | None => default end)
  | _ => Raise AttributeError
  end.

Fixpoint is_prefix (p s : string) : bool :=
  match p, s with
  | EmptyString, _ => true
  | String a p', String b s' => Ascii.eqb a b && is_prefix p' s'
  | String _ _, EmptyString => false
  end.

Fixpoint is_substring (p s : string) : bool :=
  is_prefix p s ||
  match s with
  | EmptyString => false
  | String _ s' => is_substring p s'
  end.

(** [x in c] *)
Definition contains (x c : json) : res bool :=
  match c with
  | JObj kv =>
      match x with
      | JStr s => Ok (match lookup s kv with Some _ => true | None => false end)
      | JArr _ | JObj _ => Raise TypeError
      | _ => Ok false
      end
  | JArr l => Ok (existsb (fun e => eq e x) l)
  | JStr s =>
      match x with
      | JStr p => Ok (is_substring p s)
      | _ => Raise TypeError
      end
  | _ => Raise TypeError
  end.

(** An index of a sequence of length [len]: negatives count from the end. *)
Definition index (len : nat) (i : Z) : res nat :=
  let j := if i <? 0 then i + Z.of_nat len else i in
  if (0 <=? j) && (j <? Z.of_nat len) then Ok (Z.to_nat j) else Raise IndexError.

Fixpoint chars (s : string) : list json :=
  match s with
  | EmptyString => []
  | String a s' => JStr (String a EmptyString) :: chars s'
  end.

Definition seq_item (l : list json) (k : json) : res json :=
  let at_ (i : Z) :=
    (let? j := index (List.length l) i in
     match nth_error l j with Some v => Ok v | None => Raise IndexError end)%res in
  match k with
  | JNum i => at_ i
  | JBool b => at_ (if b then 1 else 0)
  | _ => Raise TypeError
  end.

(** [c[k]] *)
Definition getitem (c k : json) : res json :=
  match c with
  | JObj kv =>
      match k with
      | JStr s => match lookup s kv with Some v => Ok v | None => Raise KeyError end
      | JArr _ | JObj _ => Raise TypeError
      | _ => Raise KeyError
      end
  | JArr l => seq_item l k
  | JStr s => seq_item (chars s) k
  | _ => Raise TypeError
  end.

(** What [for x in c] runs through. *)
Definition iter (c : json) : res (list json) :=
  match c with
  | JArr l => Ok l
  | JObj kv => Ok (map (fun p => JStr (fst p)) kv)
  | JStr s => Ok (chars s)
  | _ => Raise TypeError
  end.

(** [l[:k]] *)
Definition slice_to {A} (l : list A) (k : Z) : list A :=
  if 0 <=? k then firstn (Z.to_nat k) l
  else firstn (Z.to_nat (Z.of_nat (List.length l) + k)) l.

Definition upper_ascii (a : ascii) : ascii :=
  let n := nat_of_ascii a in
  if (Nat.leb 97 n && Nat.leb n 122)%bool then ascii_of_nat (n - 32) else a.

(** [s.upper()], on the ASCII letters. *)
Fixpoint upper (s : string) : string :=
  match s with
  | EmptyString => EmptyString
  | String a s' => String (upper_ascii a) (upper s')
  end.

(** A dict keyed by decoded values, in insertion order. *)
Fixpoint dict_find {V} (k : json) (d : list (json * V)) : option V :=
  match d with
  | [] => None
  | (k', v) :: rest => if eq k' k then Some v else dict_find k rest
  end.

(** [d[k] = v]: a known key keeps its place, a new key goes last. *)
Fixpoint dict_store {V} (k : json) (v : V) (d : list (json * V))
    : list (json * V) :=
  match d with
  | [] => [(k, v)]
  | (k', v') :: rest =>
      if eq k' k then (k', v) :: rest else (k', v') :: dict_store k v rest
  end.

(** [d[k] = d.get(k, 0) + 1] *)
Definition dict_incr (k : json) (d : list (json * Z)) : res (list (json * Z)) :=
  if hashable k then
    Ok (dict_store k (match dict_find k d with Some n => n | None => 0 end + 1) d)
  else Raise TypeError.

Section Sorted.

Context {A : Type} (key : A -> Z).

(** [x] comes from the left of everything in [l]: it stays in front of the
    elements whose key is not larger. *)
Fixpoint insert_desc (x : A) (l : list A) : list A :=
  match l with
  | [] => [x]
  | y :: rest =>
      if key y <=? key x then x :: y :: rest else y :: insert_desc x rest
  end.

(** [sorted(l, key=key, reverse=True)]: a stable sort, largest key first. *)
Fixpoint sorted_desc (l : list A) : list A :=
  match l with
  | [] => []
  | x :: rest => insert_desc x (sorted_desc rest)
  end.

End Sorted.

End Py.

(** ** The network

    Every outbound request is recorded in a trace.  What a request yields is
    left to an oracle that sees the requests made so far and the one being
    made: a decoded body, or whatever exception the HTTP client raised. *)

Inductive call : Type :=
| HttpGet (url : string) (term : string)
    (* GET with params db=gene, term, retmode=json, retmax=1 *)
| HttpPost (url : string) (entrez_id : json) (target_category : string).
    (* POST of the query graph n0 (the gene) -e01-> n1 (target category) *)

Inductive outcome : Type :=
| Body (doc : json)
| Fails (e : exn).

Definition world : Type := list call -> call -> outcome.

Definition is_get (c : call) : bool :=
  match c with HttpGet _ _ => true | HttpPost _ _ _ => false end.

Definition is_post (c : call) : bool := negb (is_get c).

(** Number of identifier lookups, resp. knowledge-graph queries, in a trace. *)
Definition lookups (tr : list call) : nat := List.length (filter is_get tr).
Definition graph_queries (tr : list call) : nat := List.length (filter is_post tr).

(** Computations that talk to the network and may raise. *)
Definition M (A : Type) : Type := list call -> res A * list call.

Definition ret {A} (a : A) : M A := fun tr => (Ok a, tr).

Definition bind {A B} (m : M A) (k : A -> M B) : M B :=
  fun tr =>
    match m tr with
    | (Ok a, tr') => k a tr'
    | (Raise e, tr') => (Raise e, tr')
    end.

Definition lift {A} (r : res A) : M A := fun tr => (r, tr).

(** [try: m  except Exception as e: h e] *)
Definition try_except {A} (m : M A) (h : exn -> M A) : M A :=
  fun tr =>
    match m tr with
    | (Ok a, tr') => (Ok a, tr')
    | (Raise e, tr') => h e tr'
    end.

(** The request itself, [raise_for_status] and [response.json()]. *)
Definition request (env : world) (c : call) : M json :=
  fun tr =>
    (match env tr c with Body doc => Ok doc | Fails e => Raise e end, tr ++ [c]).

Declare Scope M_scope.
Delimit Scope M_scope with M.
Notation "x <- m ;; k" := (bind m (fun x => k))
  (at level 61, m at next level, right associativity) : M_scope.

(** [for x in xs: acc = body acc x], stopping at the first exception. *)
Fixpoint for_each {A S} (body : S -> A -> res S) (xs : list A) (acc : S) : res S :=
  match xs with
  | [] => Ok acc
  | x :: xs' => (let? acc' := body acc x in for_each body xs' acc')%res
  end.

Fixpoint for_eachM {A S} (body : S -> A -> M S) (xs : list A) (acc : S) : M S :=
  match xs with
  | [] => ret acc
  | x :: xs' => (acc' <- body acc x ;; for_eachM body xs' acc')%M
  end.

(** ** The gene lookup record shared by the three servers

    The dict returned by [get_gene_info]; a key that the dict may lack is an
    optional field. *)

Inductive status : Type := found | not_found | error.

Record GeneLookup : Type := {
  gene_symbol : option string;
  entrez_id : option json;
  lookup_status : status;
  lookup_error : option string
}.

Definition NCBI_URL : string :=
  "https://eutils.ncbi.nlm.nih.gov/entrez/eutils/esearch.fcgi".

Definition ncbi_term (gene_symbol : string) : string :=
  (gene_symbol ++ "[Gene Name] AND Homo sapiens[Organism]")%string.

(** [gene_info["entrez_id"]] *)
Definition entrez_id_of (gene_info : GeneLookup) : res json :=
  match entrez_id gene_info with
  | Some v => Ok v
  | None => Raise KeyError
  end.

(** What a tool handler hands back: the text of a message, or the dict that
    is then serialised with [json.dumps]. *)
Inductive reply (R : Type) : Type :=
| Text (s : string)
| Report (r : R).
Arguments Text {R} s.
Arguments Report {R} r.

(** ** [FunctionalMCP/mcpserver_drugdisease.py] *)

Module DrugDisease.

Definition TRAPI_URL : string := "https://api.bte.ncats.io/v1/query".

(** The dict appended by [extract_associations]. *)
Record assoc : Type := {
  id : json;
  name : json;
  type : string;
  categories : json
}.

(** An element of the list [extract_associations] returns: an association,
    or the one-key dict [{"error": ...}]. *)
Inductive item : Type :=
| Assoc (a : assoc)
| ErrorMarker (detail : json).

(** The body of the inner loop, [for node in target_nodes]. *)
Definition visit_node (nodes_map : json) (type_label : string)
    (items : list assoc) (node : json) : res (list assoc) :=
  (let? node_id := Py.get node "id" JNull in
   let? present := Py.contains node_id nodes_map in
   if present then
     let? node_info := Py.getitem nodes_map node_id in
     let? node_name := Py.get node_info "name" node_id in
     if negb (existsb (fun i => Py.eq (id i) node_id) items) then
       let? cats := Py.get node_info "categories" (JArr []) in
       Ok (items ++ [{| id := node_id; name := node_name;
                        type := type_label; categories := cats |}])
     else Ok items
   else Ok items)%res.

(** The body of the outer loop, [for result in results]. *)
Definition visit_result (nodes_map : json) (type_label : string)
    (items : list assoc) (result : json) : res (list assoc) :=
  (let? node_bindings := Py.get result "node_bindings" (JObj []) in
   let? target_nodes := Py.get node_bindings "n1" (JArr []) in
   let? nodes := Py.iter target_nodes in
   for_each (visit_node nodes_map type_label) nodes items)%res.

(** The [try] block of [extract_associations]. *)
Definition walk (kg_result : json) (type_label : string) : res (list assoc) :=
  (let? message := Py.get kg_result "message" (JObj []) in
   let? results := Py.get message "results" (JArr []) in
   let? knowledge_graph := Py.get message "knowledge_graph" (JObj []) in
   let? nodes_map := Py.get knowledge_graph "nodes" (JObj []) in
   let? rows := Py.iter results in
   for_each (visit_result nodes_map type_label) rows [])%res.

Definition extract_associations (kg_result : json) (type_label : string)
    : res (list item) :=
  (let? has_error := Py.contains (JStr "error") kg_result in
   if has_error then
     let? detail := Py.getitem kg_result (JStr "error") in
     Ok [ErrorMarker detail]
   else
     match walk kg_result type_label with
     | Ok items => Ok (map Assoc items)
     | Raise e => Ok [ErrorMarker (JStr ("Parsing error: " ++ str_exn e)%string)]
     end)%res.

Section Server.

Variable env : world.

(** The [try] block of [query_translator_kg], with the client in hand; for
    the client itself see [Client] below. *)
Definition query_translator_kg (entrez_id : json) (target_category : string)
    : M json :=
  try_except
    (request env (HttpPost TRAPI_URL entrez_id target_category))
    (fun e => ret (JObj [("error", JStr ("Connection error: " ++ str_exn e)%string)])).

(** The [try] block of [get_gene_info], with the client in hand. *)
Definition get_gene_info (gene_symbol : string) : M GeneLookup :=
  try_except
    (data <- request env (HttpGet NCBI_URL (ncbi_term gene_symbol)) ;;
     esearchresult <- lift (Py.get data "esearchresult" (JObj [])) ;;
     id_list <- lift (Py.get esearchresult "idlist" (JArr [])) ;;
     if Py.truthy id_list then
       first <- lift (Py.getitem id_list (JNum 0)) ;;
       ret {| gene_symbol := Some gene_symbol; entrez_id := Some first;
              lookup_status := found; lookup_error := None |}
     else
       ret {| gene_symbol := Some gene_symbol; entrez_id := None;
              lookup_status := not_found; lookup_error := None |})%M
    (fun e =>
       ret {| gene_symbol := None; entrez_id := None;
              lookup_status := error; lookup_error := Some (str_exn e) |}).

(** The dict built under "4. Format output", with its nested "summary". *)
Record interactions : Type := {
  gene : string;
  gene_entrez_id : json;
  disease_count : Z;
  drug_count : Z;
  top_diseases : list item;
  top_drugs : list item
}.

(** [call_tool("find_gene_interactions", {"gene_symbol": ...})].  The two
    queries handed to [asyncio.gather] both run to completion: each returns
    a value whatever happens to the other. *)
Definition find_gene_interactions (gene_symbol_arg : string)
    : M (reply interactions) :=
  (let gene_symbol := Py.upper gene_symbol_arg in
   gene_info <- get_gene_info gene_symbol ;;
   match lookup_status gene_info with
   | found =>
       entrez_id <- lift (entrez_id_of gene_info) ;;
       disease_raw <- query_translator_kg entrez_id "biolink:Disease" ;;
       drug_raw <- query_translator_kg entrez_id "biolink:ChemicalEntity" ;;
       diseases <- lift (extract_associations disease_raw "Disease") ;;
       drugs <- lift (extract_associations drug_raw "Drug") ;;
       ret (Report {| gene := gene_symbol;
                      gene_entrez_id := entrez_id;
                      disease_count := Z.of_nat (List.length diseases);
                      drug_count := Z.of_nat (List.length drugs);
                      top_diseases := Py.slice_to diseases 15;
                      top_drugs := Py.slice_to drugs 15 |})
   | _ => ret (Text ("Could not find gene: " ++ gene_symbol)%string)
   end)%M.

End Server.

End DrugDisease.

(** ** [.ipynb_checkpoints/mcp_diseaseEntity-checkpoint.py] *)

Module DiseaseEntity.

Definition TRAPI_URL : string := "https://api.bte.ncats.io/v1/query".

Record disease : Type := {
  disease_id : json;
  disease_name : json;
  categories : json
}.

Inductive item : Type :=
| Disease (d : disease)
| ErrorMarker (detail : json).

Definition visit_node (nodes_map : json) (diseases : list disease)
    (disease_node : json) : res (list disease) :=
  (let? disease_id_ := Py.get disease_node "id" JNull in
   let? present := Py.contains disease_id_ nodes_map in
   if present then
     let? disease_info := Py.getitem nodes_map disease_id_ in
     let? disease_name_ := Py.get disease_info "name" disease_id_ in
     if negb (existsb (fun d => Py.eq (disease_id d) disease_id_) diseases) then
       let? cats := Py.get disease_info "categories" (JArr []) in
       Ok (diseases ++ [{| disease_id := disease_id_;
                           disease_name := disease_name_;
                           categories := cats |}])
     else Ok diseases
   else Ok diseases)%res.

Definition visit_result (nodes_map : json) (diseases : list disease)
    (result : json) : res (list disease) :=
  (let? node_bindings := Py.get result "node_bindings" (JObj []) in
   let? disease_nodes := Py.get node_bindings "n1" (JArr []) in
   let? nodes := Py.iter disease_nodes in
   for_each (visit_node nodes_map) nodes diseases)%res.

Definition walk (kg_result : json) : res (list disease) :=
  (let? message := Py.get kg_result "message" (JObj []) in
   let? results := Py.get message "results" (JArr []) in
   let? knowledge_graph := Py.get message "knowledge_graph" (JObj []) in
   let? nodes_map := Py.get knowledge_graph "nodes" (JObj []) in
   let? rows := Py.iter results in
   for_each (visit_result nodes_map) rows [])%res.

Definition extract_disease_associations (kg_result : json) : res (list item) :=
  (let? has_error := Py.contains (JStr "error") kg_result in
   if has_error then
     let? detail := Py.getitem kg_result (JStr "error") in
     Ok [ErrorMarker detail]
   else
     match walk kg_result with
     | Ok diseases => Ok (map Disease diseases)
     | Raise e => Ok [ErrorMarker (JStr ("Parsing error: " ++ str_exn e)%string)]
     end)%res.

(** [disease.get("disease_name", "Unknown")] *)
Definition name_of (d : item) : json :=
  match d with
  | Disease r => disease_name r
  | ErrorMarker _ => JStr "Unknown"
  end.

Record detail : Type := {
  detail_gene : string;
  detail_entrez_id : json;
  detail_disease_count : Z
}.

Record found_diseases : Type := {
  fd_gene : string;
  fd_entrez_id : json;
  disease_associations : list item;
  total_diseases_found : Z
}.

Record analysis : Type := {
  genes_analyzed : list string;
  common_diseases : list (json * Z);     (* "disease", "gene_count" *)
  details : list detail
}.

Section Server.

Variable env : world.

(** The [try] block of [query_translator_kg], with the client in hand; for
    the client itself see [Client] below. *)
Definition query_translator_kg (entrez_id : json) : M json :=
  try_except
    (request env (HttpPost TRAPI_URL entrez_id "biolink:Disease"))
    (fun e =>
       match e with
       | HTTPStatusError _ status_code text =>
           ret (JObj [("error",
                       JStr ("HTTP Error: " ++ status_code ++ " - " ++ text)%string)])
       | _ => ret (JObj [("error", JStr ("Connection error: " ++ str_exn e)%string)])
       end).

(** The [try] block of [get_gene_info], with the client in hand. *)
Definition get_gene_info (gene_symbol : string) : M GeneLookup :=
  try_except
    (data <- request env (HttpGet NCBI_URL (ncbi_term gene_symbol)) ;;
     esearchresult <- lift (Py.get data "esearchresult" (JObj [])) ;;
     id_list <- lift (Py.get esearchresult "idlist" (JArr [])) ;;
     if Py.truthy id_list then
       first <- lift (Py.getitem id_list (JNum 0)) ;;
       ret {| gene_symbol := Some gene_symbol; entrez_id := Some first;
              lookup_status := found; lookup_error := None |}
     else
       ret {| gene_symbol := Some gene_symbol; entrez_id := None;
              lookup_status := not_found; lookup_error := None |})%M
    (fun e =>
       ret {| gene_symbol := Some gene_symbol; entrez_id := None;
              lookup_status := error; lookup_error := Some (str_exn e) |}).

Definition find_gene_diseases (gene_symbol_arg : string)
    : M (reply found_diseases) :=
  (let gene_symbol := Py.upper gene_symbol_arg in
   gene_info <- get_gene_info gene_symbol ;;
   match lookup_status gene_info with
   | found =>
       entrez_id <- lift (entrez_id_of gene_info) ;;
       kg_result <- query_translator_kg entrez_id ;;
       diseases <- lift (extract_disease_associations kg_result) ;;
       entrez_id' <- lift (entrez_id_of gene_info) ;;
       ret (Report {| fd_gene := gene_symbol;
                      fd_entrez_id := entrez_id';
                      disease_associations := Py.slice_to diseases 20;
                      total_diseases_found := Z.of_nat (List.length diseases) |})
   | _ => ret (Text ("Could not find gene: " ++ gene_symbol)%string)
   end)%M.

(** The body of [for gene_symbol in gene_symbols] in [analyze_gene_list];
    the state is the pair [(results, disease_counts)]. *)
Definition analyze_gene (acc : list detail * list (json * Z))
    (gene_symbol : string) : M (list detail * list (json * Z)) :=
  (let '(results, disease_counts) := acc in
   gene_info <- get_gene_info gene_symbol ;;
   match lookup_status gene_info with
   | found =>
       entrez_id <- lift (entrez_id_of gene_info) ;;
       kg_result <- query_translator_kg entrez_id ;;
       diseases <- lift (extract_disease_associations kg_result) ;;
       entrez_id' <- lift (entrez_id_of gene_info) ;;
       let results' :=
         results ++ [{| detail_gene := gene_symbol;
                        detail_entrez_id := entrez_id';
                        detail_disease_count := Z.of_nat (List.length diseases) |}] in
       disease_counts' <-
         lift (for_each (fun counts d => Py.dict_incr (name_of d) counts)
                        diseases disease_counts) ;;
       ret (results', disease_counts')
   | _ => ret (results, disease_counts)
   end)%M.

(** [call_tool("analyze_gene_list", {"gene_symbols": ..., "limit": ...})] *)
Definition analyze_gene_list (gene_symbols_arg : list string) (limit : Z)
    : M analysis :=
  (let gene_symbols := map Py.upper (Py.slice_to gene_symbols_arg limit) in
   acc <- for_eachM analyze_gene gene_symbols ([], []) ;;
   let '(results, disease_counts) := acc in
   let common := Py.slice_to (Py.sorted_desc snd disease_counts) 10 in
   ret {| genes_analyzed := gene_symbols;
          common_diseases := common;
          details := results |})%M.

End Server.

End DiseaseEntity.

(** ** [.ipynb_checkpoints/mcp_generic-checkpoint.py] *)

Module Generic.

Definition ARAGORN_URL : string := "https://aragorn.renci.org/1.4/query".

Record disease : Type := {
  disease_id : json;
  disease_name : json;
  categories : json
}.

Inductive item : Type :=
| Disease (d : disease)
| ErrorMarker (detail : json).

(** This variant looks the node catalogue up anew at every node and appends
    without looking at what is already in the list. *)
Definition visit_node (knowledge_graph : json) (diseases : list disease)
    (disease_node : json) : res (list disease) :=
  (let? disease_id_ := Py.get disease_node "id" JNull in
   let? nodes := Py.get knowledge_graph "nodes" (JObj []) in
   let? present := Py.contains disease_id_ nodes in
   if present then
     let? nodes' := Py.getitem knowledge_graph (JStr "nodes") in
     let? disease_info := Py.getitem nodes' disease_id_ in
     let? disease_name_ := Py.get disease_info "name" disease_id_ in
     let? cats := Py.get disease_info "categories" (JArr []) in
     Ok (diseases ++ [{| disease_id := disease_id_;
                         disease_name := disease_name_;
                         categories := cats |}])
   else Ok diseases)%res.

Definition visit_result (knowledge_graph : json) (diseases : list disease)
    (result : json) : res (list disease) :=
  (let? node_bindings := Py.get result "node_bindings" (JObj []) in
   let? disease_nodes := Py.get node_bindings "n1" (JArr []) in
   let? nodes := Py.iter disease_nodes in
   for_each (visit_node knowledge_graph) nodes diseases)%res.

Definition walk (kg_result : json) : res (list disease) :=
  (let? message := Py.get kg_result "message" (JObj []) in
   let? results := Py.get message "results" (JArr []) in
   let? message' := Py.get kg_result "message" (JObj []) in
   let? knowledge_graph := Py.get message' "knowledge_graph" (JObj []) in
   let? rows := Py.iter results in
   for_each (visit_result knowledge_graph) rows [])%res.

Definition extract_disease_associations (kg_result : json) : res (list item) :=
  (let? has_error := Py.contains (JStr "error") kg_result in
   if has_error then
     let? detail := Py.getitem kg_result (JStr "error") in
     Ok [ErrorMarker detail]
   else
     match walk kg_result with
     | Ok diseases => Ok (map Disease diseases)
     | Raise e => Ok [ErrorMarker (JStr ("Parsing error: " ++ str_exn e)%string)]
     end)%res.

Definition name_of (d : item) : json :=
  match d with
  | Disease r => disease_name r
  | ErrorMarker _ => JStr "Unknown"
  end.

Record detail : Type := {
  detail_gene : string;
  detail_entrez_id : json;
  detail_disease_count : Z
}.

Record found_diseases : Type := {
  fd_gene : string;
  fd_entrez_id : json;
  disease_associations : list item;
  total_diseases_found : Z
}.

Record analysis : Type := {
  genes_analyzed : list string;
  results : list detail;
  common_diseases : list (json * Z)      (* "disease", "gene_count" *)
}.

Section Server.

Variable env : world.

Definition query_translator_kg (gene_name : json) : M json :=
  try_except
    (request env (HttpPost ARAGORN_URL gene_name "biolink:Disease"))
    (fun e => ret (JObj [("error", JStr (str_exn e))])).

Definition get_gene_info (gene_symbol : string) : M GeneLookup :=
  try_except
    (data <- request env (HttpGet NCBI_URL (ncbi_term gene_symbol)) ;;
     esearchresult <- lift (Py.get data "esearchresult" (JObj [])) ;;
     id_list <- lift (Py.get esearchresult "idlist" (JArr [])) ;;
     if Py.truthy id_list then
       first <- lift (Py.getitem id_list (JNum 0)) ;;
       ret {| gene_symbol := Some gene_symbol; entrez_id := Some first;
              lookup_status := found; lookup_error := None |}
     else
       ret {| gene_symbol := Some gene_symbol; entrez_id := None;
              lookup_status := not_found; lookup_error := None |})%M
    (fun e =>
       ret {| gene_symbol := Some gene_symbol; entrez_id := None;
              lookup_status := error; lookup_error := Some (str_exn e) |}).

Definition find_gene_diseases (gene_symbol_arg : string)
    : M (reply found_diseases) :=
  (let gene_symbol := Py.upper gene_symbol_arg in
   gene_info <- get_gene_info gene_symbol ;;
   match lookup_status gene_info with
   | found =>
       entrez_id <- lift (entrez_id_of gene_info) ;;
       kg_result <- query_translator_kg entrez_id ;;
       diseases <- lift (extract_disease_associations kg_result) ;;
       entrez_id' <- lift (entrez_id_of gene_info) ;;
       ret (Report {| fd_gene := gene_symbol;
                      fd_entrez_id := entrez_id';
                      disease_associations := diseases;
                      total_diseases_found := Z.of_nat (List.length diseases) |})
   | _ => ret (Text ("Could not find gene: " ++ gene_symbol)%string)
   end)%M.

Definition analyze_gene (acc : list detail * list (json * Z))
    (gene_symbol : string) : M (list detail * list (json * Z)) :=
  (let '(results, disease_counts) := acc in
   gene_info <- get_gene_info gene_symbol ;;
   match lookup_status gene_info with
   | found =>
       entrez_id <- lift (entrez_id_of gene_info) ;;
       kg_result <- query_translator_kg entrez_id ;;
       diseases <- lift (extract_disease_associations kg_result) ;;
       entrez_id' <- lift (entrez_id_of gene_info) ;;
       let results' :=
         results ++ [{| detail_gene := gene_symbol;
                        detail_entrez_id := entrez_id';
                        detail_disease_count := Z.of_nat (List.length diseases) |}] in
       disease_counts' <-
         lift (for_each (fun counts d => Py.dict_incr (name_of d) counts)
                        diseases disease_counts) ;;
       ret (results', disease_counts')
   | _ => ret (results, disease_counts)
   end)%M.

Definition analyze_gene_list (gene_symbols_arg : list string) (limit : Z)
    : M analysis :=
  (let gene_symbols := map Py.upper (Py.slice_to gene_symbols_arg limit) in
   acc <- for_eachM analyze_gene gene_symbols ([], []) ;;
   let '(results_, disease_counts) := acc in
   let common := Py.slice_to (Py.sorted_desc snd disease_counts) 10 in
   ret {| genes_analyzed := gene_symbols;
          results := results_;
          common_diseases := common |})%M.

End Server.

End Generic.

(** ** Reading a result document

    The pieces of a knowledge-graph answer that the statements below talk
    about: its node catalogue, and the ids bound to the target variable n1,
    row after row, in the order the extractor meets them. *)

Module Doc.

Definition catalogue (kg_result : json) : res json :=
  (let? message := Py.get kg_result "message" (JObj []) in
   let? knowledge_graph := Py.get message "knowledge_graph" (JObj []) in
   Py.get knowledge_graph "nodes" (JObj []))%res.

Fixpoint node_ids (nodes : list json) : res (list json) :=
  match nodes with
  | [] => Ok []
  | node :: rest =>
      (let? i := Py.get node "id" JNull in
       let? js := node_ids rest in
       Ok (i :: js))%res
  end.

Definition row_ids (result : json) : res (list json) :=
  (let? node_bindings := Py.get result "node_bindings" (JObj []) in
   let? target_nodes := Py.get node_bindings "n1" (JArr []) in
   let? nodes := Py.iter target_nodes in
   node_ids nodes)%res.

Fixpoint rows_ids (rows : list json) : res (list json) :=
  match rows with
  | [] => Ok []
  | row :: rest =>
      (let? a := row_ids row in
       let? b := rows_ids rest in
       Ok (a ++ b))%res
  end.

Definition bound_ids (kg_result : json) : res (list json) :=
  (let? message := Py.get kg_result "message" (JObj []) in
   let? results := Py.get message "results" (JArr []) in
   let? rows := Py.iter results in
   rows_ids rows)%res.

(** [i in nodes_map] holds. *)
Definition in_catalogue (nodes_map i : json) : bool :=
  match Py.contains i nodes_map with
  | Ok true => true
  | _ => false
  end.

(** [out] lists its elements in the order in which they first appear in
    [ids]: whatever precedes [x] in [out] has shown up in [ids] before the
    first [x] has. *)
Definition first_appearance_order (out ids : list json) : Prop :=
  forall l1 x l2, out = l1 ++ x :: l2 ->
    exists ids1 ids2,
      ids = ids1 ++ x :: ids2 /\ ~ In x ids1 /\ incl l1 ids1.

(** The ids kept so far, after meeting [ids]: an id of the catalogue that no
    kept id equals is kept, behind the others. *)
Fixpoint absorb (nodes_map : json) (seen ids : list json) : list json :=
  match ids with
  | [] => seen
  | i :: rest =>
      absorb nodes_map
        (if in_catalogue nodes_map i && negb (existsb (fun s => Py.eq s i) seen)
         then seen ++ [i] else seen)
        rest
  end.

(** No two of the ids are equal, as Python compares them. *)
Definition distinct (l : list json) : Prop :=
  ForallOrdPairs (fun a b => Py.eq a b = false) l.

(** Sample documents. *)
Definition node (i : string) : json := JObj [("id", JStr i)].

Definition row (ids : list string) : json :=
  JObj [("node_bindings", JObj [("n1", JArr (map node ids))])].

Definition answer (rows : list json) (nodes : list (string * json)) : json :=
  JObj [("message",
         JObj [("results", JArr rows);
               ("knowledge_graph", JObj [("nodes", JObj nodes)])])].

Definition entry (name : string) : json :=
  JObj [("name", JStr name); ("categories", JArr [JStr "biolink:Disease"])].

Definition nameless : json :=
  JObj [("categories", JArr [JStr "biolink:Disease"])].

Definition ncbi_answer (ids : list json) : json :=
  JObj [("esearchresult", JObj [("idlist", JArr ids)])].

End Doc.

(** ** What the statements about the extractors are phrased with *)

Module Extracted.

(** Number of records whose id is the string [s]. *)
Definition records_for (s : string) (items : list DrugDisease.assoc) : nat :=
  List.length (filter (fun r => Py.eq (DrugDisease.id r) (JStr s)) items).

(** The record carries what the catalogue says about its id: the entry's
    name, or the id itself where the entry has none, the entry's categories,
    or the empty list, and the label asked for. *)
Definition from_catalogue (nodes_map : json) (type_label : string)
    (r : DrugDisease.assoc) : Prop :=
  exists info,
    Py.getitem nodes_map (DrugDisease.id r) = Ok info /\
    Py.get info "name" (DrugDisease.id r) = Ok (DrugDisease.name r) /\
    Py.get info "categories" (JArr []) = Ok (DrugDisease.categories r) /\
    DrugDisease.type r = type_label.

End Extracted.

(** ** Sample answers of the two services *)

Module Samples.

(** Three result rows bind the same entity. *)
Definition thrice : json :=
  Doc.answer [Doc.row ["D1"]; Doc.row ["D1"]; Doc.row ["D1"]]
             [("D1", Doc.entry "X")].

(** Three entities of one display name. *)
Definition homonyms : json :=
  Doc.answer [Doc.row ["D1"; "D2"]; Doc.row ["D3"]]
             [("D1", Doc.entry "X"); ("D2", Doc.entry "X"); ("D3", Doc.entry "X")].

Definition once : json :=
  Doc.answer [Doc.row ["D1"]] [("D1", Doc.entry "X")].

(** Two rows bind an entity that the node catalogue does not list. *)
Definition uncatalogued : json :=
  Doc.answer [Doc.row ["D9"]; Doc.row ["D9"]] [("D1", Doc.entry "X")].

(** A repeated entity, and one whose catalogue entry has no name. *)
Definition repeated : json :=
  Doc.answer [Doc.row ["D1"]; Doc.row ["D2"; "D1"]; Doc.row ["D1"]]
             [("D1", Doc.entry "X"); ("D2", Doc.nameless)].

(** Gene GA has id 1 and gene GB id 2; any other symbol matches nothing.
    The graph service answers [answerA] for gene 1, [once] for gene 2, and
    times out for anything else. *)
Definition two_genes (answerA : json) : world :=
  fun _ c =>
    match c with
    | HttpGet _ term =>
        if String.eqb term (ncbi_term "GA") then Body (Doc.ncbi_answer [JStr "1"])
        else if String.eqb term (ncbi_term "GB") then Body (Doc.ncbi_answer [JStr "2"])
        else Body (Doc.ncbi_answer [])
    | HttpPost _ entrez_id _ =>
        if Py.eq entrez_id (JStr "1") then Body answerA
        else if Py.eq entrez_id (JStr "2") then Body once
        else Fails (ExternalError "timed out")
    end.

(** Every symbol resolves to id 348; the disease query is answered, the
    chemical-entity query times out. *)
Definition drugs_down : world :=
  fun _ c =>
    match c with
    | HttpGet _ _ => Body (Doc.ncbi_answer [JStr "348"])
    | HttpPost _ _ target_category =>
        if String.eqb target_category "biolink:Disease" then Body once
        else Fails (ExternalError "timed out")
    end.

(** Nothing answers. *)
Definition offline : world := fun _ _ => Fails (ExternalError "timed out").

End Samples.

(** ** What the statements about the resolver are phrased with *)

(** What [get_gene_info] does, whatever the lookup service answers: one GET,
    a value and no exception; the id is there exactly when the status is
    [found]; an error status comes with its detail; a failed request gives
    the error value built from the exception. *)
Definition resolves (get_gene_info : world -> string -> M GeneLookup)
    (with_symbol : bool) : Prop :=
  forall env s tr,
    exists gi,
      get_gene_info env s tr = (Ok gi, tr ++ [HttpGet NCBI_URL (ncbi_term s)]) /\
      (entrez_id gi <> None <-> lookup_status gi = found) /\
      (lookup_status gi = error -> lookup_error gi <> None) /\
      (forall e, env tr (HttpGet NCBI_URL (ncbi_term s)) = Fails e ->
         gi = {| gene_symbol := if with_symbol then Some s else None;
                 entrez_id := None;
                 lookup_status := error;
                 lookup_error := Some (str_exn e) |}).

(** ** Shapes of answers *)

Module Shape.

(** The documents on which the test ["error" in kg_result], or the
    subscript [kg_result["error"]] that follows it, raises: [None], a bool
    or a number cannot be searched; a list that holds the string "error" and
    a string that contains it cannot be subscripted by a string. *)
Definition unreadable (kg_result : json) : bool :=
  match kg_result with
  | JNull | JBool _ | JNum _ => true
  | JArr l => existsb (fun e => Py.eq e (JStr "error")) l
  | JStr s => Py.is_substring "error" s
  | JObj _ => false
  end.

(** A bound node that a catalogue with the entries [nodes] does not know: a
    dict without "id", or with an id that is no key of the catalogue. *)
Definition unknown_node (nodes : list (string * json)) (node : json) : bool :=
  match node with
  | JObj kv =>
      match Py.lookup "id" kv with
      | None => true
      | Some (JStr s) =>
          match Py.lookup s nodes with Some _ => false | None => true end
      | Some (JArr _) | Some (JObj _) => false
      | Some _ => true
      end
  | _ => false
  end.

(** A result row that binds nothing the catalogue knows: a dict without
    "node_bindings", or whose bindings lack "n1", or whose "n1" lists
    unknown nodes only. *)
Definition empty_row (nodes : list (string * json)) (row : json) : bool :=
  match row with
  | JObj kv =>
      match Py.lookup "node_bindings" kv with
      | None => true
      | Some (JObj bindings) =>
          match Py.lookup "n1" bindings with
          | None => true
          | Some (JArr ns) => forallb (unknown_node nodes) ns
          | Some _ => false
          end
      | Some _ => false
      end
  | _ => false
  end.

Definition is_dict (x : json) : bool :=
  match x with JObj _ => true | _ => false end.

(** The graph service answers every query with a JSON object, or not at
    all. *)
Definition answers_objects (env : world) : Prop :=
  forall tr url e c,
    match env tr (HttpPost url e c) with
    | Body (JObj _) | Fails _ => True
    | Body _ => False
    end.

End Shape.

(** ** What the statements about the disease extractors are phrased with *)

Module ExtractedDiseases.

(** Number of records of [mcp_diseaseEntity-checkpoint.py] whose id is the
    string [s]. *)
Definition records_for (s : string) (ds : list DiseaseEntity.disease) : nat :=
  List.length (filter (fun d => Py.eq (DiseaseEntity.disease_id d) (JStr s)) ds).

(** The same count over the records of [mcp_generic-checkpoint.py]. *)
Definition generic_records_for (s : string) (ds : list Generic.disease) : nat :=
  List.length (filter (fun d => Py.eq (Generic.disease_id d) (JStr s)) ds).

(** What [mcp_generic-checkpoint.py] has appended to [ds] after meeting the
    bound ids [ids]: nothing if there were none (the catalogue is not looked
    at then), and else the ids that its catalogue lists, each as often as it
    was met. *)
Definition generic_kept (knowledge_graph : json)
    (ds ds' : list Generic.disease) (ids : list json) : Prop :=
  (ids = [] /\ ds' = ds) \/
  exists nodes_map,
    Py.get knowledge_graph "nodes" (JObj []) = Ok nodes_map /\
    map Generic.disease_id ds'
    = map Generic.disease_id ds ++ filter (Doc.in_catalogue nodes_map) ids.

(** Number of times the string [s] is bound, over all rows. *)
Definition occurrences (s : string) (ids : list json) : nat :=
  List.length (filter (fun i => Py.eq i (JStr s)) ids).

End ExtractedDiseases.

(** ** Reading the answer of the lookup service *)

(** How [get_gene_info] reads an answer that is a JSON object: without
    "esearchresult", without "idlist" in it, or with an "idlist" that is
    falsy (empty, [null]) the gene is [not_found]; with an "idlist" that is a
    list with a first element, the gene is [found] under that element,
    whatever follows it. *)
Definition first_match (get_gene_info : world -> string -> M GeneLookup) : Prop :=
  forall env s tr kv,
    let c := HttpGet NCBI_URL (ncbi_term s) in
    let no_match :=
      (Ok {| gene_symbol := Some s; entrez_id := None;
             lookup_status := not_found; lookup_error := None |},
       tr ++ [c]) in
    env tr c = Body (JObj kv) ->
    (Py.lookup "esearchresult" kv = None ->
     get_gene_info env s tr = no_match) /\
    (forall r,
       Py.lookup "esearchresult" kv = Some (JObj r) ->
       (Py.lookup "idlist" r = None -> get_gene_info env s tr = no_match) /\
       (forall l, Py.lookup "idlist" r = Some l -> Py.truthy l = false ->
                  get_gene_info env s tr = no_match) /\
       (forall x rest,
          Py.lookup "idlist" r = Some (JArr (x :: rest)) ->
          get_gene_info env s tr
          = (Ok {| gene_symbol := Some s; entrez_id := Some x;
                   lookup_status := found; lookup_error := None |},
             tr ++ [c]))).

(** ** More sample services *)

Module Samples2.

(** Every symbol resolves to id 348 and the graph service answers every
    query with the JSON value [null]. *)
Definition null_answers : world :=
  fun _ c =>
    match c with
    | HttpGet _ _ => Body (Doc.ncbi_answer [JStr "348"])
    | HttpPost _ _ _ => Body JNull
    end.

End Samples2.

(** ** What the statements about [analyze_gene_list] are phrased with *)

Module Batch.

(** The counts of a tally, added up. *)
Definition total (tally : list (json * Z)) : Z :=
  fold_right (fun entry acc => snd entry + acc) 0 tally.

Definition sum (l : list Z) : Z := fold_right Z.add 0 l.

(** [l] is [m] with some elements left out, the others in their order. *)
Inductive subseq {A : Type} : list A -> list A -> Prop :=
| subseq_nil : subseq [] []
| subseq_keep x l m : subseq l m -> subseq (x :: l) (x :: m)
| subseq_drop x l m : subseq l m -> subseq l (x :: m).

(** A tally as [dict_incr] builds it: hashable names, no two of them equal,
    every count at least 1. *)
Definition well_formed (tally : list (json * Z)) : Prop :=
  Forall (fun entry => Py.hashable (fst entry) = true /\ 1 <= snd entry) tally /\
  Doc.distinct (map fst tally).

End Batch.

Module Samples3.

(** An answer whose only catalogue entry has a list as its name. *)
Definition listed_name : json :=
  Doc.answer [Doc.row ["D1"]] [("D1", JObj [("name", JArr [JStr "X"])])].

(** Every symbol resolves to id 7 and every graph query is answered with
    [listed_name]. *)
Definition names_are_lists : world :=
  fun _ c =>
    match c with
    | HttpGet _ _ => Body (Doc.ncbi_answer [JStr "7"])
    | HttpPost _ _ _ => Body listed_name
    end.

End Samples3.

(** The record [get_gene_info] returns and the one request it makes: the
    trace grows by the GET of the symbol's term and by nothing else; the
    record has an error detail exactly when its status is [error]; it names
    the symbol, unless the status is [error] and [with_symbol] is off. *)
Definition lookup_record (get_gene_info : world -> string -> M GeneLookup)
    (with_symbol : bool) : Prop :=
  forall env s tr,
    exists gi,
      get_gene_info env s tr = (Ok gi, tr ++ [HttpGet NCBI_URL (ncbi_term s)]) /\
      (lookup_error gi <> None <-> lookup_status gi = error) /\
      gene_symbol gi
      = match lookup_status gi with
        | error => if with_symbol then Some s else None
        | _ => Some s
        end.

(** ** The HTTP client of the two asynchronous servers

    In [mcpserver_drugdisease.py] and [mcp_diseaseEntity-checkpoint.py] the
    functions [get_gene_info] and [query_translator_kg] open
    [async with httpx.AsyncClient(timeout=...) as client:] and only then
    [try:].  What is written under [try] is [DrugDisease.get_gene_info] and
    its like above: the function with a client in hand.  Building the client
    and closing it on the way out are outside the [try] block, and an
    exception of either leaves the function.  ([mcp_generic-checkpoint.py]
    calls [requests.get] and [requests.post] under [try] and builds no
    client.) *)

Module Client.

(** A client that was built, with what closing it will do. *)
Inductive client : Type :=
| Built (close : res unit).

(** What [httpx.AsyncClient(timeout=...)] does at a given moment: it builds a
    client, or raises. *)
Definition factory : Type := list call -> res client.

(** [async with httpx.AsyncClient(...) as client: body] *)
Definition within {A} (mk : factory) (body : M A) : M A :=
  fun tr =>
    match mk tr with
    | Raise e => (Raise e, tr)
    | Ok (Built close) =>
        match body tr with
        | (r, tr') =>
            match close with
            | Ok _ => (r, tr')
            | Raise e => (Raise e, tr')
            end
        end
    end.

(** Clients are built and closed without fault. *)
Definition sound (mk : factory) : Prop :=
  forall tr, mk tr = Ok (Built (Ok tt)).

Definition always_works : factory := fun _ => Ok (Built (Ok tt)).

Definition never_builds (e : exn) : factory := fun _ => Raise e.

Module OfDrugDisease.

Definition query_translator_kg (mk : factory) (env : world) (entrez_id : json)
    (target_category : string) : M json :=
  within mk (DrugDisease.query_translator_kg env entrez_id target_category).

Definition get_gene_info (mk : factory) (env : world) (gene_symbol : string)
    : M GeneLookup :=
  within mk (DrugDisease.get_gene_info env gene_symbol).

End OfDrugDisease.

Module OfDiseaseEntity.

Definition query_translator_kg (mk : factory) (env : world) (entrez_id : json)
    : M json :=
  within mk (DiseaseEntity.query_translator_kg env entrez_id).

Definition get_gene_info (mk : factory) (env : world) (gene_symbol : string)
    : M GeneLookup :=
  within mk (DiseaseEntity.get_gene_info env gene_symbol).

(** [call_tool("find_gene_diseases", ...)], with the two awaited calls as
    they are. *)
Definition find_gene_diseases (mk : factory) (env : world)
    (gene_symbol_arg : string) : M (reply DiseaseEntity.found_diseases) :=
  (let gene_symbol := Py.upper gene_symbol_arg in
   gene_info <- get_gene_info mk env gene_symbol ;;
   match lookup_status gene_info with
   | found =>
       entrez_id <- lift (entrez_id_of gene_info) ;;
       kg_result <- query_translator_kg mk env entrez_id ;;
       diseases <- lift (DiseaseEntity.extract_disease_associations kg_result) ;;
       entrez_id' <- lift (entrez_id_of gene_info) ;;
       ret (Report
              {| DiseaseEntity.fd_gene := gene_symbol;
                 DiseaseEntity.fd_entrez_id := entrez_id';
                 DiseaseEntity.disease_associations := Py.slice_to diseases 20;
                 DiseaseEntity.total_diseases_found :=
                   Z.of_nat (List.length diseases) |})
   | _ => ret (Text ("Could not find gene: " ++ gene_symbol)%string)
   end)%M.

End OfDiseaseEntity.

End Client.

(** ** More of what the statements are phrased with *)

Module Reading.

(** The answers of the lookup service that [get_gene_info] reads without an
    exception: a dict whose "esearchresult", if there, is a dict whose
    "idlist", if there, is falsy, or a list or a string (of which the first
    element can be taken). *)
Definition readable (data : json) : bool :=
  match data with
  | JObj kv =>
      match Py.lookup "esearchresult" kv with
      | None => true
      | Some (JObj r) =>
          match Py.lookup "idlist" r with
          | None => true
          | Some id_list =>
              negb (Py.truthy id_list) ||
              match id_list with
              | JArr _ | JStr _ => true
              | _ => false
              end
          end
      | Some _ => false
      end
  | _ => false
  end.

(** The disease record carries the name of the catalogue entry of its id,
    or the id itself where the entry has none. *)
Definition named_by_catalogue (nodes_map : json) (d : DiseaseEntity.disease)
    : Prop :=
  exists info,
    Py.getitem nodes_map (DiseaseEntity.disease_id d) = Ok info /\
    Py.get info "name" (DiseaseEntity.disease_id d)
      = Ok (DiseaseEntity.disease_name d).

(** A nameless entry is bound, and the next row is no dict. *)
Definition nameless_then_bad_row : json :=
  Doc.answer [Doc.row ["D2"]; JNull] [("D2", Doc.nameless)].

(** What a lookup record for symbol [s] looks like: the error detail is there
    exactly when the status is [error], and the symbol is there, except in
    the error record of a server that leaves it out. *)
Definition record_for (s : string) (with_symbol : bool) (gi : GeneLookup)
    : Prop :=
  (lookup_error gi <> None <-> lookup_status gi = error) /\
  gene_symbol gi
  = match lookup_status gi with
    | error => if with_symbol then Some s else None
    | _ => Some s
    end.

End Reading.

(** * Proofs *)

(** ** The operations on small inputs *)

Example slice_to_positive : Py.slice_to ["a"; "b"; "c"; "d"] 3 = ["a"; "b"; "c"].
Proof. reflexivity. Qed.

Example slice_to_beyond : Py.slice_to ["a"; "b"] 5 = ["a"; "b"].
Proof. reflexivity. Qed.

Example slice_to_negative : Py.slice_to ["a"; "b"; "c"] (-1) = ["a"; "b"].
Proof. reflexivity. Qed.

Example get_on_a_list_raises : Py.get (JArr []) "message" (JObj []) = Raise AttributeError.
Proof. reflexivity. Qed.

Example get_keeps_null :
  Py.get (JObj [("name", JNull)]) "name" (JStr "D1") = Ok JNull.
Proof. reflexivity. Qed.

Example true_is_one : Py.eq (JBool true) (JNum 1) = true.
Proof. reflexivity. Qed.

Example iterating_null_raises : Py.iter JNull = Raise TypeError.
Proof. reflexivity. Qed.

Example upper_apoe : Py.upper "apoE4" = "APOE4".
Proof. reflexivity. Qed.

Example sorted_desc_ties :
  Py.sorted_desc snd [("a", 1); ("b", 3); ("c", 1); ("d", 3)]
  = [("b", 3); ("d", 3); ("a", 1); ("c", 1)].
Proof. reflexivity. Qed.

Example an_error_document_gives_a_marker :
  DrugDisease.extract_associations (JObj [("error", JStr "boom")]) "Drug"
  = Ok [DrugDisease.ErrorMarker (JStr "boom")].
Proof. reflexivity. Qed.

Example null_results_give_a_parsing_marker :
  DrugDisease.extract_associations
    (JObj [("message", JObj [("results", JNull)])]) "Disease"
  = Ok [DrugDisease.ErrorMarker (JStr "Parsing error: TypeError")].
Proof. reflexivity. Qed.

Example offline_lookup :
  DrugDisease.get_gene_info Samples.offline "APOE" []
  = (Ok {| gene_symbol := None; entrez_id := None;
           lookup_status := error; lookup_error := Some "timed out" |},
     [HttpGet NCBI_URL (ncbi_term "APOE")]).
Proof. reflexivity. Qed.

Example offline_query :
  DrugDisease.query_translator_kg Samples.offline (JStr "348") "biolink:Disease" []
  = (Ok (JObj [("error", JStr "Connection error: timed out")]),
     [HttpPost DrugDisease.TRAPI_URL (JStr "348") "biolink:Disease"]).
Proof. reflexivity. Qed.

(** ** Equality of decoded values against a string *)

Lemma eq_str_inv (x : json) (s : string) :
  Py.eq x (JStr s) = true -> x = JStr s.
Proof.
  destruct x; simpl; try discriminate.
  intros H. apply String.eqb_eq in H. now subst.
Qed.

Lemma eq_str_refl (s : string) : Py.eq (JStr s) (JStr s) = true.
Proof. simpl. apply String.eqb_refl. Qed.

Lemma eq_str_sym_false (y : json) (s : string) :
  Py.eq (JStr s) y = false -> Py.eq y (JStr s) = false.
Proof.
  destruct y; simpl; auto.
  now rewrite String.eqb_sym.
Qed.

(** An id that is found in the catalogue and can be used to subscript it
    equals itself. *)
Lemma catalogue_key_refl (nodes_map i info : json) :
  Py.contains i nodes_map = Ok true ->
  Py.getitem nodes_map i = Ok info ->
  Py.eq i i = true.
Proof.
  destruct nodes_map; simpl; try discriminate.
  - destruct i; discriminate.
  - intros _. destruct i; simpl; try discriminate; intros _.
    + apply Bool.eqb_reflx.
    + apply Z.eqb_refl.
  - destruct i; try discriminate. intros _ _. apply eq_str_refl.
Qed.

(** ** Stepping through a fallible computation *)

Ltac rstep H :=
  match type of H with
  | context [rbind ?r _] =>
      let v := fresh "v" in
      let E := fresh "E" in
      destruct r as [v|] eqn:E; simpl in H; [|discriminate H]
  end.

Lemma existsb_map {A B} (f : B -> bool) (g : A -> B) (l : list A) :
  existsb f (map g l) = existsb (fun a => f (g a)) l.
Proof. induction l; simpl; congruence. Qed.

Lemma filter_map_length {A B} (f : B -> bool) (g : A -> B) (l : list A) :
  List.length (filter f (map g l)) = List.length (filter (fun a => f (g a)) l).
Proof.
  induction l as [|a l IH]; simpl; auto.
  destruct (f (g a)); simpl; congruence.
Qed.

(** ** The ids kept by the extractor *)

Section Absorb.

Variable nodes_map : json.

Lemma absorb_app (seen ids1 ids2 : list json) :
  Doc.absorb nodes_map seen (ids1 ++ ids2) = Doc.absorb nodes_map (Doc.absorb nodes_map seen ids1) ids2.
Proof.
  revert seen. induction ids1 as [|i ids1 IH]; intros seen; simpl; auto.
Qed.

Lemma absorb_seen (seen ids : list json) (x : json) :
  In x seen -> In x (Doc.absorb nodes_map seen ids).
Proof.
  revert seen. induction ids as [|i ids IH]; intros seen Hx; simpl; auto.
  apply IH. destruct (Doc.in_catalogue nodes_map i && _); auto. apply in_or_app; auto.
Qed.

Lemma absorb_In_inv (seen ids : list json) (x : json) :
  In x (Doc.absorb nodes_map seen ids) -> In x seen \/ (In x ids /\ Doc.in_catalogue nodes_map x = true).
Proof.
  revert seen. induction ids as [|i ids IH]; intros seen Hx; simpl in *; auto.
  apply IH in Hx. destruct Hx as [Hx | [Hx Hk]]; [|now auto].
  destruct (Doc.in_catalogue nodes_map i) eqn:Hi; simpl in Hx; auto.
  destruct (existsb _ seen); simpl in Hx; auto.
  apply in_app_or in Hx. destruct Hx as [Hx | [Hx | []]]; auto.
  subst. auto.
Qed.

Lemma absorb_str (seen ids : list json) (s : string) :
  In (JStr s) ids -> Doc.in_catalogue nodes_map (JStr s) = true -> In (JStr s) (Doc.absorb nodes_map seen ids).
Proof.
  revert seen. induction ids as [|i ids IH]; intros seen Hin Hk; simpl in *.
  - contradiction.
  - destruct Hin as [-> | Hin]; [|now apply IH].
    apply absorb_seen. rewrite Hk. simpl.
    destruct (existsb _ seen) eqn:Hex; simpl.
    + apply existsb_exists in Hex. destruct Hex as [e [He Heq]].
      apply eq_str_inv in Heq. now subst.
    + apply in_or_app. right. now left.
Qed.

Lemma distinct_snoc (l : list json) (i : json) :
  Doc.distinct l -> existsb (fun s => Py.eq s i) l = false -> Doc.distinct (l ++ [i]).
Proof.
  unfold Doc.distinct. induction 1 as [|a l Ha Hl IH]; simpl; intros Hex.
  - constructor; constructor.
  - apply orb_false_iff in Hex. destruct Hex as [Hai Hex].
    constructor; auto.
    apply Forall_app. split; auto.
Qed.

Lemma absorb_distinct (seen ids : list json) :
  Doc.distinct seen -> Doc.distinct (Doc.absorb nodes_map seen ids).
Proof.
  revert seen. induction ids as [|i ids IH]; intros seen Hd; simpl; auto.
  apply IH. destruct (Doc.in_catalogue nodes_map i); simpl; auto.
  destruct (existsb _ seen) eqn:Hex; simpl; auto.
  now apply distinct_snoc.
Qed.

Lemma distinct_count_str (l : list json) (s : string) :
  Doc.distinct l ->
  (List.length (filter (fun x => Py.eq x (JStr s)) l) <= 1)%nat.
Proof.
  induction 1 as [|a l Ha Hl IH]; simpl; auto.
  destruct (Py.eq a (JStr s)) eqn:Ea; simpl; [|lia].
  apply eq_str_inv in Ea. subst a.
  assert (filter (fun x => Py.eq x (JStr s)) l = []) as ->.
  { clear IH Hl. induction l as [|y l IHl]; simpl; auto.
    inversion Ha as [|? ? Hy Hrest]; subst.
    rewrite (eq_str_sym_false _ _ Hy). auto. }
  simpl. lia.
Qed.

Lemma order_more (seen done : list json) (i : json) :
  Doc.first_appearance_order seen done ->
  Doc.first_appearance_order seen (done ++ [i]).
Proof.
  intros H l1 x l2 E. destruct (H l1 x l2 E) as (ids1 & ids2 & -> & Hn & Hi).
  exists ids1, (ids2 ++ [i]). rewrite <- app_assoc. simpl. auto.
Qed.

Lemma order_snoc (seen done : list json) (i : json) :
  Doc.first_appearance_order seen done ->
  incl seen done -> ~ In i done ->
  Doc.first_appearance_order (seen ++ [i]) (done ++ [i]).
Proof.
  intros H Hincl Hnew l1 x l2 E.
  destruct l2 as [|y l2] using rev_ind.
  - apply app_inj_tail in E. destruct E as [-> ->].
    exists done, []. auto.
  - clear IHl2.
    change (seen ++ [i] = l1 ++ (x :: l2) ++ [y]) in E.
    rewrite app_assoc in E. apply app_inj_tail in E. destruct E as [E <-].
    destruct (H l1 x l2 E) as (ids1 & ids2 & -> & Hn & Hi).
    exists ids1, (ids2 ++ [i]). rewrite <- app_assoc. simpl. auto.
Qed.

Lemma existsb_snoc {A} (f : A -> bool) (l : list A) (a : A) :
  existsb f (l ++ [a]) = existsb f l || f a.
Proof. rewrite existsb_app. simpl. now rewrite orb_false_r. Qed.

Lemma absorb_order_from (seen done ids : list json) :
  Forall (fun i => Doc.in_catalogue nodes_map i = true -> Py.eq i i = true) ids ->
  Doc.first_appearance_order seen done ->
  incl seen done ->
  (forall j, In j done -> Doc.in_catalogue nodes_map j = true ->
             existsb (fun s => Py.eq s j) seen = true) ->
  Doc.first_appearance_order (Doc.absorb nodes_map seen ids) (done ++ ids).
Proof.
  intros Hrefl. revert seen done.
  induction Hrefl as [|i ids Hi Hids IH]; intros seen done Hord Hincl Hcov; simpl.
  - now rewrite app_nil_r.
  - replace (done ++ i :: ids) with ((done ++ [i]) ++ ids)
      by (rewrite <- app_assoc; reflexivity).
    destruct (Doc.in_catalogue nodes_map i) eqn:Hk; simpl.
    + destruct (existsb (fun s => Py.eq s i) seen) eqn:Hex; simpl.
      * apply IH.
        -- now apply order_more.
        -- intros z Hz. apply in_or_app. left. now apply Hincl.
        -- intros j Hj Hkj. apply in_app_or in Hj.
           destruct Hj as [Hj | [<- | []]]; auto.
      * apply IH.
        -- apply order_snoc; auto.
           intros Hin. specialize (Hcov i Hin Hk). congruence.
        -- intros z Hz. apply in_app_or in Hz. apply in_or_app.
           destruct Hz as [Hz | Hz]; auto.
        -- intros j Hj Hkj. rewrite existsb_snoc. apply in_app_or in Hj.
           destruct Hj as [Hj | [<- | []]].
           ++ rewrite (Hcov j Hj Hkj). reflexivity.
           ++ rewrite (Hi eq_refl). apply orb_true_r.
    + apply IH.
      * now apply order_more.
      * intros z Hz. apply in_or_app. left. now apply Hincl.
      * intros j Hj Hkj. apply in_app_or in Hj.
        destruct Hj as [Hj | [<- | []]]; auto. congruence.
Qed.

Lemma absorb_order (ids : list json) :
  Forall (fun i => Doc.in_catalogue nodes_map i = true -> Py.eq i i = true) ids ->
  Doc.first_appearance_order (Doc.absorb nodes_map [] ids) ids.
Proof.
  intros H. apply (absorb_order_from [] [] ids H).
  - intros l1 x l2 E. destruct l1; discriminate.
  - intros z [].
  - intros j [].
Qed.

End Absorb.

(** ** The extractor of [mcpserver_drugdisease.py] *)

Section DrugDiseaseExtractor.

Import DrugDisease.

Variables (nodes_map : json) (type_label : string).

Lemma visit_node_kept (items items' : list assoc) (node : json) :
  visit_node nodes_map type_label items node = Ok items' ->
  exists i,
    Py.get node "id" JNull = Ok i /\
    map id items' = Doc.absorb nodes_map (map id items) [i] /\
    (Doc.in_catalogue nodes_map i = true -> Py.eq i i = true) /\
    (Forall (Extracted.from_catalogue nodes_map type_label) items ->
     Forall (Extracted.from_catalogue nodes_map type_label) items').
Proof.
  unfold visit_node. intros H.
  rstep H. exists v. split; [reflexivity|].
  rstep H. simpl. unfold Doc.in_catalogue. rewrite E0.
  destruct v0; simpl.
  - rstep H. rstep H.
    rewrite existsb_map.
    destruct (existsb (fun i => Py.eq (id i) v) items) eqn:Hex; simpl in H |- *.
    + inversion H; subst. repeat split; auto.
      intros _. eapply catalogue_key_refl; eauto.
    + rstep H. inversion H; subst. rewrite map_app. simpl.
      repeat split; auto.
      * intros _. eapply catalogue_key_refl; eauto.
      * intros Hall. apply Forall_app. split; auto.
        constructor; [|constructor].
        exists v0. simpl. auto.
  - inversion H; subst. repeat split; auto. discriminate.
Qed.

Lemma visit_nodes_kept (nodes : list json) (items items' : list assoc) :
  for_each (visit_node nodes_map type_label) nodes items = Ok items' ->
  exists ids,
    Doc.node_ids nodes = Ok ids /\
    map id items' = Doc.absorb nodes_map (map id items) ids /\
    Forall (fun i => Doc.in_catalogue nodes_map i = true -> Py.eq i i = true) ids /\
    (Forall (Extracted.from_catalogue nodes_map type_label) items ->
     Forall (Extracted.from_catalogue nodes_map type_label) items').
Proof.
  revert items. induction nodes as [|node nodes IH]; intros items H; simpl in H.
  - inversion H; subst. exists []. repeat split; auto.
  - rstep H.
    destruct (visit_node_kept _ _ _ E) as (i & Hi & Hmap & Hrefl & Hcat).
    destruct (IH _ H) as (ids & Hids & Hmap' & Hrefl' & Hcat').
    exists (i :: ids). simpl. rewrite Hi, Hids. simpl.
    repeat split; auto.
    rewrite Hmap'. rewrite Hmap. reflexivity.
Qed.

Lemma visit_result_kept (result : json) (items items' : list assoc) :
  visit_result nodes_map type_label items result = Ok items' ->
  exists ids,
    Doc.row_ids result = Ok ids /\
    map id items' = Doc.absorb nodes_map (map id items) ids /\
    Forall (fun i => Doc.in_catalogue nodes_map i = true -> Py.eq i i = true) ids /\
    (Forall (Extracted.from_catalogue nodes_map type_label) items ->
     Forall (Extracted.from_catalogue nodes_map type_label) items').
Proof.
  unfold visit_result, Doc.row_ids. intros H.
  rstep H. simpl. rstep H. simpl. rstep H. simpl.
  now apply visit_nodes_kept.
Qed.

Lemma visit_results_kept (rows : list json) (items items' : list assoc) :
  for_each (visit_result nodes_map type_label) rows items = Ok items' ->
  exists ids,
    Doc.rows_ids rows = Ok ids /\
    map id items' = Doc.absorb nodes_map (map id items) ids /\
    Forall (fun i => Doc.in_catalogue nodes_map i = true -> Py.eq i i = true) ids /\
    (Forall (Extracted.from_catalogue nodes_map type_label) items ->
     Forall (Extracted.from_catalogue nodes_map type_label) items').
Proof.
  revert items. induction rows as [|row rows IH]; intros items H; simpl in H.
  - inversion H; subst. exists []. repeat split; auto.
  - rstep H.
    destruct (visit_result_kept _ _ _ E) as (a & Ha & Hmap & Hrefl & Hcat).
    destruct (IH _ H) as (b & Hb & Hmap' & Hrefl' & Hcat').
    exists (a ++ b). simpl. rewrite Ha, Hb. simpl.
    repeat split; auto.
    + rewrite absorb_app. rewrite Hmap'. rewrite Hmap. reflexivity.
    + apply Forall_app. auto.
Qed.

End DrugDiseaseExtractor.

Lemma walk_kept (kg_result : json) (type_label : string)
    (items : list DrugDisease.assoc) :
  DrugDisease.walk kg_result type_label = Ok items ->
  exists nodes_map ids,
    Doc.catalogue kg_result = Ok nodes_map /\
    Doc.bound_ids kg_result = Ok ids /\
    map DrugDisease.id items = Doc.absorb nodes_map [] ids /\
    Forall (fun i => Doc.in_catalogue nodes_map i = true -> Py.eq i i = true) ids /\
    Forall (Extracted.from_catalogue nodes_map type_label) items.
Proof.
  unfold DrugDisease.walk, Doc.catalogue, Doc.bound_ids. intros H.
  rstep H. simpl. rstep H. simpl. rstep H. simpl. rstep H. rstep H. simpl.
  destruct (visit_results_kept _ _ _ _ _ H) as (ids & Hids & Hmap & Hrefl & Hcat).
  exists v2, ids. repeat split; auto.
Qed.

(** When the extractor answers with association records, they are the ones
    its [try] block has collected. *)
Lemma extract_associations_records (kg_result : json) (type_label : string)
    (items : list DrugDisease.assoc) :
  DrugDisease.extract_associations kg_result type_label
    = Ok (map DrugDisease.Assoc items) ->
  DrugDisease.walk kg_result type_label = Ok items.
Proof.
  unfold DrugDisease.extract_associations. intros H.
  rstep H. destruct v.
  - rstep H. destruct items; discriminate.
  - destruct (DrugDisease.walk kg_result type_label) as [items'|e].
    + f_equal. inversion H as [E']. clear H E.
      revert items E'. induction items' as [|a l IH]; intros [|b m] E';
        simpl in E'; try discriminate; auto.
      inversion E'; subst. f_equal. auto.
    + destruct items; discriminate.
Qed.

Lemma In_count_str (l : list json) (s : string) :
  In (JStr s) l ->
  (1 <= List.length (filter (fun x => Py.eq x (JStr s)) l))%nat.
Proof.
  intros Hin.
  assert (In (JStr s) (filter (fun x => Py.eq x (JStr s)) l)) as H.
  { apply filter_In. split; auto. apply eq_str_refl. }
  destruct (filter _ l); [contradiction | simpl; lia].
Qed.

Lemma count_str_In (l : list json) (s : string) :
  (1 <= List.length (filter (fun x => Py.eq x (JStr s)) l))%nat ->
  In (JStr s) l.
Proof.
  intros H.
  destruct (filter (fun x => Py.eq x (JStr s)) l) as [|x m] eqn:E;
    [simpl in H; lia|].
  assert (In x (filter (fun x => Py.eq x (JStr s)) l)) as Hx
    by (rewrite E; now left).
  apply filter_In in Hx. destruct Hx as [Hx Heq].
  apply eq_str_inv in Heq. now subst.
Qed.

(** C2 (amended).  Whenever [extract_associations] answers with association
    records (the document has no "error" entry and is walked without an
    exception), no two records have equal ids, there is exactly one record for
    an id precisely when some result row binds that id to n1 and the id is in
    the node catalogue (and none otherwise), and the records come in the order
    in which their ids first appear in the result rows. *)
Theorem extract_associations_dedup (kg_result : json) (type_label : string)
    (items : list DrugDisease.assoc) :
  DrugDisease.extract_associations kg_result type_label
    = Ok (map DrugDisease.Assoc items) ->
  exists nodes_map ids,
    Doc.catalogue kg_result = Ok nodes_map /\
    Doc.bound_ids kg_result = Ok ids /\
    Doc.distinct (map DrugDisease.id items) /\
    (forall s, (Extracted.records_for s items <= 1)%nat) /\
    (forall s, Extracted.records_for s items = 1%nat <->
               In (JStr s) ids /\ Doc.in_catalogue nodes_map (JStr s) = true) /\
    Doc.first_appearance_order (map DrugDisease.id items) ids.
Proof.
  intros H. apply extract_associations_records in H.
  destruct (walk_kept _ _ _ H) as (nodes_map & ids & Hcat & Hids & Hmap & Hrefl & _).
  exists nodes_map, ids.
  assert (Doc.distinct (map DrugDisease.id items)) as Hd.
  { rewrite Hmap. apply absorb_distinct. constructor. }
  assert (forall s, (Extracted.records_for s items <= 1)%nat) as Hle.
  { intros s. unfold Extracted.records_for.
    rewrite <- (filter_map_length (fun x => Py.eq x (JStr s)) DrugDisease.id).
    now apply distinct_count_str. }
  repeat split; auto.
  - unfold Extracted.records_for in H0.
    rewrite <- (filter_map_length (fun x => Py.eq x (JStr s)) DrugDisease.id) in H0.
    assert (In (JStr s) (map DrugDisease.id items)) as Hin
      by (apply count_str_In; lia).
    rewrite Hmap in Hin. apply absorb_In_inv in Hin.
    destruct Hin as [[] | [Hin _]]; auto.
  - unfold Extracted.records_for in H0.
    rewrite <- (filter_map_length (fun x => Py.eq x (JStr s)) DrugDisease.id) in H0.
    assert (In (JStr s) (map DrugDisease.id items)) as Hin
      by (apply count_str_In; lia).
    rewrite Hmap in Hin. apply absorb_In_inv in Hin.
    destruct Hin as [[] | [_ Hk]]; auto.
  - intros [Hin Hk]. specialize (Hle s).
    assert (1 <= Extracted.records_for s items)%nat; [|lia].
    unfold Extracted.records_for.
    rewrite <- (filter_map_length (fun x => Py.eq x (JStr s)) DrugDisease.id).
    apply In_count_str. rewrite Hmap. now apply absorb_str.
  - rewrite Hmap. now apply absorb_order.
Qed.

(** C2, as stated, fails where the rows bind an id that the node catalogue
    does not list: the id is bound twice and the extractor returns no record
    for it. *)
Lemma extract_associations_uncatalogued_id :
  Doc.bound_ids Samples.uncatalogued = Ok [JStr "D9"; JStr "D9"] /\
  DrugDisease.extract_associations Samples.uncatalogued "Disease" = Ok [] /\
  Extracted.records_for "D9" [] <> 1%nat.
Proof. split; [reflexivity|]. split; [reflexivity | discriminate]. Qed.

Lemma extract_associations_dedup_witness :
  exists items,
    DrugDisease.extract_associations Samples.repeated "Disease"
      = Ok (map DrugDisease.Assoc items) /\
    map DrugDisease.id items = [JStr "D1"; JStr "D2"] /\
    Extracted.records_for "D1" items = 1%nat /\
    Doc.first_appearance_order (map DrugDisease.id items)
      [JStr "D1"; JStr "D2"; JStr "D1"; JStr "D1"].
Proof.
  eexists. split; [reflexivity|].
  split; [reflexivity|].
  destruct (extract_associations_dedup Samples.repeated "Disease" _ eq_refl)
    as (nodes_map & ids & Hcat & Hids & _ & _ & Hone & Hord).
  vm_compute in Hcat, Hids.
  injection Hcat as <-. injection Hids as <-.
  split; [|exact Hord].
  apply Hone. split; [simpl; auto | reflexivity].
Defined.

(** The variant of [mcp_generic-checkpoint.py] keeps every occurrence. *)
Lemma generic_extractor_keeps_repeats :
  exists a b c,
    Generic.extract_disease_associations Samples.thrice
      = Ok [Generic.Disease a; Generic.Disease b; Generic.Disease c] /\
    Generic.disease_id a = JStr "D1" /\
    Generic.disease_id b = JStr "D1" /\
    Generic.disease_id c = JStr "D1".
Proof. do 3 eexists. split; [reflexivity|]. simpl. auto. Qed.

(** ** The identifier resolver and the query client *)

Ltac run_M := unfold bind, try_except, request, lift, ret; simpl.

Ltac solve_resolves :=
  intros env s tr; run_M;
  destruct (env tr (HttpGet NCBI_URL (ncbi_term s))) as [doc|e0] eqn:Henv; simpl;
  [ destruct (Py.get doc "esearchresult" (JObj [])) as [esr|]; simpl;
    [ destruct (Py.get esr "idlist" (JArr [])) as [id_list|]; simpl;
      [ destruct (Py.truthy id_list); simpl;
        [ destruct (Py.getitem id_list (JNum 0)); simpl | ] | ] | ] | ];
  eexists; (split; [reflexivity|]); simpl;
  (split; [split; congruence|]);
  (split; [congruence|]);
  intros ? ?; congruence.

Lemma drugdisease_resolves : resolves DrugDisease.get_gene_info false.
Proof. unfold resolves, DrugDisease.get_gene_info. solve_resolves. Qed.

Lemma diseaseentity_resolves : resolves DiseaseEntity.get_gene_info true.
Proof. unfold resolves, DiseaseEntity.get_gene_info. solve_resolves. Qed.

Lemma generic_resolves : resolves Generic.get_gene_info true.
Proof. unfold resolves, Generic.get_gene_info. solve_resolves. Qed.

(** C6.  Whatever the lookup service does, each variant of [get_gene_info]
    returns a lookup record, and the record has an "entrez_id" exactly when
    its status is [found]. *)
Theorem identifier_present_iff_found (env : world) (s : string) (tr : list call) :
  (exists gi tr',
     DrugDisease.get_gene_info env s tr = (Ok gi, tr') /\
     (entrez_id gi <> None <-> lookup_status gi = found)) /\
  (exists gi tr',
     Generic.get_gene_info env s tr = (Ok gi, tr') /\
     (entrez_id gi <> None <-> lookup_status gi = found)) /\
  (exists gi tr',
     DiseaseEntity.get_gene_info env s tr = (Ok gi, tr') /\
     (entrez_id gi <> None <-> lookup_status gi = found)).
Proof.
  destruct (drugdisease_resolves env s tr) as (g1 & E1 & I1 & _).
  destruct (generic_resolves env s tr) as (g2 & E2 & I2 & _).
  destruct (diseaseentity_resolves env s tr) as (g3 & E3 & I3 & _).
  split; [|split]; eexists; eexists; eauto.
Qed.

Lemma query_translator_kg_returns (env : world) (entrez_id : json)
    (target_category : string) (tr : list call) :
  let c := HttpPost DrugDisease.TRAPI_URL entrez_id target_category in
  DrugDisease.query_translator_kg env entrez_id target_category tr
    = (Ok match env tr c with
          | Body doc => doc
          | Fails e =>
              JObj [("error", JStr ("Connection error: " ++ str_exn e)%string)]
          end,
       tr ++ [c]).
Proof.
  unfold DrugDisease.query_translator_kg. run_M.
  destruct (env tr _); reflexivity.
Qed.

(** ** Counting requests *)

Lemma graph_queries_get (tr : list call) (url term : string) :
  graph_queries (tr ++ [HttpGet url term]) = graph_queries tr.
Proof. unfold graph_queries. rewrite filter_app. simpl. now rewrite app_nil_r. Qed.

Lemma lookups_get (tr : list call) (url term : string) :
  lookups (tr ++ [HttpGet url term]) = S (lookups tr).
Proof.
  unfold lookups. rewrite filter_app, length_app. simpl. lia.
Qed.

Lemma lookups_post (tr : list call) (url : string) (e : json) (c : string) :
  lookups (tr ++ [HttpPost url e c]) = lookups tr.
Proof. unfold lookups. rewrite filter_app. simpl. now rewrite app_nil_r. Qed.

Lemma resolves_no_query (get_gene_info : world -> string -> M GeneLookup)
    (b : bool) (env : world) (s : string) (tr tr1 : list call) (gi : GeneLookup) :
  resolves get_gene_info b ->
  get_gene_info env s tr = (Ok gi, tr1) ->
  graph_queries tr1 = graph_queries tr.
Proof.
  intros R H. destruct (R env s tr) as (gi' & E & _).
  rewrite E in H. injection H as _ <-. apply graph_queries_get.
Qed.

(** C5.  When the resolution of the symbol ends with a status other than
    [found], the handler answers "Could not find gene: ..." right after the
    lookup: its trace is the one the lookup left, with no knowledge-graph
    query added.  This holds for [find_gene_interactions] and for both
    variants of [find_gene_diseases]. *)
Theorem unresolved_gene_short_circuits (env : world) (sym : string)
    (tr : list call) :
  (forall gi tr1,
     DrugDisease.get_gene_info env (Py.upper sym) tr = (Ok gi, tr1) ->
     lookup_status gi <> found ->
     DrugDisease.find_gene_interactions env sym tr
       = (Ok (Text ("Could not find gene: " ++ Py.upper sym)%string), tr1) /\
     graph_queries tr1 = graph_queries tr) /\
  (forall gi tr1,
     Generic.get_gene_info env (Py.upper sym) tr = (Ok gi, tr1) ->
     lookup_status gi <> found ->
     Generic.find_gene_diseases env sym tr
       = (Ok (Text ("Could not find gene: " ++ Py.upper sym)%string), tr1) /\
     graph_queries tr1 = graph_queries tr) /\
  (forall gi tr1,
     DiseaseEntity.get_gene_info env (Py.upper sym) tr = (Ok gi, tr1) ->
     lookup_status gi <> found ->
     DiseaseEntity.find_gene_diseases env sym tr
       = (Ok (Text ("Could not find gene: " ++ Py.upper sym)%string), tr1) /\
     graph_queries tr1 = graph_queries tr).
Proof.
  split; [|split]; intros gi tr1 Hres Hst; split.
  - unfold DrugDisease.find_gene_interactions, bind. rewrite Hres.
    destruct (lookup_status gi); try reflexivity. contradiction.
  - eapply resolves_no_query; [apply drugdisease_resolves | exact Hres].
  - unfold Generic.find_gene_diseases, bind. rewrite Hres.
    destruct (lookup_status gi); try reflexivity. contradiction.
  - eapply resolves_no_query; [apply generic_resolves | exact Hres].
  - unfold DiseaseEntity.find_gene_diseases, bind. rewrite Hres.
    destruct (lookup_status gi); try reflexivity. contradiction.
  - eapply resolves_no_query; [apply diseaseentity_resolves | exact Hres].
Qed.

Lemma unresolved_gene_short_circuits_witness :
  let env := Samples.two_genes Samples.once in
  let tr1 := [HttpGet NCBI_URL (ncbi_term "ZZZNOTAGENE")] in
  DrugDisease.find_gene_interactions env "zzznotagene" []
    = (Ok (Text "Could not find gene: ZZZNOTAGENE"), tr1) /\
  graph_queries tr1 = graph_queries [].
Proof.
  intros env tr1.
  destruct (unresolved_gene_short_circuits env "zzznotagene" []) as [H _].
  apply (H {| gene_symbol := Some "ZZZNOTAGENE"; entrez_id := None;
              lookup_status := not_found; lookup_error := None |} tr1).
  - reflexivity.
  - discriminate.
Defined.

(** ** [find_gene_interactions] *)

(** On a JSON object the extractor never raises: an "error" entry, or an
    exception while walking, comes back as a marker. *)
Lemma extract_associations_total_on_objects (kv : list (string * json))
    (type_label : string) :
  exists out, DrugDisease.extract_associations (JObj kv) type_label = Ok out.
Proof.
  unfold DrugDisease.extract_associations. simpl.
  destruct (Py.lookup "error" kv); simpl; [eexists; reflexivity|].
  destruct (DrugDisease.walk (JObj kv) type_label); eexists; reflexivity.
Qed.

(** C9.  Whenever [find_gene_interactions] answers with a summary, its two
    lists are the first 15 records of what was extracted from the disease
    answer and from the chemical-entity answer, and its two counts are the
    lengths of the extracted lists before the cut. *)
Theorem summary_caps_lists_counts_all (env : world) (sym : string)
    (tr tr' : list call) (r : DrugDisease.interactions) :
  DrugDisease.find_gene_interactions env sym tr = (Ok (Report r), tr') ->
  exists e disease_raw drug_raw diseases drugs tr1 tr2,
    DrugDisease.query_translator_kg env e "biolink:Disease" tr1
      = (Ok disease_raw, tr2) /\
    DrugDisease.query_translator_kg env e "biolink:ChemicalEntity" tr2
      = (Ok drug_raw, tr') /\
    DrugDisease.extract_associations disease_raw "Disease" = Ok diseases /\
    DrugDisease.extract_associations drug_raw "Drug" = Ok drugs /\
    DrugDisease.top_diseases r = firstn 15 diseases /\
    DrugDisease.top_drugs r = firstn 15 drugs /\
    (List.length (DrugDisease.top_diseases r) <= 15)%nat /\
    (List.length (DrugDisease.top_drugs r) <= 15)%nat /\
    DrugDisease.disease_count r = Z.of_nat (List.length diseases) /\
    DrugDisease.drug_count r = Z.of_nat (List.length drugs).
Proof.
  unfold DrugDisease.find_gene_interactions, bind. intros H.
  destruct (DrugDisease.get_gene_info env (Py.upper sym) tr) as [[gi|x] tr1];
    [|discriminate].
  destruct (lookup_status gi); try discriminate.
  unfold lift at 1 in H.
  destruct (entrez_id_of gi) as [e|]; [|discriminate].
  destruct (DrugDisease.query_translator_kg env e "biolink:Disease" tr1)
    as [[disease_raw|] tr2] eqn:Hq1; [|discriminate].
  destruct (DrugDisease.query_translator_kg env e "biolink:ChemicalEntity" tr2)
    as [[drug_raw|] tr3] eqn:Hq2; [|discriminate].
  unfold lift, ret in H.
  destruct (DrugDisease.extract_associations disease_raw "Disease")
    as [diseases|] eqn:Hd; [|discriminate].
  destruct (DrugDisease.extract_associations drug_raw "Drug")
    as [drugs|] eqn:Hg; [|discriminate].
  injection H as <- <-.
  exists e, disease_raw, drug_raw, diseases, drugs, tr1, tr2. simpl.
  change (Py.slice_to diseases 15) with (firstn 15 diseases).
  change (Py.slice_to drugs 15) with (firstn 15 drugs).
  repeat (split; [solve [auto | apply firstn_le_length]|]).
  reflexivity.
Qed.

Lemma summary_caps_lists_counts_all_witness :
  exists r tr',
    DrugDisease.find_gene_interactions Samples.drugs_down "apoe" []
      = (Ok (Report r), tr') /\
    (List.length (DrugDisease.top_diseases r) <= 15)%nat /\
    (List.length (DrugDisease.top_drugs r) <= 15)%nat /\
    DrugDisease.disease_count r = 1 /\
    DrugDisease.drug_count r = 1.
Proof.
  eexists. eexists. split; [reflexivity|].
  destruct (summary_caps_lists_counts_all Samples.drugs_down "apoe" [] _ _ eq_refl)
    as (e & d & g & ds & gs & t1 & t2 & _ & _ & _ & _ & _ & _ & H1 & H2 & _).
  split; [exact H1|]. split; [exact H2|]. split; reflexivity.
Defined.

(** C3, as stated, fails: when the chemical-entity query fails and the
    disease query is answered, the summary's drug list is not empty.  It
    holds the error marker, and the drug count is 1. *)
Lemma failed_drug_query_leaves_a_marker :
  exists r tr',
    DrugDisease.find_gene_interactions Samples.drugs_down "apoe" []
      = (Ok (Report r), tr') /\
    DrugDisease.top_drugs r
      = [DrugDisease.ErrorMarker (JStr "Connection error: timed out")] /\
    DrugDisease.top_drugs r <> [] /\
    DrugDisease.drug_count r = 1.
Proof.
  eexists. eexists. split; [reflexivity|]. simpl.
  split; [reflexivity|]. split; [discriminate | reflexivity].
Qed.

(** C3 (amended).  Let the symbol resolve to an id, the disease query hand
    back a document from which [diseases] is extracted, and the
    chemical-entity query hand back an error value, a dict with an "error"
    entry.  Then [find_gene_interactions] raises nothing and answers with a
    summary whose disease list is the first 15 of [diseases], whose drug list
    is the single error marker carrying that error, and whose drug count
    is 1. *)
Theorem failed_drug_query_is_contained (env : world) (sym : string)
    (tr tr1 tr2 tr3 : list call) (gi : GeneLookup) (e disease_raw detail : json)
    (kv : list (string * json)) (diseases : list DrugDisease.item) :
  DrugDisease.get_gene_info env (Py.upper sym) tr = (Ok gi, tr1) ->
  lookup_status gi = found ->
  entrez_id gi = Some e ->
  DrugDisease.query_translator_kg env e "biolink:Disease" tr1
    = (Ok disease_raw, tr2) ->
  DrugDisease.extract_associations disease_raw "Disease" = Ok diseases ->
  DrugDisease.query_translator_kg env e "biolink:ChemicalEntity" tr2
    = (Ok (JObj kv), tr3) ->
  Py.lookup "error" kv = Some detail ->
  DrugDisease.find_gene_interactions env sym tr
    = (Ok (Report
             {| DrugDisease.gene := Py.upper sym;
                DrugDisease.gene_entrez_id := e;
                DrugDisease.disease_count := Z.of_nat (List.length diseases);
                DrugDisease.drug_count := 1;
                DrugDisease.top_diseases := firstn 15 diseases;
                DrugDisease.top_drugs := [DrugDisease.ErrorMarker detail] |}),
       tr3).
Proof.
  intros Hres Hst Hid Hq1 Hd Hq2 Herr.
  unfold DrugDisease.find_gene_interactions, bind.
  rewrite Hres, Hst. unfold lift at 1. unfold entrez_id_of. rewrite Hid.
  rewrite Hq1, Hq2. unfold lift, ret. rewrite Hd.
  unfold DrugDisease.extract_associations. simpl. rewrite Herr. simpl.
  reflexivity.
Qed.

Lemma failed_drug_query_is_contained_witness :
  DrugDisease.find_gene_interactions Samples.drugs_down "apoe" []
  = (Ok (Report
           {| DrugDisease.gene := "APOE";
              DrugDisease.gene_entrez_id := JStr "348";
              DrugDisease.disease_count := 1;
              DrugDisease.drug_count := 1;
              DrugDisease.top_diseases :=
                [DrugDisease.Assoc
                   {| DrugDisease.id := JStr "D1";
                      DrugDisease.name := JStr "X";
                      DrugDisease.type := "Disease";
                      DrugDisease.categories := JArr [JStr "biolink:Disease"] |}];
              DrugDisease.top_drugs :=
                [DrugDisease.ErrorMarker (JStr "Connection error: timed out")] |}),
     [HttpGet NCBI_URL (ncbi_term "APOE");
      HttpPost DrugDisease.TRAPI_URL (JStr "348") "biolink:Disease";
      HttpPost DrugDisease.TRAPI_URL (JStr "348") "biolink:ChemicalEntity"]).
Proof.
  apply (failed_drug_query_is_contained Samples.drugs_down "apoe" []
           [HttpGet NCBI_URL (ncbi_term "APOE")]
           [HttpGet NCBI_URL (ncbi_term "APOE");
            HttpPost DrugDisease.TRAPI_URL (JStr "348") "biolink:Disease"]
           _
           {| gene_symbol := Some "APOE"; entrez_id := Some (JStr "348");
              lookup_status := found; lookup_error := None |}
           (JStr "348") Samples.once (JStr "Connection error: timed out")
           [("error", JStr "Connection error: timed out")]
           [DrugDisease.Assoc
              {| DrugDisease.id := JStr "D1";
                 DrugDisease.name := JStr "X";
                 DrugDisease.type := "Disease";
                 DrugDisease.categories := JArr [JStr "biolink:Disease"] |}]);
    reflexivity.
Defined.

(** ** Ranking the tally *)

Section Ranking.

Context {A : Type} (key : A -> Z).

Lemma insert_desc_perm (x : A) (l : list A) :
  Permutation (Py.insert_desc key x l) (x :: l).
Proof.
  induction l as [|y l IH]; simpl; auto.
  destruct (key y <=? key x); auto.
  rewrite IH. apply perm_swap.
Qed.

Lemma sorted_desc_perm (l : list A) : Permutation (Py.sorted_desc key l) l.
Proof.
  induction l as [|x l IH]; simpl; auto.
  rewrite insert_desc_perm. now constructor.
Qed.

Lemma insert_desc_sorted (x : A) (l : list A) :
  StronglySorted (fun a b => key b <= key a) l ->
  StronglySorted (fun a b => key b <= key a) (Py.insert_desc key x l).
Proof.
  induction 1 as [|y l Hl IH Hy]; simpl.
  - repeat constructor.
  - destruct (key y <=? key x) eqn:Hc.
    + apply Z.leb_le in Hc. constructor.
      * now constructor.
      * constructor; auto.
        eapply Forall_impl; [|exact Hy]. simpl. intros z Hz. lia.
    + apply Z.leb_gt in Hc. constructor; auto.
      apply (Permutation_Forall (Permutation_sym (insert_desc_perm x l))).
      constructor; auto. lia.
Qed.

Lemma sorted_desc_sorted (l : list A) :
  StronglySorted (fun a b => key b <= key a) (Py.sorted_desc key l).
Proof.
  induction l as [|x l IH]; simpl.
  - constructor.
  - now apply insert_desc_sorted.
Qed.

(** An element only moves past elements of a larger key. *)
Lemma insert_desc_stable (c : Z) (x : A) (l : list A) :
  filter (fun e => key e =? c) (Py.insert_desc key x l)
  = filter (fun e => key e =? c) (x :: l).
Proof.
  induction l as [|y l IH]; simpl; auto.
  destruct (key y <=? key x) eqn:Hc; auto.
  apply Z.leb_gt in Hc. simpl in *. rewrite IH.
  destruct (key x =? c) eqn:Hx; destruct (key y =? c) eqn:Hy; auto.
  apply Z.eqb_eq in Hx, Hy. lia.
Qed.

Lemma sorted_desc_stable (c : Z) (l : list A) :
  filter (fun e => key e =? c) (Py.sorted_desc key l)
  = filter (fun e => key e =? c) l.
Proof.
  induction l as [|x l IH]; simpl; auto.
  rewrite insert_desc_stable. simpl. now rewrite IH.
Qed.

End Ranking.

(** A tally keeps its keys in the order of their first insertion. *)
Lemma dict_store_keys {V} (k : json) (v : V) (d : list (json * V)) :
  map fst (Py.dict_store k v d)
  = match Py.dict_find k d with
    | Some _ => map fst d
    | None => map fst d ++ [k]
    end.
Proof.
  induction d as [|[k' v'] d IH]; simpl; auto.
  destruct (Py.eq k' k); simpl; auto.
  rewrite IH. now destruct (Py.dict_find k d).
Qed.

(** ** What the tally counts *)

Lemma eq_str_l_inv (s : string) (y : json) :
  Py.eq (JStr s) y = true -> y = JStr s.
Proof.
  destruct y; simpl; try discriminate.
  intros H. apply String.eqb_eq in H. now subst.
Qed.

Lemma dict_find_store_str (s : string) (k : json) (v : Z) (d : list (json * Z)) :
  Py.dict_find (JStr s) (Py.dict_store k v d)
  = if Py.eq k (JStr s) then Some v else Py.dict_find (JStr s) d.
Proof.
  induction d as [|[k' v'] d IH]; simpl.
  - reflexivity.
  - destruct (Py.eq k' k) eqn:Hk; simpl.
    + destruct (Py.eq k' (JStr s)) eqn:Hs.
      * apply eq_str_inv in Hs. subst k'.
        apply eq_str_l_inv in Hk. subst k. now rewrite eq_str_refl.
      * destruct (Py.eq k (JStr s)) eqn:Hks; auto.
        apply eq_str_inv in Hks. subst k.
        apply eq_str_inv in Hk. subst k'. rewrite eq_str_refl in Hs. discriminate.
    + destruct (Py.eq k' (JStr s)) eqn:Hs; auto.
      apply eq_str_inv in Hs. subst k'.
      destruct (Py.eq k (JStr s)) eqn:Hks; auto.
      apply eq_str_inv in Hks. subst k. rewrite eq_str_refl in Hk. discriminate.
Qed.

(** The tally of a name grows by the number of records that carry it: one
    per occurrence in the extracted list. *)
Lemma tally_counts_records (s : string) (names : list json)
    (counts counts' : list (json * Z)) :
  for_each (fun c n => Py.dict_incr n c) names counts = Ok counts' ->
  match Py.dict_find (JStr s) counts' with Some n => n | None => 0 end
  = match Py.dict_find (JStr s) counts with Some n => n | None => 0 end
    + Z.of_nat (List.length (filter (fun n => Py.eq n (JStr s)) names)).
Proof.
  revert counts. induction names as [|k names IH]; intros counts H; simpl in H.
  - injection H as <-. simpl. lia.
  - rstep H. rewrite (IH _ H). clear IH H.
    unfold Py.dict_incr in E. destruct (Py.hashable k); [|discriminate].
    injection E as <-. rewrite dict_find_store_str. simpl.
    destruct (Py.eq k (JStr s)) eqn:Hk; simpl List.length.
    + apply eq_str_inv in Hk. subst k. lia.
    + lia.
Qed.

(** ** [analyze_gene_list] *)

Lemma diseaseentity_query_returns (env : world) (e : json) (tr : list call) :
  exists v,
    DiseaseEntity.query_translator_kg env e tr
    = (Ok v, tr ++ [HttpPost DiseaseEntity.TRAPI_URL e "biolink:Disease"]).
Proof.
  unfold DiseaseEntity.query_translator_kg. run_M.
  destruct (env tr _) as [doc|[]]; eexists; reflexivity.
Qed.

Lemma generic_query_returns (env : world) (e : json) (tr : list call) :
  exists v,
    Generic.query_translator_kg env e tr
    = (Ok v, tr ++ [HttpPost Generic.ARAGORN_URL e "biolink:Disease"]).
Proof.
  unfold Generic.query_translator_kg. run_M.
  destruct (env tr _) as [doc|x]; eexists; reflexivity.
Qed.

(** One gene costs one identifier lookup, whatever comes of it. *)
Ltac solve_gene_lookups resolves_lemma query_lemma :=
  match goal with
  | |- forall env acc g tr r tr', _ =>
      intros env [results counts] g tr r tr'; unfold bind;
      destruct (resolves_lemma env g tr) as (gi & -> & _);
      destruct (lookup_status gi); unfold lift, ret;
      [ destruct (entrez_id_of gi) as [e|];
        [ destruct (query_lemma env e (tr ++ [HttpGet NCBI_URL (ncbi_term g)]))
            as (v & ->);
          repeat match goal with
                 | |- context [match ?x with Ok _ => _ | Raise _ => _ end] =>
                     destruct x
                 end;
          intros H; injection H as _ <-;
          rewrite lookups_post; apply lookups_get
        | intros H; injection H as _ <-; apply lookups_get ]
      | intros H; injection H as _ <-; apply lookups_get
      | intros H; injection H as _ <-; apply lookups_get ]
  end.

Lemma diseaseentity_gene_lookups :
  forall env acc g tr r tr',
    DiseaseEntity.analyze_gene env acc g tr = (r, tr') ->
    lookups tr' = S (lookups tr).
Proof.
  unfold DiseaseEntity.analyze_gene.
  solve_gene_lookups diseaseentity_resolves diseaseentity_query_returns.
Qed.

Lemma generic_gene_lookups :
  forall env acc g tr r tr',
    Generic.analyze_gene env acc g tr = (r, tr') ->
    lookups tr' = S (lookups tr).
Proof.
  unfold Generic.analyze_gene.
  solve_gene_lookups generic_resolves generic_query_returns.
Qed.

Lemma for_eachM_lookups {S} (body : S -> string -> M S) :
  (forall acc g tr r tr', body acc g tr = (r, tr') ->
                          lookups tr' = Datatypes.S (lookups tr)) ->
  forall syms acc tr r tr',
    for_eachM body syms acc tr = (r, tr') ->
    (lookups tr' <= lookups tr + List.length syms)%nat /\
    (forall a, r = Ok a -> lookups tr' = (lookups tr + List.length syms)%nat).
Proof.
  intros Hbody. induction syms as [|g syms IH]; intros acc tr r tr' H; simpl in *.
  - unfold ret in H. injection H as <- <-. split; intros; lia.
  - unfold bind in H.
    destruct (body acc g tr) as [[acc'|x] tr1] eqn:Hb; apply Hbody in Hb.
    + apply IH in H. destruct H as [Hle Heq]. split.
      * lia.
      * intros a Ha. rewrite (Heq a Ha). lia.
    + injection H as <- <-. split; [lia | discriminate].
Qed.

Lemma slice_to_nonneg {A} (l : list A) (k : Z) :
  0 <= k -> Py.slice_to l k = firstn (Z.to_nat k) l.
Proof. intros H. unfold Py.slice_to. apply Z.leb_le in H. now rewrite H. Qed.

(** With a limit that is not negative, the genes analysed are the first
    [limit] of the list, and no more than [limit] identifier lookups are
    made. *)
Lemma diseaseentity_limit_nonneg (env : world) (syms : list string) (limit : Z)
    (tr tr' : list call) (r : res DiseaseEntity.analysis) :
  0 <= limit ->
  DiseaseEntity.analyze_gene_list env syms limit tr = (r, tr') ->
  Z.of_nat (lookups tr' - lookups tr) <= limit /\
  (forall a, r = Ok a ->
     DiseaseEntity.genes_analyzed a = map Py.upper (firstn (Z.to_nat limit) syms)).
Proof.
  intros Hlim. unfold DiseaseEntity.analyze_gene_list, bind.
  rewrite (slice_to_nonneg syms limit Hlim).
  destruct (for_eachM _ _ _ tr) as [[[rs counts]|x] tr1] eqn:Hloop; unfold ret;
    intros H; injection H as <- <-;
    apply (for_eachM_lookups _ (diseaseentity_gene_lookups env)) in Hloop;
    destruct Hloop as [Hle _]; rewrite length_map in Hle;
    pose proof (firstn_le_length (Z.to_nat limit) syms); split; try lia.
  - intros a Ha. injection Ha as <-. reflexivity.
  - discriminate.
Qed.

Lemma generic_limit_nonneg (env : world) (syms : list string) (limit : Z)
    (tr tr' : list call) (r : res Generic.analysis) :
  0 <= limit ->
  Generic.analyze_gene_list env syms limit tr = (r, tr') ->
  Z.of_nat (lookups tr' - lookups tr) <= limit /\
  (forall a, r = Ok a ->
     Generic.genes_analyzed a = map Py.upper (firstn (Z.to_nat limit) syms)).
Proof.
  intros Hlim. unfold Generic.analyze_gene_list, bind.
  rewrite (slice_to_nonneg syms limit Hlim).
  destruct (for_eachM _ _ _ tr) as [[[rs counts]|x] tr1] eqn:Hloop; unfold ret;
    intros H; injection H as <- <-;
    apply (for_eachM_lookups _ (generic_gene_lookups env)) in Hloop;
    destruct Hloop as [Hle _]; rewrite length_map in Hle;
    pose proof (firstn_le_length (Z.to_nat limit) syms); split; try lia.
  - intros a Ha. injection Ha as <-. reflexivity.
  - discriminate.
Qed.

(** C4 at a negative limit.  With three symbols and [limit = -1], the slice
    [gene_symbols[:-1]] keeps the first two symbols and two identifier
    lookups are made, in both variants. *)
Theorem negative_limit_drops_from_the_end :
  (exists a tr,
     DiseaseEntity.analyze_gene_list (Samples.two_genes Samples.once)
       ["ga"; "gb"; "gc"] (-1) [] = (Ok a, tr) /\
     DiseaseEntity.genes_analyzed a = ["GA"; "GB"] /\
     lookups tr = 2%nat) /\
  (exists a tr,
     Generic.analyze_gene_list (Samples.two_genes Samples.once)
       ["ga"; "gb"; "gc"] (-1) [] = (Ok a, tr) /\
     Generic.genes_analyzed a = ["GA"; "GB"] /\
     lookups tr = 2%nat).
Proof.
  split; eexists; eexists; (split; [reflexivity|]); split; reflexivity.
Qed.

(** C1 at two genes.  Gene GA surfaces the name "X" three times, gene GB
    once, and the tally for "X" is 4: in [mcp_generic-checkpoint.py] through
    three result rows that bind one entity, in
    [mcp_diseaseEntity-checkpoint.py] through three entities of one name. *)
Theorem tally_counts_occurrences :
  (exists ga gb,
     Generic.extract_disease_associations Samples.thrice = Ok ga /\
     map Generic.name_of ga = [JStr "X"; JStr "X"; JStr "X"] /\
     Generic.extract_disease_associations Samples.once = Ok gb /\
     map Generic.name_of gb = [JStr "X"] /\
     exists a tr,
       Generic.analyze_gene_list (Samples.two_genes Samples.thrice)
         ["GA"; "GB"] 5 [] = (Ok a, tr) /\
       Generic.common_diseases a = [(JStr "X", 4)]) /\
  (exists ga gb,
     DiseaseEntity.extract_disease_associations Samples.homonyms = Ok ga /\
     map DiseaseEntity.name_of ga = [JStr "X"; JStr "X"; JStr "X"] /\
     DiseaseEntity.extract_disease_associations Samples.once = Ok gb /\
     map DiseaseEntity.name_of gb = [JStr "X"] /\
     exists a tr,
       DiseaseEntity.analyze_gene_list (Samples.two_genes Samples.homonyms)
         ["GA"; "GB"] 5 [] = (Ok a, tr) /\
       DiseaseEntity.common_diseases a = [(JStr "X", 4)]).
Proof.
  split; eexists; eexists;
    (split; [reflexivity|]); (split; [reflexivity|]);
    (split; [reflexivity|]); (split; [reflexivity|]);
    eexists; eexists; (split; [reflexivity|]); reflexivity.
Qed.

(** C8.  The ranking [sorted(..., key=count, reverse=True)[:10]] of any tally
    is a rearrangement of the tally with the counts in descending order, in
    which the entries of one count keep the order they have in the tally, cut
    to its first ten entries.  The tally lists its names in the order of
    their first insertion: an increment leaves a known name where it is and
    puts a new name last.  In both variants of [analyze_gene_list],
    "common_diseases" is that ranking of the tally the loop has built.
    The tally X:3, Y:3, Z:1 is ranked X, Y, Z. *)
Theorem ranking_desc_stable_top10 :
  (forall tally : list (json * Z),
     let sorted := Py.sorted_desc snd tally in
     Permutation sorted tally /\
     StronglySorted (fun a b => snd b <= snd a) sorted /\
     (forall c, filter (fun e => snd e =? c) sorted
                = filter (fun e => snd e =? c) tally) /\
     Py.slice_to sorted 10 = firstn 10 sorted /\
     (List.length (Py.slice_to sorted 10) <= 10)%nat) /\
  (forall name tally tally',
     Py.dict_incr name tally = Ok tally' ->
     map fst tally' = match Py.dict_find name tally with
                      | Some _ => map fst tally
                      | None => map fst tally ++ [name]
                      end) /\
  (forall env syms limit tr a tr',
     DiseaseEntity.analyze_gene_list env syms limit tr = (Ok a, tr') ->
     exists results tally,
       for_eachM (DiseaseEntity.analyze_gene env)
         (map Py.upper (Py.slice_to syms limit)) ([], []) tr
         = (Ok (results, tally), tr') /\
       DiseaseEntity.common_diseases a = Py.slice_to (Py.sorted_desc snd tally) 10) /\
  (forall env syms limit tr a tr',
     Generic.analyze_gene_list env syms limit tr = (Ok a, tr') ->
     exists results tally,
       for_eachM (Generic.analyze_gene env)
         (map Py.upper (Py.slice_to syms limit)) ([], []) tr
         = (Ok (results, tally), tr') /\
       Generic.common_diseases a = Py.slice_to (Py.sorted_desc snd tally) 10) /\
  Py.slice_to (Py.sorted_desc snd [(JStr "X", 3); (JStr "Y", 3); (JStr "Z", 1)]) 10
    = [(JStr "X", 3); (JStr "Y", 3); (JStr "Z", 1)].
Proof.
  split; [|split; [|split; [|split]]].
  - intros tally sorted. subst sorted.
    split; [apply sorted_desc_perm|].
    split; [apply sorted_desc_sorted|].
    split; [intros c; apply sorted_desc_stable|].
    change (Py.slice_to (Py.sorted_desc snd tally) 10)
      with (firstn 10 (Py.sorted_desc snd tally)).
    split; [reflexivity | apply firstn_le_length].
  - intros name tally tally'. unfold Py.dict_incr.
    destruct (Py.hashable name); [|discriminate].
    intros H. injection H as <-. apply dict_store_keys.
  - intros env syms limit tr a tr'.
    unfold DiseaseEntity.analyze_gene_list, bind.
    destruct (for_eachM _ _ _ tr) as [[[rs tally]|x] tr1]; [|discriminate].
    unfold ret. intros H. injection H as <- <-.
    exists rs, tally. split; reflexivity.
  - intros env syms limit tr a tr'.
    unfold Generic.analyze_gene_list, bind.
    destruct (for_eachM _ _ _ tr) as [[[rs tally]|x] tr1]; [|discriminate].
    unfold ret. intros H. injection H as <- <-.
    exists rs, tally. split; reflexivity.
  - reflexivity.
Qed.

(** * Further properties of the servers *)

(** ** When the extractors raise *)

(** X1.  Each extractor raises exactly on the unreadable documents, and then
    a [TypeError]; on every other document, the JSON objects among them, it
    returns either association records only or one error marker only. *)
Theorem extractors_raise_on_unreadable (kg_result : json) (type_label : string) :
  match DrugDisease.extract_associations kg_result type_label with
  | Raise e => Shape.unreadable kg_result = true /\ e = TypeError
  | Ok out =>
      Shape.unreadable kg_result = false /\
      ((exists items, out = map DrugDisease.Assoc items) \/
       (exists detail, out = [DrugDisease.ErrorMarker detail]))
  end /\
  match DiseaseEntity.extract_disease_associations kg_result with
  | Raise e => Shape.unreadable kg_result = true /\ e = TypeError
  | Ok out =>
      Shape.unreadable kg_result = false /\
      ((exists ds, out = map DiseaseEntity.Disease ds) \/
       (exists detail, out = [DiseaseEntity.ErrorMarker detail]))
  end /\
  match Generic.extract_disease_associations kg_result with
  | Raise e => Shape.unreadable kg_result = true /\ e = TypeError
  | Ok out =>
      Shape.unreadable kg_result = false /\
      ((exists ds, out = map Generic.Disease ds) \/
       (exists detail, out = [Generic.ErrorMarker detail]))
  end.
Proof.
  split; [|split].
  - unfold DrugDisease.extract_associations.
    destruct kg_result as [| b | n | s | l | kv]; simpl; auto.
    + destruct (Py.is_substring "error" s); simpl; auto.
      split; auto. right. eexists. reflexivity.
    + destruct (existsb (fun e => Py.eq e (JStr "error")) l); simpl; auto.
      split; auto. right. eexists. reflexivity.
    + destruct (Py.lookup "error" kv); simpl.
      * split; auto. right. eexists. reflexivity.
      * destruct (DrugDisease.walk (JObj kv) type_label); split; auto;
          [left | right]; eexists; reflexivity.
  - unfold DiseaseEntity.extract_disease_associations.
    destruct kg_result as [| b | n | s | l | kv]; simpl; auto.
    + destruct (Py.is_substring "error" s); simpl; auto.
      split; auto. right. eexists. reflexivity.
    + destruct (existsb (fun e => Py.eq e (JStr "error")) l); simpl; auto.
      split; auto. right. eexists. reflexivity.
    + destruct (Py.lookup "error" kv); simpl.
      * split; auto. right. eexists. reflexivity.
      * destruct (DiseaseEntity.walk (JObj kv)); split; auto;
          [left | right]; eexists; reflexivity.
  - unfold Generic.extract_disease_associations.
    destruct kg_result as [| b | n | s | l | kv]; simpl; auto.
    + destruct (Py.is_substring "error" s); simpl; auto.
      split; auto. right. eexists. reflexivity.
    + destruct (existsb (fun e => Py.eq e (JStr "error")) l); simpl; auto.
      split; auto. right. eexists. reflexivity.
    + destruct (Py.lookup "error" kv); simpl.
      * split; auto. right. eexists. reflexivity.
      * destruct (Generic.walk (JObj kv)); split; auto;
          [left | right]; eexists; reflexivity.
Qed.

(** ** Rows that are skipped, rows that abort *)

Lemma for_each_app {A S} (body : S -> A -> res S) (xs ys : list A) (acc : S) :
  for_each body (xs ++ ys) acc
  = rbind (for_each body xs acc) (for_each body ys).
Proof.
  revert acc. induction xs as [|x xs IH]; intros acc; simpl; auto.
  destruct (body acc x); simpl; auto.
Qed.

Lemma for_each_fixed {A S} (body : S -> A -> res S) (xs : list A) (acc : S) :
  Forall (fun x => body acc x = Ok acc) xs ->
  for_each body xs acc = Ok acc.
Proof.
  induction 1 as [|x xs Hx _ IH]; simpl; auto.
  rewrite Hx. exact IH.
Qed.

Lemma for_each_skip {A S} (body : S -> A -> res S) (xs ys : list A) (x : A)
    (acc : S) :
  (forall acc', body acc' x = Ok acc') ->
  for_each body (xs ++ x :: ys) acc = for_each body (xs ++ ys) acc.
Proof.
  intros Hx. rewrite !for_each_app.
  destruct (for_each body xs acc); simpl; auto.
  now rewrite Hx.
Qed.

Lemma for_each_abort {A S} (body : S -> A -> res S) (xs ys : list A) (x : A)
    (acc : S) :
  (forall acc', exists e, body acc' x = Raise e) ->
  exists e, for_each body (xs ++ x :: ys) acc = Raise e.
Proof.
  intros Hx. rewrite for_each_app.
  destruct (for_each body xs acc) as [acc'|e]; simpl.
  - destruct (Hx acc') as [e ->]. simpl. eauto.
  - eauto.
Qed.

Section UnknownNodes.

Variable nodes : list (string * json).

Ltac unknown_node_cases node :=
  destruct node as [| | | | |kv]; try discriminate; simpl;
  destruct (Py.lookup "id" kv) as [[| | |s| |]|]; simpl; try discriminate; auto;
  destruct (Py.lookup s nodes); simpl; try discriminate; auto.

Lemma drugdisease_unknown_node (type_label : string)
    (items : list DrugDisease.assoc) (node : json) :
  Shape.unknown_node nodes node = true ->
  DrugDisease.visit_node (JObj nodes) type_label items node = Ok items.
Proof. unfold DrugDisease.visit_node. unknown_node_cases node. Qed.

Lemma diseaseentity_unknown_node (ds : list DiseaseEntity.disease) (node : json) :
  Shape.unknown_node nodes node = true ->
  DiseaseEntity.visit_node (JObj nodes) ds node = Ok ds.
Proof. unfold DiseaseEntity.visit_node. unknown_node_cases node. Qed.

Lemma generic_unknown_node (rest : list (string * json))
    (ds : list Generic.disease) (node : json) :
  Shape.unknown_node nodes node = true ->
  Generic.visit_node (JObj (("nodes", JObj nodes) :: rest)) ds node = Ok ds.
Proof. unfold Generic.visit_node. unknown_node_cases node. Qed.

Ltac empty_row_cases row lemma :=
  destruct row as [| | | | |kv]; try discriminate; simpl;
  destruct (Py.lookup "node_bindings" kv) as [[| | | | |bindings]|];
    simpl; try discriminate; auto;
  destruct (Py.lookup "n1" bindings) as [[| | | |ns|]|];
    simpl; try discriminate; auto;
  intros H; apply for_each_fixed; rewrite forallb_forall in H;
  apply Forall_forall; intros x Hx; apply lemma; auto.

Lemma drugdisease_empty_row (type_label : string)
    (items : list DrugDisease.assoc) (row : json) :
  Shape.empty_row nodes row = true ->
  DrugDisease.visit_result (JObj nodes) type_label items row = Ok items.
Proof.
  unfold DrugDisease.visit_result.
  empty_row_cases row drugdisease_unknown_node.
Qed.

Lemma diseaseentity_empty_row (ds : list DiseaseEntity.disease) (row : json) :
  Shape.empty_row nodes row = true ->
  DiseaseEntity.visit_result (JObj nodes) ds row = Ok ds.
Proof.
  unfold DiseaseEntity.visit_result.
  empty_row_cases row diseaseentity_unknown_node.
Qed.

Lemma generic_empty_row (rest : list (string * json))
    (ds : list Generic.disease) (row : json) :
  Shape.empty_row nodes row = true ->
  Generic.visit_result (JObj (("nodes", JObj nodes) :: rest)) ds row = Ok ds.
Proof.
  unfold Generic.visit_result.
  empty_row_cases row generic_unknown_node.
Qed.

End UnknownNodes.

(** X2.  In an answer whose node catalogue has the entries [nodes], a result
    row that binds nothing the catalogue knows (no "node_bindings", no "n1",
    or only nodes without an id or with an id that is no key of the
    catalogue) is passed over: each extractor returns what it returns for the
    answer without that row. *)
Theorem empty_rows_are_passed_over (nodes : list (string * json))
    (rows1 rows2 : list json) (row : json) (type_label : string) :
  Shape.empty_row nodes row = true ->
  DrugDisease.extract_associations
    (Doc.answer (rows1 ++ row :: rows2) nodes) type_label
  = DrugDisease.extract_associations
      (Doc.answer (rows1 ++ rows2) nodes) type_label /\
  DiseaseEntity.extract_disease_associations
    (Doc.answer (rows1 ++ row :: rows2) nodes)
  = DiseaseEntity.extract_disease_associations
      (Doc.answer (rows1 ++ rows2) nodes) /\
  Generic.extract_disease_associations
    (Doc.answer (rows1 ++ row :: rows2) nodes)
  = Generic.extract_disease_associations
      (Doc.answer (rows1 ++ rows2) nodes).
Proof.
  intros Hrow. split; [|split].
  - unfold DrugDisease.extract_associations, DrugDisease.walk, Doc.answer. simpl.
    rewrite for_each_skip; auto.
    intros acc. now apply drugdisease_empty_row.
  - unfold DiseaseEntity.extract_disease_associations, DiseaseEntity.walk,
      Doc.answer. simpl.
    rewrite for_each_skip; auto.
    intros acc. now apply diseaseentity_empty_row.
  - unfold Generic.extract_disease_associations, Generic.walk, Doc.answer. simpl.
    rewrite for_each_skip; auto.
    intros acc. now apply generic_empty_row.
Qed.

Lemma empty_rows_are_passed_over_witness :
  Shape.empty_row [("D1", Doc.entry "X")] (Doc.row ["D9"]) = true /\
  DrugDisease.extract_associations
    (Doc.answer ([Doc.row ["D1"]] ++ Doc.row ["D9"] :: [Doc.row ["D1"]])
                [("D1", Doc.entry "X")]) "Disease"
  = DrugDisease.extract_associations
      (Doc.answer ([Doc.row ["D1"]] ++ [Doc.row ["D1"]])
                  [("D1", Doc.entry "X")]) "Disease".
Proof.
  split; [reflexivity|].
  apply (empty_rows_are_passed_over [("D1", Doc.entry "X")]
           [Doc.row ["D1"]] [Doc.row ["D1"]] (Doc.row ["D9"]) "Disease").
  reflexivity.
Defined.

(** X3.  One result row that is not a dict costs the whole answer: whatever
    the other rows bind, each extractor returns a single error marker and no
    record. *)
Theorem row_that_is_no_dict_aborts (nodes : list (string * json))
    (rows1 rows2 : list json) (row : json) (type_label : string) :
  Shape.is_dict row = false ->
  (exists detail,
     DrugDisease.extract_associations
       (Doc.answer (rows1 ++ row :: rows2) nodes) type_label
     = Ok [DrugDisease.ErrorMarker detail]) /\
  (exists detail,
     DiseaseEntity.extract_disease_associations
       (Doc.answer (rows1 ++ row :: rows2) nodes)
     = Ok [DiseaseEntity.ErrorMarker detail]) /\
  (exists detail,
     Generic.extract_disease_associations
       (Doc.answer (rows1 ++ row :: rows2) nodes)
     = Ok [Generic.ErrorMarker detail]).
Proof.
  intros Hrow. split; [|split].
  - unfold DrugDisease.extract_associations, DrugDisease.walk, Doc.answer. simpl.
    destruct (for_each_abort (DrugDisease.visit_result (JObj nodes) type_label)
                rows1 rows2 row []) as [e ->].
    + intros acc. exists AttributeError. destruct row; try reflexivity. discriminate.
    + eexists. reflexivity.
  - unfold DiseaseEntity.extract_disease_associations, DiseaseEntity.walk,
      Doc.answer. simpl.
    destruct (for_each_abort (DiseaseEntity.visit_result (JObj nodes))
                rows1 rows2 row []) as [e ->].
    + intros acc. exists AttributeError. destruct row; try reflexivity. discriminate.
    + eexists. reflexivity.
  - unfold Generic.extract_disease_associations, Generic.walk, Doc.answer. simpl.
    destruct (for_each_abort
                (Generic.visit_result (JObj [("nodes", JObj nodes)]))
                rows1 rows2 row []) as [e ->].
    + intros acc. exists AttributeError. destruct row; try reflexivity. discriminate.
    + eexists. reflexivity.
Qed.

Lemma row_that_is_no_dict_aborts_witness :
  Shape.is_dict JNull = false /\
  exists detail,
    DrugDisease.extract_associations
      (Doc.answer ([Doc.row ["D1"]] ++ JNull :: []) [("D1", Doc.entry "X")])
      "Disease"
    = Ok [DrugDisease.ErrorMarker detail].
Proof.
  split; [reflexivity|].
  destruct (row_that_is_no_dict_aborts [("D1", Doc.entry "X")]
              [Doc.row ["D1"]] [] JNull "Disease" eq_refl) as [H _].
  exact H.
Defined.

(** ** Where the records come from *)

Lemma absorb_length (nodes_map : json) (seen ids : list json) :
  (List.length (Doc.absorb nodes_map seen ids)
   <= List.length seen + List.length ids)%nat.
Proof.
  revert seen. induction ids as [|i ids IH]; intros seen; simpl; [lia|].
  specialize (IH (if Doc.in_catalogue nodes_map i
                     && negb (existsb (fun s => Py.eq s i) seen)
                  then seen ++ [i] else seen)).
  destruct (Doc.in_catalogue nodes_map i && _); [rewrite length_app in IH; simpl in IH|]; lia.
Qed.

(** X4.  Whenever [extract_associations] answers with association records,
    there are no more records than bound nodes, and every record is about an
    id that some result row binds and the node catalogue lists; it carries
    the label asked for, the name of the catalogue entry (the id where the
    entry has none) and the entry's categories (the empty list where it has
    none). *)
Theorem records_come_from_the_catalogue (kg_result : json) (type_label : string)
    (items : list DrugDisease.assoc) :
  DrugDisease.extract_associations kg_result type_label
    = Ok (map DrugDisease.Assoc items) ->
  exists nodes_map ids,
    Doc.catalogue kg_result = Ok nodes_map /\
    Doc.bound_ids kg_result = Ok ids /\
    (List.length items <= List.length ids)%nat /\
    Forall (fun r =>
              In (DrugDisease.id r) ids /\
              Doc.in_catalogue nodes_map (DrugDisease.id r) = true /\
              Extracted.from_catalogue nodes_map type_label r) items.
Proof.
  intros H. apply extract_associations_records in H.
  destruct (walk_kept _ _ _ H) as (nodes_map & ids & Hcat & Hids & Hmap & _ & Hall).
  exists nodes_map, ids. repeat (split; [assumption|]). split.
  - rewrite <- (length_map DrugDisease.id), Hmap.
    apply (absorb_length nodes_map [] ids).
  - rewrite Forall_forall in Hall |- *. intros r Hr.
    assert (In (DrugDisease.id r) (Doc.absorb nodes_map [] ids)) as Hin
      by (rewrite <- Hmap; now apply in_map).
    apply absorb_In_inv in Hin. destruct Hin as [[] | [Hin Hk]]. auto.
Qed.

Lemma records_come_from_the_catalogue_witness :
  exists items,
    DrugDisease.extract_associations Samples.repeated "Disease"
      = Ok (map DrugDisease.Assoc items) /\
    (List.length items <= 4)%nat /\
    Forall (fun r => DrugDisease.type r = "Disease") items.
Proof.
  eexists. split; [reflexivity|].
  destruct (records_come_from_the_catalogue Samples.repeated "Disease" _ eq_refl)
    as (nodes_map & ids & _ & Hids & Hlen & Hall).
  vm_compute in Hids. injection Hids as <-. split; [exact Hlen|].
  eapply Forall_impl; [|exact Hall].
  intros r (_ & _ & info & _ & _ & _ & Ht). exact Ht.
Defined.

(** ** The extractor of [mcp_diseaseEntity-checkpoint.py] *)

Section DiseaseEntityExtractor.

Import DiseaseEntity.

Variable nodes_map : json.

Lemma diseaseentity_node_kept (ds ds' : list disease) (node : json) :
  visit_node nodes_map ds node = Ok ds' ->
  exists i,
    Py.get node "id" JNull = Ok i /\
    map disease_id ds' = Doc.absorb nodes_map (map disease_id ds) [i] /\
    (Doc.in_catalogue nodes_map i = true -> Py.eq i i = true).
Proof.
  unfold visit_node. intros H.
  rstep H. exists v. split; [reflexivity|].
  rstep H. simpl. unfold Doc.in_catalogue. rewrite E0.
  destruct v0; simpl.
  - rstep H. rstep H. rewrite existsb_map.
    destruct (existsb (fun d => Py.eq (disease_id d) v) ds) eqn:Hex;
      simpl in H |- *.
    + injection H as <-. split; auto.
      intros _. eapply catalogue_key_refl; eauto.
    + rstep H. injection H as <-. rewrite map_app. simpl. split; auto.
      intros _. eapply catalogue_key_refl; eauto.
  - injection H as <-. split; auto. discriminate.
Qed.

Lemma diseaseentity_nodes_kept (nodes : list json) (ds ds' : list disease) :
  for_each (visit_node nodes_map) nodes ds = Ok ds' ->
  exists ids,
    Doc.node_ids nodes = Ok ids /\
    map disease_id ds' = Doc.absorb nodes_map (map disease_id ds) ids /\
    Forall (fun i => Doc.in_catalogue nodes_map i = true -> Py.eq i i = true) ids.
Proof.
  revert ds. induction nodes as [|node nodes IH]; intros ds H; simpl in H.
  - injection H as <-. exists []. auto.
  - rstep H.
    destruct (diseaseentity_node_kept _ _ _ E) as (i & Hi & Hmap & Hrefl).
    destruct (IH _ H) as (ids & Hids & Hmap' & Hrefl').
    exists (i :: ids). simpl. rewrite Hi, Hids. simpl.
    split; auto. split; auto.
    rewrite Hmap', Hmap. reflexivity.
Qed.

Lemma diseaseentity_rows_kept (rows : list json) (ds ds' : list disease) :
  for_each (visit_result nodes_map) rows ds = Ok ds' ->
  exists ids,
    Doc.rows_ids rows = Ok ids /\
    map disease_id ds' = Doc.absorb nodes_map (map disease_id ds) ids /\
    Forall (fun i => Doc.in_catalogue nodes_map i = true -> Py.eq i i = true) ids.
Proof.
  revert ds. induction rows as [|row rows IH]; intros ds H; simpl in H.
  - injection H as <-. exists []. auto.
  - rstep H. unfold visit_result in E.
    rstep E. rstep E. rstep E.
    destruct (diseaseentity_nodes_kept _ _ _ E) as (a & Ha & Hmap & Hrefl).
    destruct (IH _ H) as (b & Hb & Hmap' & Hrefl').
    exists (a ++ b). simpl. unfold Doc.row_ids.
    rewrite E0. simpl. rewrite E1. simpl. rewrite E2. simpl.
    rewrite Ha, Hb. simpl. split; auto. split.
    + rewrite absorb_app, Hmap', Hmap. reflexivity.
    + apply Forall_app. auto.
Qed.

End DiseaseEntityExtractor.

Lemma map_injective {A B} (f : A -> B) (l m : list A) :
  (forall x y, f x = f y -> x = y) -> map f l = map f m -> l = m.
Proof.
  intros Hf. revert m. induction l as [|a l IH]; intros [|b m] E;
    simpl in E; try discriminate; auto.
  injection E as Hab E. f_equal; auto.
Qed.

Lemma diseaseentity_walk_kept (kg_result : json)
    (ds : list DiseaseEntity.disease) :
  DiseaseEntity.extract_disease_associations kg_result
    = Ok (map DiseaseEntity.Disease ds) ->
  exists nodes_map ids,
    Doc.catalogue kg_result = Ok nodes_map /\
    Doc.bound_ids kg_result = Ok ids /\
    map DiseaseEntity.disease_id ds = Doc.absorb nodes_map [] ids /\
    Forall (fun i => Doc.in_catalogue nodes_map i = true -> Py.eq i i = true) ids.
Proof.
  unfold DiseaseEntity.extract_disease_associations. intros H.
  rstep H. destruct v.
  { rstep H. destruct ds; discriminate. }
  destruct (DiseaseEntity.walk kg_result) as [ds'|e] eqn:Hw;
    [|destruct ds; discriminate].
  injection H as H. apply map_injective in H; [|intros x y Hxy; now injection Hxy].
  subst ds'. clear E.
  unfold DiseaseEntity.walk, Doc.catalogue, Doc.bound_ids in *.
  rstep Hw. simpl. rstep Hw. simpl. rstep Hw. simpl. rstep Hw. rstep Hw. simpl.
  destruct (diseaseentity_rows_kept _ _ _ _ Hw) as (ids & Hids & Hmap & Hrefl).
  exists v2, ids. auto.
Qed.

(** X5.  The extractor of [mcp_diseaseEntity-checkpoint.py] keeps one record
    per id: whenever it answers with disease records, no two of them have
    equal ids, an id has a record exactly when some result row binds it and
    the node catalogue lists it, and the records come in the order in which
    their ids first appear in the rows. *)
Theorem diseaseentity_extractor_dedup (kg_result : json)
    (ds : list DiseaseEntity.disease) :
  DiseaseEntity.extract_disease_associations kg_result
    = Ok (map DiseaseEntity.Disease ds) ->
  exists nodes_map ids,
    Doc.catalogue kg_result = Ok nodes_map /\
    Doc.bound_ids kg_result = Ok ids /\
    Doc.distinct (map DiseaseEntity.disease_id ds) /\
    (forall s, (ExtractedDiseases.records_for s ds <= 1)%nat) /\
    (forall s, ExtractedDiseases.records_for s ds = 1%nat <->
               In (JStr s) ids /\ Doc.in_catalogue nodes_map (JStr s) = true) /\
    Doc.first_appearance_order (map DiseaseEntity.disease_id ds) ids.
Proof.
  intros H.
  destruct (diseaseentity_walk_kept _ _ H) as (nodes_map & ids & Hcat & Hids & Hmap & Hrefl).
  exists nodes_map, ids.
  assert (Doc.distinct (map DiseaseEntity.disease_id ds)) as Hd
    by (rewrite Hmap; apply absorb_distinct; constructor).
  assert (forall s, ExtractedDiseases.records_for s ds
                    = List.length (filter (fun x => Py.eq x (JStr s))
                                          (map DiseaseEntity.disease_id ds))) as Hcount
    by (intros s; symmetry; apply filter_map_length).
  assert (forall s, (ExtractedDiseases.records_for s ds <= 1)%nat) as Hle
    by (intros s; rewrite Hcount; now apply distinct_count_str).
  split; [assumption|]. split; [assumption|]. split; [assumption|].
  split; [assumption|]. split.
  - intros s. split.
    + intros Hone. rewrite Hcount in Hone.
      assert (In (JStr s) (map DiseaseEntity.disease_id ds)) as Hin
        by (apply count_str_In; lia).
      rewrite Hmap in Hin. apply absorb_In_inv in Hin.
      destruct Hin as [[] | Hin]. exact Hin.
    + intros [Hin Hk]. specialize (Hle s).
      assert (1 <= ExtractedDiseases.records_for s ds)%nat; [|lia].
      rewrite Hcount. apply In_count_str. rewrite Hmap. now apply absorb_str.
  - rewrite Hmap. now apply absorb_order.
Qed.

Lemma diseaseentity_extractor_dedup_witness :
  exists ds,
    DiseaseEntity.extract_disease_associations Samples.repeated
      = Ok (map DiseaseEntity.Disease ds) /\
    map DiseaseEntity.disease_id ds = [JStr "D1"; JStr "D2"] /\
    ExtractedDiseases.records_for "D1" ds = 1%nat.
Proof.
  eexists. split; [reflexivity|]. split; [reflexivity|].
  destruct (diseaseentity_extractor_dedup Samples.repeated _ eq_refl)
    as (nodes_map & ids & Hcat & Hids & _ & _ & Hone & _).
  vm_compute in Hcat, Hids. injection Hcat as <-. injection Hids as <-.
  apply Hone. split; [simpl; auto | reflexivity].
Defined.

(** ** The extractor of [mcp_generic-checkpoint.py] *)

Section GenericExtractor.

Import Generic.

Variable knowledge_graph : json.

Lemma generic_node_kept (ds ds' : list disease) (node : json) :
  visit_node knowledge_graph ds node = Ok ds' ->
  exists i nodes_map,
    Py.get node "id" JNull = Ok i /\
    Py.get knowledge_graph "nodes" (JObj []) = Ok nodes_map /\
    map disease_id ds'
    = map disease_id ds ++ filter (Doc.in_catalogue nodes_map) [i].
Proof.
  unfold visit_node. intros H.
  rstep H. rstep H. exists v, v0. split; [reflexivity|]. split; [reflexivity|].
  rstep H. simpl. unfold Doc.in_catalogue. rewrite E1.
  destruct v1.
  - rstep H. rstep H. rstep H. rstep H. injection H as <-.
    now rewrite map_app.
  - injection H as <-. now rewrite app_nil_r.
Qed.

Lemma generic_nodes_kept (nodes : list json) (ds ds' : list disease) :
  for_each (visit_node knowledge_graph) nodes ds = Ok ds' ->
  exists ids, Doc.node_ids nodes = Ok ids /\ ExtractedDiseases.generic_kept knowledge_graph ds ds' ids.
Proof.
  revert ds. induction nodes as [|node nodes IH]; intros ds H; simpl in H.
  - injection H as <-. exists []. split; auto. left. auto.
  - rstep H.
    destruct (generic_node_kept _ _ _ E) as (i & nodes_map & Hi & Hcat & Hmap).
    destruct (IH _ H) as (ids & Hids & Hkept).
    exists (i :: ids). simpl. rewrite Hi, Hids. simpl. split; auto.
    right. exists nodes_map. split; auto.
    destruct Hkept as [[-> ->] | (nodes_map' & Hcat' & Hmap')].
    + exact Hmap.
    + rewrite Hcat in Hcat'. injection Hcat' as <-.
      rewrite Hmap', Hmap. simpl.
      destruct (Doc.in_catalogue nodes_map i); simpl;
        rewrite <- ?app_assoc; reflexivity.
Qed.

Lemma generic_kept_trans (a b c : list disease) (ids1 ids2 : list json) :
  ExtractedDiseases.generic_kept knowledge_graph a b ids1 ->
  ExtractedDiseases.generic_kept knowledge_graph b c ids2 ->
  ExtractedDiseases.generic_kept knowledge_graph a c (ids1 ++ ids2).
Proof.
  intros [[-> ->] | (n1 & Hn1 & H1)] [[-> ->] | (n2 & Hn2 & H2)].
  - left. auto.
  - right. exists n2. auto.
  - right. exists n1. rewrite app_nil_r. auto.
  - right. exists n1. split; auto.
    rewrite Hn1 in Hn2. injection Hn2 as <-.
    rewrite H2, H1, filter_app, app_assoc. reflexivity.
Qed.

Lemma generic_rows_kept (rows : list json) (ds ds' : list disease) :
  for_each (visit_result knowledge_graph) rows ds = Ok ds' ->
  exists ids, Doc.rows_ids rows = Ok ids /\ ExtractedDiseases.generic_kept knowledge_graph ds ds' ids.
Proof.
  revert ds. induction rows as [|row rows IH]; intros ds H; simpl in H.
  - injection H as <-. exists []. split; auto. left. auto.
  - rstep H. unfold visit_result in E. rstep E. rstep E. rstep E.
    destruct (generic_nodes_kept _ _ _ E) as (a & Ha & Hka).
    destruct (IH _ H) as (b & Hb & Hkb).
    exists (a ++ b). simpl. unfold Doc.row_ids.
    rewrite E0. simpl. rewrite E1. simpl. rewrite E2. simpl.
    rewrite Ha, Hb. simpl. split; auto.
    eapply generic_kept_trans; eauto.
Qed.

End GenericExtractor.

Lemma filter_str_catalogued (nodes_map : json) (s : string) (ids : list json) :
  filter (fun i => Py.eq i (JStr s)) (filter (Doc.in_catalogue nodes_map) ids)
  = if Doc.in_catalogue nodes_map (JStr s)
    then filter (fun i => Py.eq i (JStr s)) ids
    else [].
Proof.
  induction ids as [|i ids IH]; simpl.
  - now destruct (Doc.in_catalogue nodes_map (JStr s)).
  - destruct (Py.eq i (JStr s)) eqn:Hi.
    + apply eq_str_inv in Hi. subst i.
      destruct (Doc.in_catalogue nodes_map (JStr s)); simpl.
      * rewrite String.eqb_refl. now f_equal.
      * exact IH.
    + destruct (Doc.in_catalogue nodes_map i); simpl; [rewrite Hi|]; exact IH.
Qed.

(** X6.  The extractor of [mcp_generic-checkpoint.py] has no duplicate
    check: whenever it answers with disease records, their ids are the bound
    ids that the node catalogue lists, in the order of the rows and each as
    often as it is bound.  With no bound node at all it returns no record and
    does not look at the catalogue. *)
Theorem generic_extractor_keeps_every_occurrence (kg_result : json)
    (ds : list Generic.disease) :
  Generic.extract_disease_associations kg_result
    = Ok (map Generic.Disease ds) ->
  exists ids,
    Doc.bound_ids kg_result = Ok ids /\
    (ids = [] -> ds = []) /\
    (ids <> [] -> exists nodes_map, Doc.catalogue kg_result = Ok nodes_map) /\
    (forall nodes_map,
       Doc.catalogue kg_result = Ok nodes_map ->
       map Generic.disease_id ds = filter (Doc.in_catalogue nodes_map) ids /\
       forall s,
         ExtractedDiseases.generic_records_for s ds
         = if Doc.in_catalogue nodes_map (JStr s)
           then ExtractedDiseases.occurrences s ids
           else 0%nat).
Proof.
  unfold Generic.extract_disease_associations. intros H.
  rstep H. destruct v.
  { rstep H. destruct ds; discriminate. }
  destruct (Generic.walk kg_result) as [ds'|e] eqn:Hw;
    [|destruct ds; discriminate].
  injection H as H. apply map_injective in H; [|intros x y Hxy; now injection Hxy].
  subst ds'. clear E.
  unfold Generic.walk, Doc.catalogue, Doc.bound_ids in *.
  rstep Hw. simpl. rstep Hw. simpl. rstep Hw. simpl. rstep Hw. simpl.
  destruct (generic_rows_kept _ _ _ _ Hw) as (ids & Hids & Hkept).
  exists ids. split; [assumption|].
  destruct Hkept as [[-> ->] | (nodes_map & Hcat & Hmap)].
  - split; [reflexivity|]. split; [congruence|].
    intros nodes_map _. split; [reflexivity|].
    intros s. now destruct (Doc.in_catalogue nodes_map (JStr s)).
  - simpl in Hmap. split.
    + intros ->. simpl in Hmap. now destruct ds.
    + split; [intros _; exists nodes_map; assumption|].
      intros nodes_map' Hcat'. rewrite Hcat in Hcat'. injection Hcat' as <-.
      split; [assumption|]. intros s.
      unfold ExtractedDiseases.generic_records_for, ExtractedDiseases.occurrences.
      rewrite <- (filter_map_length (fun x => Py.eq x (JStr s)) Generic.disease_id).
      rewrite Hmap, filter_str_catalogued.
      now destruct (Doc.in_catalogue nodes_map (JStr s)).
Qed.

Lemma generic_extractor_keeps_every_occurrence_witness :
  exists ds,
    Generic.extract_disease_associations Samples.thrice
      = Ok (map Generic.Disease ds) /\
    map Generic.disease_id ds = [JStr "D1"; JStr "D1"; JStr "D1"] /\
    ExtractedDiseases.generic_records_for "D1" ds = 3%nat.
Proof.
  eexists. split; [reflexivity|].
  destruct (generic_extractor_keeps_every_occurrence Samples.thrice _ eq_refl)
    as (ids & Hids & _ & _ & Hall).
  vm_compute in Hids. injection Hids as <-.
  destruct (Hall (JObj [("D1", Doc.entry "X")]) eq_refl) as [Hmap Hcount].
  split; [exact Hmap|]. exact (Hcount "D1").
Defined.

(** ** Reading the lookup answer *)

Ltac solve_first_match :=
  intros env s tr kv; cbv zeta; intros Henv;
  run_M; rewrite Henv; simpl;
  split;
  [ intros ->; reflexivity
  | intros r ->; simpl; split; [|split];
    [ intros ->; reflexivity
    | intros l -> ->; reflexivity
    | intros x rest ->; reflexivity ] ].

(** X7.  In the three servers [get_gene_info] takes the first id of the
    answer and nothing else of the id list; an answer object that lacks
    "esearchresult" or "idlist", or whose "idlist" is empty or [null], is a
    [not_found] and not an error. *)
Theorem get_gene_info_first_match :
  first_match DrugDisease.get_gene_info /\
  first_match DiseaseEntity.get_gene_info /\
  first_match Generic.get_gene_info.
Proof.
  split; [|split].
  - unfold first_match, DrugDisease.get_gene_info. solve_first_match.
  - unfold first_match, DiseaseEntity.get_gene_info. solve_first_match.
  - unfold first_match, Generic.get_gene_info. solve_first_match.
Qed.

Lemma get_gene_info_first_match_witness :
  DrugDisease.get_gene_info
    (fun _ _ => Body (Doc.ncbi_answer [JStr "348"; JStr "99"])) "APOE" []
  = (Ok {| gene_symbol := Some "APOE"; entrez_id := Some (JStr "348");
           lookup_status := found; lookup_error := None |},
     [HttpGet NCBI_URL (ncbi_term "APOE")]).
Proof.
  destruct get_gene_info_first_match as [H _].
  destruct (H (fun _ _ => Body (Doc.ncbi_answer [JStr "348"; JStr "99"]))
              "APOE" [] [("esearchresult", JObj [("idlist", JArr [JStr "348"; JStr "99"])])]
              eq_refl) as [_ Hr].
  destruct (Hr [("idlist", JArr [JStr "348"; JStr "99"])] eq_refl) as (_ & _ & Hfound).
  exact (Hfound (JStr "348") [JStr "99"] eq_refl).
Defined.

(** ** The requests of [find_gene_interactions] *)




(** ** Faults that stay inside, faults that escape *)

Lemma diseaseentity_total_on_objects (kv : list (string * json)) :
  exists out, DiseaseEntity.extract_disease_associations (JObj kv) = Ok out.
Proof.
  unfold DiseaseEntity.extract_disease_associations. simpl.
  destruct (Py.lookup "error" kv); simpl; [eexists; reflexivity|].
  destruct (DiseaseEntity.walk (JObj kv)); eexists; reflexivity.
Qed.

Lemma generic_total_on_objects (kv : list (string * json)) :
  exists out, Generic.extract_disease_associations (JObj kv) = Ok out.
Proof.
  unfold Generic.extract_disease_associations. simpl.
  destruct (Py.lookup "error" kv); simpl; [eexists; reflexivity|].
  destruct (Generic.walk (JObj kv)); eexists; reflexivity.
Qed.


Lemma drugdisease_query_object (env : world) (e : json) (c : string)
    (tr : list call) :
  Shape.answers_objects env ->
  exists kv,
    DrugDisease.query_translator_kg env e c tr
    = (Ok (JObj kv), tr ++ [HttpPost DrugDisease.TRAPI_URL e c]).
Proof.
  intros Henv. rewrite query_translator_kg_returns.
  specialize (Henv tr DrugDisease.TRAPI_URL e c).
  destruct (env tr _) as [[]|x]; try contradiction; eexists; reflexivity.
Qed.

Lemma diseaseentity_query_object (env : world) (e : json) (tr : list call) :
  Shape.answers_objects env ->
  exists kv,
    DiseaseEntity.query_translator_kg env e tr
    = (Ok (JObj kv), tr ++ [HttpPost DiseaseEntity.TRAPI_URL e "biolink:Disease"]).
Proof.
  intros Henv. unfold DiseaseEntity.query_translator_kg. run_M.
  specialize (Henv tr DiseaseEntity.TRAPI_URL e "biolink:Disease").
  destruct (env tr _) as [[]|[]]; try contradiction; eexists; reflexivity.
Qed.

Lemma generic_query_object (env : world) (e : json) (tr : list call) :
  Shape.answers_objects env ->
  exists kv,
    Generic.query_translator_kg env e tr
    = (Ok (JObj kv), tr ++ [HttpPost Generic.ARAGORN_URL e "biolink:Disease"]).
Proof.
  intros Henv. unfold Generic.query_translator_kg. run_M.
  specialize (Henv tr Generic.ARAGORN_URL e "biolink:Disease").
  destruct (env tr _) as [[]|x]; try contradiction; eexists; reflexivity.
Qed.

Lemma drugs_down_answers_objects : Shape.answers_objects Samples.drugs_down.
Proof.
  intros tr url e c. simpl.
  destruct (String.eqb c "biolink:Disease"); exact I.
Qed.



(** ** The case of the symbols *)

Lemma upper_ascii_idem (a : ascii) :
  Py.upper_ascii (Py.upper_ascii a) = Py.upper_ascii a.
Proof. destruct a as [[] [] [] [] [] [] [] []]; reflexivity. Qed.

Lemma upper_idem (s : string) : Py.upper (Py.upper s) = Py.upper s.
Proof.
  induction s as [|a s IH]; simpl; auto.
  now rewrite upper_ascii_idem, IH.
Qed.

Lemma slice_to_map {A B} (f : A -> B) (l : list A) (k : Z) :
  Py.slice_to (map f l) k = map f (Py.slice_to l k).
Proof.
  unfold Py.slice_to. rewrite length_map.
  destruct (0 <=? k); apply firstn_map.
Qed.

(** X11.  The handlers see a symbol through [upper()] only: two spellings
    of a symbol that differ in the case of their letters get the same reply
    and cause the same requests, in [find_gene_interactions], in
    [find_gene_diseases] and, symbol by symbol, in [analyze_gene_list]. *)
Theorem handlers_ignore_case (env : world) (tr : list call) :
  (forall sym,
     DrugDisease.find_gene_interactions env (Py.upper sym) tr
     = DrugDisease.find_gene_interactions env sym tr) /\
  (forall sym,
     DiseaseEntity.find_gene_diseases env (Py.upper sym) tr
     = DiseaseEntity.find_gene_diseases env sym tr) /\
  (forall sym,
     Generic.find_gene_diseases env (Py.upper sym) tr
     = Generic.find_gene_diseases env sym tr) /\
  (forall syms limit,
     DiseaseEntity.analyze_gene_list env (map Py.upper syms) limit tr
     = DiseaseEntity.analyze_gene_list env syms limit tr) /\
  (forall syms limit,
     Generic.analyze_gene_list env (map Py.upper syms) limit tr
     = Generic.analyze_gene_list env syms limit tr).
Proof.
  split; [|split; [|split; [|split]]].
  - intros sym. unfold DrugDisease.find_gene_interactions.
    now rewrite upper_idem.
  - intros sym. unfold DiseaseEntity.find_gene_diseases.
    now rewrite upper_idem.
  - intros sym. unfold Generic.find_gene_diseases.
    now rewrite upper_idem.
  - intros syms limit. unfold DiseaseEntity.analyze_gene_list.
    rewrite slice_to_map, map_map.
    rewrite (map_ext _ _ upper_idem). reflexivity.
  - intros syms limit. unfold Generic.analyze_gene_list.
    rewrite slice_to_map, map_map.
    rewrite (map_ext _ _ upper_idem). reflexivity.
Qed.

(** ** [find_gene_diseases] *)

(** X12.  Whenever [find_gene_diseases] answers with a report, the report
    is about the upper-cased symbol and the id that was looked up, and
    "total_diseases_found" is the length of the extracted list.  The variant
    of [mcp_diseaseEntity-checkpoint.py] shows the first 20 records of that
    list; the variant of [mcp_generic-checkpoint.py] shows all of them. *)
Theorem find_gene_diseases_report (env : world) (sym : string) (tr : list call) :
  (forall r tr',
     DiseaseEntity.find_gene_diseases env sym tr = (Ok (Report r), tr') ->
     exists gi e kg_result diseases tr1,
       DiseaseEntity.get_gene_info env (Py.upper sym) tr = (Ok gi, tr1) /\
       entrez_id gi = Some e /\
       DiseaseEntity.query_translator_kg env e tr1 = (Ok kg_result, tr') /\
       DiseaseEntity.extract_disease_associations kg_result = Ok diseases /\
       DiseaseEntity.fd_gene r = Py.upper sym /\
       DiseaseEntity.fd_entrez_id r = e /\
       DiseaseEntity.disease_associations r = firstn 20 diseases /\
       (List.length (DiseaseEntity.disease_associations r) <= 20)%nat /\
       DiseaseEntity.total_diseases_found r = Z.of_nat (List.length diseases)) /\
  (forall r tr',
     Generic.find_gene_diseases env sym tr = (Ok (Report r), tr') ->
     exists gi e kg_result tr1,
       Generic.get_gene_info env (Py.upper sym) tr = (Ok gi, tr1) /\
       entrez_id gi = Some e /\
       Generic.query_translator_kg env e tr1 = (Ok kg_result, tr') /\
       Generic.extract_disease_associations kg_result
         = Ok (Generic.disease_associations r) /\
       Generic.fd_gene r = Py.upper sym /\
       Generic.fd_entrez_id r = e /\
       Generic.total_diseases_found r
         = Z.of_nat (List.length (Generic.disease_associations r))).
Proof.
  split; intros r tr'.
  - unfold DiseaseEntity.find_gene_diseases, bind. intros H.
    destruct (DiseaseEntity.get_gene_info env (Py.upper sym) tr)
      as [[gi|x] tr1]; [|discriminate].
    destruct (lookup_status gi); try discriminate.
    unfold lift, ret, entrez_id_of in H.
    destruct (entrez_id gi) as [e|] eqn:He; [|discriminate].
    destruct (DiseaseEntity.query_translator_kg env e tr1)
      as [[kg_result|] tr2] eqn:Hq; [|discriminate].
    destruct (DiseaseEntity.extract_disease_associations kg_result)
      as [diseases|] eqn:Hd; [|discriminate].
    injection H as <- <-.
    exists gi, e, kg_result, diseases, tr1.
    cbn [DiseaseEntity.fd_gene DiseaseEntity.fd_entrez_id
         DiseaseEntity.disease_associations DiseaseEntity.total_diseases_found].
    change (Py.slice_to diseases 20) with (firstn 20 diseases).
    repeat (split; [solve [auto | apply firstn_le_length]|]). reflexivity.
  - unfold Generic.find_gene_diseases, bind. intros H.
    destruct (Generic.get_gene_info env (Py.upper sym) tr)
      as [[gi|x] tr1]; [|discriminate].
    destruct (lookup_status gi); try discriminate.
    unfold lift, ret, entrez_id_of in H.
    destruct (entrez_id gi) as [e|] eqn:He; [|discriminate].
    destruct (Generic.query_translator_kg env e tr1)
      as [[kg_result|] tr2] eqn:Hq; [|discriminate].
    destruct (Generic.extract_disease_associations kg_result)
      as [diseases|] eqn:Hd; [|discriminate].
    injection H as <- <-.
    exists gi, e, kg_result, tr1. simpl. auto 10.
Qed.

(** ** One gene of [analyze_gene_list] *)

Lemma graph_queries_post (tr : list call) (url : string) (e : json) (c : string) :
  graph_queries (tr ++ [HttpPost url e c]) = S (graph_queries tr).
Proof.
  unfold graph_queries. rewrite filter_app, length_app. simpl. lia.
Qed.

Ltac solve_gene_step resolves_lemma query_lemma :=
  match goal with
  | |- forall env rs cs g tr r tr', _ =>
      intros env rs cs g tr r tr'; unfold bind;
      destruct (resolves_lemma env g tr) as (gi & -> & _);
      destruct (lookup_status gi); unfold lift, ret;
      [ destruct (entrez_id_of gi) as [e|];
        [ destruct (query_lemma env e (tr ++ [HttpGet NCBI_URL (ncbi_term g)]))
            as (v & ->);
          match goal with
          | |- context [match ?x with Ok _ => _ | Raise _ => _ end] =>
              destruct x as [diseases|]
          end;
          [ match goal with
            | |- context [match ?x with Ok _ => _ | Raise _ => _ end] =>
                destruct x as [cs1|] eqn:Hcount
            end |];
          intros H; injection H as <- <-;
          rewrite graph_queries_post, graph_queries_get;
          (split; [lia|]); intros rs' cs' Hok; try discriminate Hok;
          injection Hok as <- <-; right; do 2 eexists;
          split; [reflexivity | split; [eassumption | reflexivity]]
        | intros H; injection H as <- <-; rewrite graph_queries_get;
          (split; [lia|]); intros rs' cs' Hok; discriminate Hok ]
      | intros H; injection H as <- <-; rewrite graph_queries_get;
        (split; [lia|]); intros rs' cs' Hok; injection Hok as <- <-; left; auto
      | intros H; injection H as <- <-; rewrite graph_queries_get;
        (split; [lia|]); intros rs' cs' Hok; injection Hok as <- <-; left; auto ]
  end.

Lemma diseaseentity_gene_step :
  forall env rs cs g tr r tr',
    DiseaseEntity.analyze_gene env (rs, cs) g tr = (r, tr') ->
    (graph_queries tr <= graph_queries tr' <= S (graph_queries tr))%nat /\
    forall rs' cs', r = Ok (rs', cs') ->
      (rs' = rs /\ cs' = cs /\ graph_queries tr' = graph_queries tr) \/
      (exists e diseases,
         rs' = rs ++ [{| DiseaseEntity.detail_gene := g;
                         DiseaseEntity.detail_entrez_id := e;
                         DiseaseEntity.detail_disease_count :=
                           Z.of_nat (List.length diseases) |}] /\
         for_each (fun counts d => Py.dict_incr (DiseaseEntity.name_of d) counts)
                  diseases cs = Ok cs' /\
         graph_queries tr' = S (graph_queries tr)).
Proof.
  unfold DiseaseEntity.analyze_gene.
  solve_gene_step diseaseentity_resolves diseaseentity_query_returns.
Qed.

Lemma generic_gene_step :
  forall env rs cs g tr r tr',
    Generic.analyze_gene env (rs, cs) g tr = (r, tr') ->
    (graph_queries tr <= graph_queries tr' <= S (graph_queries tr))%nat /\
    forall rs' cs', r = Ok (rs', cs') ->
      (rs' = rs /\ cs' = cs /\ graph_queries tr' = graph_queries tr) \/
      (exists e diseases,
         rs' = rs ++ [{| Generic.detail_gene := g;
                         Generic.detail_entrez_id := e;
                         Generic.detail_disease_count :=
                           Z.of_nat (List.length diseases) |}] /\
         for_each (fun counts d => Py.dict_incr (Generic.name_of d) counts)
                  diseases cs = Ok cs' /\
         graph_queries tr' = S (graph_queries tr)).
Proof.
  unfold Generic.analyze_gene.
  solve_gene_step generic_resolves generic_query_returns.
Qed.

(** ** The tally as a whole *)

Lemma dict_find_none_keys {V} (k : json) (d : list (json * V)) :
  Py.dict_find k d = None ->
  existsb (fun s => Py.eq s k) (map fst d) = false.
Proof.
  induction d as [|[k' v] d IH]; simpl; auto.
  destruct (Py.eq k' k); [discriminate | auto].
Qed.

Lemma dict_find_in {V} (k : json) (v : V) (d : list (json * V)) :
  Py.dict_find k d = Some v -> exists k', In (k', v) d.
Proof.
  induction d as [|[k' v'] d IH]; simpl; [discriminate|].
  destruct (Py.eq k' k).
  - intros H. injection H as ->. eauto.
  - intros H. destruct (IH H) as [k'' Hin]. eauto.
Qed.

Lemma dict_store_total (k : json) (d : list (json * Z)) :
  Batch.total
    (Py.dict_store k (match Py.dict_find k d with Some n => n | None => 0 end + 1) d)
  = Batch.total d + 1.
Proof.
  induction d as [|[k' v'] d IH]; simpl; [lia|].
  destruct (Py.eq k' k); simpl; [lia|].
  rewrite IH. lia.
Qed.

Lemma dict_store_entries (P : json * Z -> Prop) (k : json) (v : Z)
    (d : list (json * Z)) :
  Forall P d -> P (k, v) -> (forall k' v', P (k', v') -> Py.eq k' k = true -> P (k', v)) ->
  Forall P (Py.dict_store k v d).
Proof.
  intros Hd Hk Hrepl. induction Hd as [|[k' v'] d Hx Hd IH]; simpl.
  - constructor; auto.
  - destruct (Py.eq k' k) eqn:E.
    + constructor; auto. eapply Hrepl; eauto.
    + constructor; auto.
Qed.

Lemma dict_incr_well_formed (k : json) (d d' : list (json * Z)) :
  Py.dict_incr k d = Ok d' ->
  Batch.well_formed d ->
  Batch.well_formed d' /\ Batch.total d' = Batch.total d + 1.
Proof.
  unfold Py.dict_incr. destruct (Py.hashable k) eqn:Hk; [|discriminate].
  intros H [Hall Hdist]. injection H as <-. split; [|apply dict_store_total].
  split.
  - assert (0 <= match Py.dict_find k d with Some n => n | None => 0 end) as Hpos.
    { destruct (Py.dict_find k d) as [n|] eqn:Hf; [|lia].
      destruct (dict_find_in _ _ _ Hf) as [k' Hin].
      rewrite Forall_forall in Hall. specialize (Hall _ Hin). simpl in Hall. lia. }
    apply dict_store_entries; auto.
    + simpl. split; [assumption | lia].
    + simpl. intros k' v' [Hh _] _. split; [assumption | lia].
  - unfold Doc.distinct in *. rewrite dict_store_keys.
    destruct (Py.dict_find k d) eqn:Hf; auto.
    apply distinct_snoc; auto. now apply dict_find_none_keys.
Qed.

Lemma tally_grows_by_records {I} (name_of : I -> json) (items : list I)
    (d d' : list (json * Z)) :
  for_each (fun counts i => Py.dict_incr (name_of i) counts) items d = Ok d' ->
  Batch.well_formed d ->
  Batch.well_formed d' /\
  Batch.total d' = Batch.total d + Z.of_nat (List.length items).
Proof.
  revert d. induction items as [|i items IH]; intros d H Hwf; simpl in H.
  - injection H as <-. split; auto. simpl. lia.
  - rstep H. destruct (dict_incr_well_formed _ _ _ E Hwf) as [Hwf1 Ht1].
    destruct (IH _ H Hwf1) as [Hwf' Ht'].
    split; auto. rewrite Ht', Ht1. simpl List.length. lia.
Qed.

(** ** The loop over the genes *)

Section Loop.

Context {D I : Type}.
Variables (gene : D -> string) (count : D -> Z) (name_of : I -> json).
Variable body : list D * list (json * Z) -> string -> M (list D * list (json * Z)).

Hypothesis step :
  forall rs cs g tr r tr',
    body (rs, cs) g tr = (r, tr') ->
    (graph_queries tr <= graph_queries tr' <= S (graph_queries tr))%nat /\
    forall rs' cs', r = Ok (rs', cs') ->
      (rs' = rs /\ cs' = cs /\ graph_queries tr' = graph_queries tr) \/
      (exists d (diseases : list I),
         rs' = rs ++ [d] /\ gene d = g /\
         count d = Z.of_nat (List.length diseases) /\
         for_each (fun counts i => Py.dict_incr (name_of i) counts) diseases cs
           = Ok cs' /\
         graph_queries tr' = S (graph_queries tr)).

Lemma loop_queries (syms : list string) (acc : list D * list (json * Z))
    (tr tr' : list call) (r : res (list D * list (json * Z))) :
  for_eachM body syms acc tr = (r, tr') ->
  (graph_queries tr <= graph_queries tr'
   <= graph_queries tr + List.length syms)%nat.
Proof.
  revert acc tr. induction syms as [|g syms IH]; intros [rs cs] tr H; simpl in H.
  - unfold ret in H. injection H as _ <-. simpl. lia.
  - unfold bind in H.
    destruct (body (rs, cs) g tr) as [[acc'|x] tr1] eqn:Hb;
      apply step in Hb; destruct Hb as [Hq _].
    + apply IH in H. simpl. lia.
    + injection H as _ <-. simpl. lia.
Qed.

Lemma sum_app (l m : list Z) : Batch.sum (l ++ m) = Batch.sum l + Batch.sum m.
Proof. induction l as [|x l IH]; simpl; [reflexivity | rewrite IH; lia]. Qed.

Lemma loop_result (syms : list string) (rs rs' : list D)
    (cs cs' : list (json * Z)) (tr tr' : list call) :
  for_eachM body syms (rs, cs) tr = (Ok (rs', cs'), tr') ->
  Batch.well_formed cs ->
  exists new,
    rs' = rs ++ new /\
    Batch.subseq (map gene new) syms /\
    (List.length new + graph_queries tr = graph_queries tr')%nat /\
    Batch.well_formed cs' /\
    Batch.total cs' = Batch.total cs + Batch.sum (map count new).
Proof.
  revert rs cs tr. induction syms as [|g syms IH]; intros rs cs tr H Hwf; simpl in H.
  - unfold ret in H. injection H as <- <- <-. exists [].
    rewrite app_nil_r. simpl. repeat split; try constructor; auto; try lia;
      destruct Hwf; auto.
  - unfold bind in H.
    destruct (body (rs, cs) g tr) as [[[rs1 cs1]|x] tr1] eqn:Hb; [|discriminate].
    apply step in Hb. destruct Hb as [_ Hb].
    destruct (Hb rs1 cs1 eq_refl)
      as [(-> & -> & Hq) | (d & diseases & -> & Hg & Hc & Hincr & Hq)].
    + destruct (IH _ _ _ H Hwf) as (new & -> & Hsub & Hlen & Hwf' & Htot).
      exists new. repeat split; auto; try (destruct Hwf'; assumption).
      * now constructor.
      * lia.
    + destruct (tally_grows_by_records _ _ _ _ Hincr Hwf) as [Hwf1 Ht1].
      destruct (IH _ _ _ H Hwf1) as (new & -> & Hsub & Hlen & Hwf' & Htot).
      exists (d :: new). rewrite <- app_assoc. simpl.
      repeat split; auto; try (destruct Hwf'; assumption).
      * rewrite Hg. now constructor.
      * lia.
      * rewrite Htot, Ht1, Hc. lia.
Qed.

End Loop.

Lemma for_eachM_queries_le_lookups {S} (body : S -> string -> M S) :
  (forall acc g tr r tr', body acc g tr = (r, tr') ->
     lookups tr' = Datatypes.S (lookups tr) /\
     (graph_queries tr <= graph_queries tr' <= Datatypes.S (graph_queries tr))%nat) ->
  forall syms acc tr r tr',
    for_eachM body syms acc tr = (r, tr') ->
    (graph_queries tr <= graph_queries tr')%nat /\
    (lookups tr <= lookups tr')%nat /\
    (graph_queries tr' - graph_queries tr <= lookups tr' - lookups tr)%nat.
Proof.
  intros Hbody. induction syms as [|g syms IH]; intros acc tr r tr' H; simpl in H.
  - unfold ret in H. injection H as _ <-. lia.
  - unfold bind in H.
    destruct (body acc g tr) as [[acc'|x] tr1] eqn:Hb;
      apply Hbody in Hb; destruct Hb as [Hl Hq].
    + apply IH in H. lia.
    + injection H as _ <-. lia.
Qed.



Lemma diseaseentity_gene_requests (env : world) :
  forall acc g tr r tr',
    DiseaseEntity.analyze_gene env acc g tr = (r, tr') ->
    lookups tr' = S (lookups tr) /\
    (graph_queries tr <= graph_queries tr' <= S (graph_queries tr))%nat.
Proof.
  intros [rs cs] g tr r tr' H. split.
  - eapply diseaseentity_gene_lookups; eauto.
  - eapply diseaseentity_gene_step; eauto.
Qed.

Lemma generic_gene_requests (env : world) :
  forall acc g tr r tr',
    Generic.analyze_gene env acc g tr = (r, tr') ->
    lookups tr' = S (lookups tr) /\
    (graph_queries tr <= graph_queries tr' <= S (graph_queries tr))%nat.
Proof.
  intros [rs cs] g tr r tr' H. split.
  - eapply generic_gene_lookups; eauto.
  - eapply generic_gene_step; eauto.
Qed.


(** ** What the report says *)

Lemma hashable_eq_refl (k : json) : Py.hashable k = true -> Py.eq k k = true.
Proof.
  destruct k; simpl; try discriminate; intros _.
  - reflexivity.
  - apply Bool.eqb_reflx.
  - apply Z.eqb_refl.
  - apply String.eqb_refl.
Qed.

Lemma well_formed_nil : Batch.well_formed [].
Proof. split; constructor. Qed.

Lemma well_formed_NoDup (tally : list (json * Z)) :
  Batch.well_formed tally -> NoDup (map fst tally).
Proof.
  intros [Hall Hdist]. unfold Doc.distinct in Hdist.
  induction tally as [|[k v] tally IH]; simpl in *; [constructor|].
  inversion Hall as [|? ? [Hk _] Hall']; subst.
  inversion Hdist as [|? ? Hk' Hdist']; subst.
  constructor; auto.
  intros Hin. rewrite Forall_forall in Hk'. specialize (Hk' _ Hin).
  simpl in Hk. rewrite (hashable_eq_refl _ Hk) in Hk'. discriminate.
Qed.

Lemma total_app (l m : list (json * Z)) :
  Batch.total (l ++ m) = Batch.total l + Batch.total m.
Proof.
  induction l as [|x l IH]; simpl; [reflexivity|].
  unfold Batch.total in *. simpl. rewrite IH. lia.
Qed.

Lemma total_perm (l m : list (json * Z)) :
  Permutation l m -> Batch.total l = Batch.total m.
Proof.
  induction 1; unfold Batch.total in *; simpl; lia.
Qed.

Lemma total_nonneg (l : list (json * Z)) :
  Forall (fun entry => 1 <= snd entry) l -> 0 <= Batch.total l.
Proof.
  induction 1 as [|x l Hx _ IH]; unfold Batch.total in *; simpl; lia.
Qed.

(** The ranking of a well-formed tally: its counts are at least 1, no name
    comes twice, and its counts add up to no more than those of the tally,
    to the same where the ranking has fewer than ten entries. *)
Lemma ranking_of_well_formed (tally : list (json * Z)) :
  Batch.well_formed tally ->
  let ranked := Py.slice_to (Py.sorted_desc snd tally) 10 in
  Forall (fun entry => 1 <= snd entry) ranked /\
  NoDup (map fst ranked) /\
  Batch.total ranked <= Batch.total tally /\
  ((List.length ranked < 10)%nat -> Batch.total ranked = Batch.total tally).
Proof.
  intros Hwf ranked. subst ranked.
  change (Py.slice_to (Py.sorted_desc snd tally) 10)
    with (firstn 10 (Py.sorted_desc snd tally)).
  pose proof (sorted_desc_perm snd tally) as Hperm.
  set (sorted := Py.sorted_desc snd tally) in *.
  assert (Forall (fun entry => 1 <= snd entry) sorted) as Hall.
  { apply (Permutation_Forall (Permutation_sym Hperm)).
    destruct Hwf as [Hall _]. eapply Forall_impl; [|exact Hall].
    intros x [_ Hx]. exact Hx. }
  assert (NoDup (map fst sorted)) as Hnd.
  { apply (Permutation_NoDup (Permutation_map fst (Permutation_sym Hperm))).
    now apply well_formed_NoDup. }
  rewrite <- (firstn_skipn 10 sorted) in Hall, Hnd.
  apply Forall_app in Hall. destruct Hall as [Hfirst Hrest].
  rewrite map_app in Hnd. apply NoDup_app_remove_r in Hnd.
  split; [assumption|]. split; [assumption|].
  rewrite <- (total_perm _ _ Hperm).
  split.
  - rewrite <- (firstn_skipn 10 sorted) at 2. rewrite total_app.
    pose proof (total_nonneg _ Hrest). lia.
  - intros Hlen. rewrite firstn_all2; [reflexivity|].
    rewrite length_firstn in Hlen. lia.
Qed.

Lemma diseaseentity_step (env : world) :
  forall rs cs g tr r tr',
    DiseaseEntity.analyze_gene env (rs, cs) g tr = (r, tr') ->
    (graph_queries tr <= graph_queries tr' <= S (graph_queries tr))%nat /\
    forall rs' cs', r = Ok (rs', cs') ->
      (rs' = rs /\ cs' = cs /\ graph_queries tr' = graph_queries tr) \/
      (exists d (diseases : list DiseaseEntity.item),
         rs' = rs ++ [d] /\ DiseaseEntity.detail_gene d = g /\
         DiseaseEntity.detail_disease_count d = Z.of_nat (List.length diseases) /\
         for_each (fun counts i => Py.dict_incr (DiseaseEntity.name_of i) counts)
                  diseases cs = Ok cs' /\
         graph_queries tr' = S (graph_queries tr)).
Proof.
  intros rs cs g tr r tr' H.
  destruct (diseaseentity_gene_step _ _ _ _ _ _ _ H) as [Hq Hr].
  split; auto. intros rs' cs' Hok.
  destruct (Hr rs' cs' Hok) as [Hsame | (e & diseases & -> & Hincr & Hq')]; auto.
  right. eexists. exists diseases. simpl. auto.
Qed.

Lemma generic_step (env : world) :
  forall rs cs g tr r tr',
    Generic.analyze_gene env (rs, cs) g tr = (r, tr') ->
    (graph_queries tr <= graph_queries tr' <= S (graph_queries tr))%nat /\
    forall rs' cs', r = Ok (rs', cs') ->
      (rs' = rs /\ cs' = cs /\ graph_queries tr' = graph_queries tr) \/
      (exists d (diseases : list Generic.item),
         rs' = rs ++ [d] /\ Generic.detail_gene d = g /\
         Generic.detail_disease_count d = Z.of_nat (List.length diseases) /\
         for_each (fun counts i => Py.dict_incr (Generic.name_of i) counts)
                  diseases cs = Ok cs' /\
         graph_queries tr' = S (graph_queries tr)).
Proof.
  intros rs cs g tr r tr' H.
  destruct (generic_gene_step _ _ _ _ _ _ _ H) as [Hq Hr].
  split; auto. intros rs' cs' Hok.
  destruct (Hr rs' cs' Hok) as [Hsame | (e & diseases & -> & Hincr & Hq')]; auto.
  right. eexists. exists diseases. simpl. auto.
Qed.

(** X14.  In the report of [analyze_gene_list] the per-gene entries are the
    genes that resolved, in the order of the list: their symbols are the
    genes analysed with some left out, and there are as many entries as graph
    queries were sent.  A gene that does not resolve leaves no entry and
    causes no query. *)
Theorem details_are_the_resolved_genes (env : world) (syms : list string)
    (limit : Z) (tr : list call) :
  (forall a tr',
     DiseaseEntity.analyze_gene_list env syms limit tr = (Ok a, tr') ->
     Batch.subseq (map DiseaseEntity.detail_gene (DiseaseEntity.details a))
                  (DiseaseEntity.genes_analyzed a) /\
     (List.length (DiseaseEntity.details a) + graph_queries tr
      = graph_queries tr')%nat) /\
  (forall a tr',
     Generic.analyze_gene_list env syms limit tr = (Ok a, tr') ->
     Batch.subseq (map Generic.detail_gene (Generic.results a))
                  (Generic.genes_analyzed a) /\
     (List.length (Generic.results a) + graph_queries tr
      = graph_queries tr')%nat).
Proof.
  split; intros a tr'.
  - unfold DiseaseEntity.analyze_gene_list, bind.
    destruct (for_eachM _ _ _ tr) as [[[rs cs]|x] tr1] eqn:Hloop; [|discriminate].
    unfold ret. intros H. injection H as <- <-.
    destruct (loop_result DiseaseEntity.detail_gene
                DiseaseEntity.detail_disease_count DiseaseEntity.name_of
                _ (diseaseentity_step env) _ _ _ _ _ _ _ Hloop well_formed_nil)
      as (new & -> & Hsub & Hlen & _).
    simpl. auto.
  - unfold Generic.analyze_gene_list, bind.
    destruct (for_eachM _ _ _ tr) as [[[rs cs]|x] tr1] eqn:Hloop; [|discriminate].
    unfold ret. intros H. injection H as <- <-.
    destruct (loop_result Generic.detail_gene
                Generic.detail_disease_count Generic.name_of
                _ (generic_step env) _ _ _ _ _ _ _ Hloop well_formed_nil)
      as (new & -> & Hsub & Hlen & _).
    simpl. auto.
Qed.

Lemma details_are_the_resolved_genes_witness :
  exists a tr',
    DiseaseEntity.analyze_gene_list (Samples.two_genes Samples.once)
      ["ga"; "zz"; "gb"] 5 [] = (Ok a, tr') /\
    DiseaseEntity.genes_analyzed a = ["GA"; "ZZ"; "GB"] /\
    map DiseaseEntity.detail_gene (DiseaseEntity.details a) = ["GA"; "GB"] /\
    Batch.subseq (map DiseaseEntity.detail_gene (DiseaseEntity.details a))
                 (DiseaseEntity.genes_analyzed a) /\
    graph_queries tr' = 2%nat.
Proof.
  eexists. eexists. split; [reflexivity|].
  split; [reflexivity|]. split; [reflexivity|].
  destruct (details_are_the_resolved_genes (Samples.two_genes Samples.once)
              ["ga"; "zz"; "gb"] 5 []) as [H _].
  destruct (H _ _ eq_refl) as [Hsub Hlen].
  split; [exact Hsub | reflexivity].
Defined.

(** X15.  In the report of [analyze_gene_list] every "gene_count" is at
    least 1, no name is listed twice, and the counts listed add up to no more
    than the per-gene "disease_count"s do: every extracted record, an error
    marker included, is counted under exactly one name.  With fewer than ten
    names listed the two sums are equal. *)
Theorem common_diseases_account_for_the_records (env : world)
    (syms : list string) (limit : Z) (tr : list call) :
  (forall a tr',
     DiseaseEntity.analyze_gene_list env syms limit tr = (Ok a, tr') ->
     let listed := DiseaseEntity.common_diseases a in
     let counted :=
       Batch.sum (map DiseaseEntity.detail_disease_count (DiseaseEntity.details a)) in
     Forall (fun entry => 1 <= snd entry) listed /\
     NoDup (map fst listed) /\
     Batch.total listed <= counted /\
     ((List.length listed < 10)%nat -> Batch.total listed = counted)) /\
  (forall a tr',
     Generic.analyze_gene_list env syms limit tr = (Ok a, tr') ->
     let listed := Generic.common_diseases a in
     let counted :=
       Batch.sum (map Generic.detail_disease_count (Generic.results a)) in
     Forall (fun entry => 1 <= snd entry) listed /\
     NoDup (map fst listed) /\
     Batch.total listed <= counted /\
     ((List.length listed < 10)%nat -> Batch.total listed = counted)).
Proof.
  split; intros a tr'.
  - unfold DiseaseEntity.analyze_gene_list, bind.
    destruct (for_eachM _ _ _ tr) as [[[rs cs]|x] tr1] eqn:Hloop; [|discriminate].
    unfold ret. intros H. injection H as <- <-.
    destruct (loop_result DiseaseEntity.detail_gene
                DiseaseEntity.detail_disease_count DiseaseEntity.name_of
                _ (diseaseentity_step env) _ _ _ _ _ _ _ Hloop well_formed_nil)
      as (new & -> & _ & _ & Hwf & Htot).
    cbn [DiseaseEntity.common_diseases DiseaseEntity.details app].
    change (Batch.total []) with 0 in Htot. rewrite Z.add_0_l in Htot.
    rewrite <- Htot. now apply ranking_of_well_formed.
  - unfold Generic.analyze_gene_list, bind.
    destruct (for_eachM _ _ _ tr) as [[[rs cs]|x] tr1] eqn:Hloop; [|discriminate].
    unfold ret. intros H. injection H as <- <-.
    destruct (loop_result Generic.detail_gene
                Generic.detail_disease_count Generic.name_of
                _ (generic_step env) _ _ _ _ _ _ _ Hloop well_formed_nil)
      as (new & -> & _ & _ & Hwf & Htot).
    cbn [Generic.common_diseases Generic.results app].
    change (Batch.total []) with 0 in Htot. rewrite Z.add_0_l in Htot.
    rewrite <- Htot. now apply ranking_of_well_formed.
Qed.

Lemma common_diseases_account_for_the_records_witness :
  exists a tr',
    Generic.analyze_gene_list (Samples.two_genes Samples.thrice)
      ["GA"; "GB"] 5 [] = (Ok a, tr') /\
    Batch.total (Generic.common_diseases a) = 4 /\
    Batch.sum (map Generic.detail_disease_count (Generic.results a)) = 4 /\
    NoDup (map fst (Generic.common_diseases a)).
Proof.
  eexists. eexists. split; [reflexivity|].
  split; [reflexivity|]. split; [reflexivity|].
  destruct (common_diseases_account_for_the_records
              (Samples.two_genes Samples.thrice) ["GA"; "GB"] 5 []) as [_ H].
  destruct (H _ _ eq_refl) as (_ & Hnd & _). exact Hnd.
Defined.

(** ** A gene whose graph query fails *)

(** X16.  In [analyze_gene_list], a gene that resolves but whose graph query
    fails is reported like a gene with one disease: its entry has
    "disease_count" 1, and the tally counts one more occurrence of the name
    "Unknown", the name given to the error marker. *)
Theorem failed_query_counts_as_unknown (env : world) (g : string)
    (tr : list call) (gi : GeneLookup) (e : json) (x : exn) :
  let lookup := HttpGet NCBI_URL (ncbi_term g) in
  lookup_status gi = found ->
  entrez_id gi = Some e ->
  (forall rs cs,
     DiseaseEntity.get_gene_info env g tr = (Ok gi, tr ++ [lookup]) ->
     env (tr ++ [lookup]) (HttpPost DiseaseEntity.TRAPI_URL e "biolink:Disease")
       = Fails x ->
     DiseaseEntity.analyze_gene env (rs, cs) g tr
     = (Ok (rs ++ [{| DiseaseEntity.detail_gene := g;
                      DiseaseEntity.detail_entrez_id := e;
                      DiseaseEntity.detail_disease_count := 1 |}],
            Py.dict_store (JStr "Unknown")
              (match Py.dict_find (JStr "Unknown") cs with
               | Some n => n
               | None => 0
               end + 1) cs),
        tr ++ [lookup; HttpPost DiseaseEntity.TRAPI_URL e "biolink:Disease"])) /\
  (forall rs cs,
     Generic.get_gene_info env g tr = (Ok gi, tr ++ [lookup]) ->
     env (tr ++ [lookup]) (HttpPost Generic.ARAGORN_URL e "biolink:Disease")
       = Fails x ->
     Generic.analyze_gene env (rs, cs) g tr
     = (Ok (rs ++ [{| Generic.detail_gene := g;
                      Generic.detail_entrez_id := e;
                      Generic.detail_disease_count := 1 |}],
            Py.dict_store (JStr "Unknown")
              (match Py.dict_find (JStr "Unknown") cs with
               | Some n => n
               | None => 0
               end + 1) cs),
        tr ++ [lookup; HttpPost Generic.ARAGORN_URL e "biolink:Disease"])).
Proof.
  intros lookup Hst He. split; intros rs cs Hres Henv.
  - unfold DiseaseEntity.analyze_gene, bind.
    rewrite Hres, Hst. unfold lift at 1, entrez_id_of. rewrite He.
    unfold DiseaseEntity.query_translator_kg, try_except, request.
    rewrite Henv. rewrite <- app_assoc.
    destruct x; reflexivity.
  - unfold Generic.analyze_gene, bind.
    rewrite Hres, Hst. unfold lift at 1, entrez_id_of. rewrite He.
    unfold Generic.query_translator_kg, try_except, request.
    rewrite Henv. rewrite <- app_assoc. reflexivity.
Qed.

Lemma failed_query_counts_as_unknown_witness :
  DiseaseEntity.analyze_gene (Samples.two_genes Samples.once)
    ([], [(JStr "Unknown", 2)]) "XX" []
  = (Ok ([], [(JStr "Unknown", 2)]), [HttpGet NCBI_URL (ncbi_term "XX")]) /\
  DiseaseEntity.analyze_gene
    (fun _ c => match c with
                | HttpGet _ _ => Body (Doc.ncbi_answer [JStr "7"])
                | HttpPost _ _ _ => Fails (ExternalError "timed out")
                end)
    ([], [(JStr "Unknown", 2)]) "GA" []
  = (Ok ([{| DiseaseEntity.detail_gene := "GA";
             DiseaseEntity.detail_entrez_id := JStr "7";
             DiseaseEntity.detail_disease_count := 1 |}],
         [(JStr "Unknown", 3)]),
     [HttpGet NCBI_URL (ncbi_term "GA");
      HttpPost DiseaseEntity.TRAPI_URL (JStr "7") "biolink:Disease"]).
Proof.
  split; [reflexivity|].
  destruct (failed_query_counts_as_unknown
              (fun _ c => match c with
                          | HttpGet _ _ => Body (Doc.ncbi_answer [JStr "7"])
                          | HttpPost _ _ _ => Fails (ExternalError "timed out")
                          end)
              "GA" []
              {| gene_symbol := Some "GA"; entrez_id := Some (JStr "7");
                 lookup_status := found; lookup_error := None |}
              (JStr "7") (ExternalError "timed out") eq_refl eq_refl) as [H _].
  exact (H [] [(JStr "Unknown", 2)] eq_refl eq_refl).
Defined.

(** ** A name that cannot be a key *)

Lemma tally_raises_on_unhashable {I} (name_of : I -> json) (items : list I)
    (cs : list (json * Z)) (d : I) :
  In d items -> Py.hashable (name_of d) = false ->
  for_each (fun counts i => Py.dict_incr (name_of i) counts) items cs
  = Raise TypeError.
Proof.
  intros Hin Hd. revert cs.
  induction items as [|i items IH]; intros cs; simpl; [contradiction|].
  unfold Py.dict_incr at 1.
  destruct (Py.hashable (name_of i)) eqn:Hi; simpl; [|reflexivity].
  destruct Hin as [-> | Hin]; [congruence|]. now apply IH.
Qed.

(** X17.  The tally is keyed by the names as they come: when the records
    extracted for a gene include one whose name is a list or a dict, the
    analysis of that gene raises [TypeError], after its lookup and its graph
    query, and takes the whole batch with it. *)
Theorem unhashable_name_aborts_the_batch (env : world) (g : string)
    (tr : list call) (gi : GeneLookup) (e kg_result : json) :
  let lookup := HttpGet NCBI_URL (ncbi_term g) in
  lookup_status gi = found ->
  entrez_id gi = Some e ->
  (forall rs cs diseases d,
     DiseaseEntity.get_gene_info env g tr = (Ok gi, tr ++ [lookup]) ->
     env (tr ++ [lookup]) (HttpPost DiseaseEntity.TRAPI_URL e "biolink:Disease")
       = Body kg_result ->
     DiseaseEntity.extract_disease_associations kg_result = Ok diseases ->
     In d diseases -> Py.hashable (DiseaseEntity.name_of d) = false ->
     DiseaseEntity.analyze_gene env (rs, cs) g tr
     = (Raise TypeError,
        tr ++ [lookup; HttpPost DiseaseEntity.TRAPI_URL e "biolink:Disease"]) /\
     forall rest,
       for_eachM (DiseaseEntity.analyze_gene env) (g :: rest) (rs, cs) tr
       = (Raise TypeError,
          tr ++ [lookup; HttpPost DiseaseEntity.TRAPI_URL e "biolink:Disease"])) /\
  (forall rs cs diseases d,
     Generic.get_gene_info env g tr = (Ok gi, tr ++ [lookup]) ->
     env (tr ++ [lookup]) (HttpPost Generic.ARAGORN_URL e "biolink:Disease")
       = Body kg_result ->
     Generic.extract_disease_associations kg_result = Ok diseases ->
     In d diseases -> Py.hashable (Generic.name_of d) = false ->
     Generic.analyze_gene env (rs, cs) g tr
     = (Raise TypeError,
        tr ++ [lookup; HttpPost Generic.ARAGORN_URL e "biolink:Disease"]) /\
     forall rest,
       for_eachM (Generic.analyze_gene env) (g :: rest) (rs, cs) tr
       = (Raise TypeError,
          tr ++ [lookup; HttpPost Generic.ARAGORN_URL e "biolink:Disease"])).
Proof.
  intros lookup Hst He. split; intros rs cs diseases d Hres Henv Hex Hin Hd.
  - assert (DiseaseEntity.analyze_gene env (rs, cs) g tr
            = (Raise TypeError,
               tr ++ [lookup; HttpPost DiseaseEntity.TRAPI_URL e "biolink:Disease"]))
      as Hgene.
    { unfold DiseaseEntity.analyze_gene, bind.
      rewrite Hres, Hst. unfold lift at 1, entrez_id_of. rewrite He.
      unfold DiseaseEntity.query_translator_kg, try_except, request.
      rewrite Henv. unfold lift. rewrite Hex.
      rewrite (tally_raises_on_unhashable _ _ _ _ Hin Hd).
      rewrite <- app_assoc. reflexivity. }
    split; [exact Hgene|]. intros rest.
    cbn [for_eachM]. unfold bind at 1. now rewrite Hgene.
  - assert (Generic.analyze_gene env (rs, cs) g tr
            = (Raise TypeError,
               tr ++ [lookup; HttpPost Generic.ARAGORN_URL e "biolink:Disease"]))
      as Hgene.
    { unfold Generic.analyze_gene, bind.
      rewrite Hres, Hst. unfold lift at 1, entrez_id_of. rewrite He.
      unfold Generic.query_translator_kg, try_except, request.
      rewrite Henv. unfold lift. rewrite Hex.
      rewrite (tally_raises_on_unhashable _ _ _ _ Hin Hd).
      rewrite <- app_assoc. reflexivity. }
    split; [exact Hgene|]. intros rest.
    cbn [for_eachM]. unfold bind at 1. now rewrite Hgene.
Qed.

Lemma unhashable_name_aborts_the_batch_witness :
  for_eachM (DiseaseEntity.analyze_gene Samples3.names_are_lists)
    ["GA"; "GB"] ([], []) []
  = (Raise TypeError,
     [HttpGet NCBI_URL (ncbi_term "GA");
      HttpPost DiseaseEntity.TRAPI_URL (JStr "7") "biolink:Disease"]).
Proof.
  destruct (unhashable_name_aborts_the_batch Samples3.names_are_lists "GA" []
              {| gene_symbol := Some "GA"; entrez_id := Some (JStr "7");
                 lookup_status := found; lookup_error := None |}
              (JStr "7") Samples3.listed_name eq_refl eq_refl) as [H _].
  destruct (H [] []
              [DiseaseEntity.Disease
                 {| DiseaseEntity.disease_id := JStr "D1";
                    DiseaseEntity.disease_name := JArr [JStr "X"];
                    DiseaseEntity.categories := JArr [] |}]
              (DiseaseEntity.Disease
                 {| DiseaseEntity.disease_id := JStr "D1";
                    DiseaseEntity.disease_name := JArr [JStr "X"];
                    DiseaseEntity.categories := JArr [] |})
              eq_refl eq_refl eq_refl (or_introl eq_refl) eq_refl) as [_ Hall].
  exact (Hall ["GB"]).
Defined.

(** ** What the cut leaves out *)

Lemma sorted_app_bound {A} (R : A -> A -> Prop) (l1 l2 : list A) :
  StronglySorted R (l1 ++ l2) -> Forall (fun x => Forall (R x) l2) l1.
Proof.
  induction l1 as [|x l1 IH]; simpl; intros H; [constructor|].
  inversion H as [|? ? Hs Hx]; subst. constructor; auto.
  apply Forall_app in Hx. tauto.
Qed.

(** X18.  The ranking [sorted(...)[:10]] lists the largest counts: the tally
    is the ranking together with the entries left out, no entry left out has
    a larger count than an entry listed, and the ranking has ten entries, or
    all of them where the tally has fewer. *)
Theorem ranking_lists_the_largest (tally : list (json * Z)) :
  let ranked := Py.slice_to (Py.sorted_desc snd tally) 10 in
  exists left_out,
    Permutation tally (ranked ++ left_out) /\
    Forall (fun listed =>
              Forall (fun other => snd other <= snd listed) left_out) ranked /\
    List.length ranked = Nat.min 10 (List.length tally) /\
    ((List.length tally <= 10)%nat -> left_out = []).
Proof.
  intros ranked. subst ranked.
  change (Py.slice_to (Py.sorted_desc snd tally) 10)
    with (firstn 10 (Py.sorted_desc snd tally)).
  pose proof (sorted_desc_perm snd tally) as Hperm.
  pose proof (sorted_desc_sorted snd tally) as Hsorted.
  set (sorted := Py.sorted_desc snd tally) in *.
  exists (skipn 10 sorted). rewrite firstn_skipn.
  split; [now apply Permutation_sym|]. split.
  - rewrite <- (firstn_skipn 10 sorted) in Hsorted.
    now apply sorted_app_bound in Hsorted.
  - rewrite length_firstn, (Permutation_length Hperm). split; [reflexivity|].
    intros Hlen. apply skipn_all2. rewrite (Permutation_length Hperm). exact Hlen.
Qed.

(** ** A limit that is not negative *)

(** X19.  With a limit that is not negative, [analyze_gene_list] analyses the
    first [limit] symbols of the list (all of them where the list is shorter)
    and makes at most [limit] identifier lookups and at most [limit] graph
    queries, whether it returns or raises. *)
Theorem nonnegative_limit_caps_the_requests (env : world) (syms : list string)
    (limit : Z) (tr : list call) :
  0 <= limit ->
  (forall r tr',
     DiseaseEntity.analyze_gene_list env syms limit tr = (r, tr') ->
     Z.of_nat (lookups tr' - lookups tr) <= limit /\
     Z.of_nat (graph_queries tr' - graph_queries tr) <= limit /\
     forall a, r = Ok a ->
       DiseaseEntity.genes_analyzed a
       = map Py.upper (firstn (Z.to_nat limit) syms)) /\
  (forall r tr',
     Generic.analyze_gene_list env syms limit tr = (r, tr') ->
     Z.of_nat (lookups tr' - lookups tr) <= limit /\
     Z.of_nat (graph_queries tr' - graph_queries tr) <= limit /\
     forall a, r = Ok a ->
       Generic.genes_analyzed a
       = map Py.upper (firstn (Z.to_nat limit) syms)).
Proof.
  intros Hlim. split; intros r tr' H.
  - destruct (diseaseentity_limit_nonneg env syms limit tr tr' r Hlim H) as [Hl Hg].
    split; [assumption|]. split; [|assumption].
    unfold DiseaseEntity.analyze_gene_list, bind in H.
    destruct (for_eachM _ _ _ tr) as [[[rs cs]|x] tr1] eqn:Hloop;
      unfold ret in H; injection H as _ <-;
      apply (for_eachM_queries_le_lookups _ (diseaseentity_gene_requests env))
        in Hloop; lia.
  - destruct (generic_limit_nonneg env syms limit tr tr' r Hlim H) as [Hl Hg].
    split; [assumption|]. split; [|assumption].
    unfold Generic.analyze_gene_list, bind in H.
    destruct (for_eachM _ _ _ tr) as [[[rs cs]|x] tr1] eqn:Hloop;
      unfold ret in H; injection H as _ <-;
      apply (for_eachM_queries_le_lookups _ (generic_gene_requests env))
        in Hloop; lia.
Qed.

Lemma nonnegative_limit_caps_the_requests_witness :
  exists a tr',
    DiseaseEntity.analyze_gene_list (Samples.two_genes Samples.once)
      ["ga"; "gb"; "gc"] 2 [] = (Ok a, tr') /\
    DiseaseEntity.genes_analyzed a = ["GA"; "GB"] /\
    Z.of_nat (lookups tr' - lookups []) <= 2.
Proof.
  eexists. eexists. split; [reflexivity|].
  assert (0 <= 2) as Hlim by lia.
  destruct (nonnegative_limit_caps_the_requests (Samples.two_genes Samples.once)
              ["ga"; "gb"; "gc"] 2 [] Hlim) as [H _].
  destruct (H _ _ eq_refl) as (Hl & _ & Hg).
  split; [exact (Hg _ eq_refl) | exact Hl].
Defined.

(** ** Failed requests downstream *)

(** X20.  A graph request that fails comes out of each extractor as a list
    of exactly one error marker that carries the text of the failure: the
    error value of [query_translator_kg] is a dict with an "error" entry,
    and the extractors turn such a dict into the marker, whatever else the
    dict holds. *)
Theorem failed_request_becomes_one_marker (env : world) (tr : list call)
    (e : json) (x : exn) :
  (forall c,
     env tr (HttpPost DrugDisease.TRAPI_URL e c) = Fails x ->
     exists kg_result tr',
       DrugDisease.query_translator_kg env e c tr = (Ok kg_result, tr') /\
       forall type_label,
         DrugDisease.extract_associations kg_result type_label
         = Ok [DrugDisease.ErrorMarker
                 (JStr ("Connection error: " ++ str_exn x)%string)]) /\
  (env tr (HttpPost DiseaseEntity.TRAPI_URL e "biolink:Disease") = Fails x ->
   exists kg_result tr' text,
     DiseaseEntity.query_translator_kg env e tr = (Ok kg_result, tr') /\
     DiseaseEntity.extract_disease_associations kg_result
     = Ok [DiseaseEntity.ErrorMarker (JStr text)]) /\
  (env tr (HttpPost Generic.ARAGORN_URL e "biolink:Disease") = Fails x ->
   exists kg_result tr',
     Generic.query_translator_kg env e tr = (Ok kg_result, tr') /\
     Generic.extract_disease_associations kg_result
     = Ok [Generic.ErrorMarker (JStr (str_exn x))]) /\
  (forall kv detail type_label,
     Py.lookup "error" kv = Some detail ->
     DrugDisease.extract_associations (JObj kv) type_label
       = Ok [DrugDisease.ErrorMarker detail] /\
     DiseaseEntity.extract_disease_associations (JObj kv)
       = Ok [DiseaseEntity.ErrorMarker detail] /\
     Generic.extract_disease_associations (JObj kv)
       = Ok [Generic.ErrorMarker detail]).
Proof.
  split; [|split; [|split]].
  - intros c Henv. rewrite query_translator_kg_returns, Henv.
    eexists. eexists. split; [reflexivity|]. reflexivity.
  - intros Henv. unfold DiseaseEntity.query_translator_kg, try_except, request.
    rewrite Henv. destruct x; do 3 eexists; split; reflexivity.
  - intros Henv. unfold Generic.query_translator_kg, try_except, request.
    rewrite Henv. do 2 eexists. split; reflexivity.
  - intros kv detail type_label Herr.
    unfold DrugDisease.extract_associations,
      DiseaseEntity.extract_disease_associations,
      Generic.extract_disease_associations.
    simpl. rewrite Herr. auto.
Qed.

Lemma failed_request_becomes_one_marker_witness :
  exists kg_result tr',
    DrugDisease.query_translator_kg Samples.offline (JStr "348") "biolink:Disease" []
      = (Ok kg_result, tr') /\
    DrugDisease.extract_associations kg_result "Disease"
    = Ok [DrugDisease.ErrorMarker (JStr "Connection error: timed out")].
Proof.
  destruct (failed_request_becomes_one_marker Samples.offline [] (JStr "348")
              (ExternalError "timed out")) as [H _].
  destruct (H "biolink:Disease" eq_refl) as (kg_result & tr' & Hq & Hex).
  exists kg_result, tr'. split; [exact Hq | exact (Hex "Disease")].
Defined.

(** ** The lookup record *)

Ltac solve_lookup_record :=
  intros env s tr; run_M;
  destruct (env tr (HttpGet NCBI_URL (ncbi_term s))) as [doc|e0]; simpl;
  [ destruct (Py.get doc "esearchresult" (JObj [])) as [esr|]; simpl;
    [ destruct (Py.get esr "idlist" (JArr [])) as [id_list|]; simpl;
      [ destruct (Py.truthy id_list); simpl;
        [ destruct (Py.getitem id_list (JNum 0)); simpl | ] | ] | ] | ];
  eexists; (split; [reflexivity|]); simpl;
  (split; [split; congruence | reflexivity]).

(** The [try] block of [get_gene_info], and the whole of it in
    [mcp_generic-checkpoint.py]: one request, the GET for the symbol's term,
    and a record. *)
Lemma lookup_record_in_hand :
  lookup_record DrugDisease.get_gene_info false /\
  lookup_record DiseaseEntity.get_gene_info true /\
  lookup_record Generic.get_gene_info true.
Proof.
  split; [|split].
  - unfold lookup_record, DrugDisease.get_gene_info. solve_lookup_record.
  - unfold lookup_record, DiseaseEntity.get_gene_info. solve_lookup_record.
  - unfold lookup_record, Generic.get_gene_info. solve_lookup_record.
Qed.

(** ** The reports on sample services *)

Lemma find_gene_diseases_report_witness :
  exists r tr',
    DiseaseEntity.find_gene_diseases (Samples.two_genes Samples.thrice) "ga" []
      = (Ok (Report r), tr') /\
    DiseaseEntity.fd_gene r = "GA" /\
    (List.length (DiseaseEntity.disease_associations r) <= 20)%nat /\
    DiseaseEntity.total_diseases_found r = 1.
Proof.
  eexists. eexists. split; [reflexivity|].
  destruct (find_gene_diseases_report (Samples.two_genes Samples.thrice) "ga" [])
    as [H _].
  destruct (H _ _ eq_refl)
    as (gi & e & kg & ds & tr1 & _ & _ & _ & _ & Hg & _ & _ & Hlen & _).
  split; [exact Hg|]. split; [exact Hlen | reflexivity].
Defined.


(** * The functions with their HTTP client *)

Lemma within_sound {A} (mk : Client.factory) (body : M A) (tr : list call) :
  mk tr = Ok (Client.Built (Ok tt)) -> Client.within mk body tr = body tr.
Proof.
  intros H. unfold Client.within. rewrite H. now destruct (body tr).
Qed.

Lemma within_unbuilt {A} (mk : Client.factory) (body : M A) (tr : list call)
    (e : exn) :
  mk tr = Raise e -> Client.within mk body tr = (Raise e, tr).
Proof. intros H. unfold Client.within. now rewrite H. Qed.

Lemma within_closing {A} (mk : Client.factory) (body : M A) (tr tr' : list call)
    (close : res unit) (r : res A) :
  mk tr = Ok (Client.Built close) -> body tr = (r, tr') ->
  Client.within mk body tr
  = (match close with Ok _ => r | Raise e => Raise e end, tr').
Proof.
  intros H Hb. unfold Client.within. rewrite H, Hb. now destruct close.
Qed.

(** What the [try] block of [get_gene_info] makes of an answer that was
    received: an error exactly when the answer cannot be read. *)
Lemma drugdisease_reads (env : world) (s : string) (tr : list call) (data : json) :
  env tr (HttpGet NCBI_URL (ncbi_term s)) = Body data ->
  exists gi,
    DrugDisease.get_gene_info env s tr
      = (Ok gi, tr ++ [HttpGet NCBI_URL (ncbi_term s)]) /\
    (lookup_status gi = error <-> Reading.readable data = false).
Proof.
  intros Henv. unfold DrugDisease.get_gene_info. run_M. rewrite Henv. simpl.
  destruct data as [| | | | |kv]; simpl;
    try (eexists; split; [reflexivity|]; simpl; split; reflexivity).
  destruct (Py.lookup "esearchresult" kv) as [[| | | | |r]|]; simpl;
    try (eexists; split; [reflexivity|]; simpl; split; reflexivity);
    try (eexists; split; [reflexivity|]; simpl; split; discriminate).
  destruct (Py.lookup "idlist" r) as [id_list|]; simpl;
    [|eexists; split; [reflexivity|]; simpl; split; discriminate].
  destruct id_list as [|[]|n|[|a s']|[|x l]|[|p q]]; simpl;
    try (eexists; split; [reflexivity|]; simpl; split; reflexivity);
    try (eexists; split; [reflexivity|]; simpl; split; discriminate).
  destruct (n =? 0); simpl; eexists; (split; [reflexivity|]); simpl; split;
    first [reflexivity | discriminate].
Qed.

(** C7, as stated, fails in two places.  The query client hands a decoded
    body back as it is, whatever its shape: the answer [null] comes back as
    [null], with no error tag.  And the client is built before [try]: when
    building it raises, [get_gene_info] and [query_translator_kg] raise as
    well, without a request. *)
Lemma failures_that_are_not_values :
  Client.OfDrugDisease.query_translator_kg Client.always_works
    Samples2.null_answers (JStr "348") "biolink:Disease" []
  = (Ok JNull, [HttpPost DrugDisease.TRAPI_URL (JStr "348") "biolink:Disease"]) /\
  Py.contains (JStr "error") JNull <> Ok true /\
  Client.OfDrugDisease.get_gene_info
    (Client.never_builds (ExternalError "Unknown scheme for proxy URL"))
    Samples.drugs_down "APOE" []
  = (Raise (ExternalError "Unknown scheme for proxy URL"), []) /\
  Client.OfDrugDisease.query_translator_kg
    (Client.never_builds (ExternalError "Unknown scheme for proxy URL"))
    Samples.drugs_down (JStr "348") "biolink:Disease" []
  = (Raise (ExternalError "Unknown scheme for proxy URL"), []).
Proof.
  split; [reflexivity|]. split; [discriminate|]. split; reflexivity.
Qed.

(** C7 (amended).  In [mcpserver_drugdisease.py], with a client that is
    built and closed without fault, [get_gene_info] and
    [query_translator_kg] make their one request and hand a value back
    whatever the request does.  When the request raises (transport failure,
    timeout, non-2xx status, a body that does not decode), the resolver's
    value has status [error] with the text of the exception as its detail,
    and the query client's value is the dict tagged "error".  When the
    lookup service answers, the resolver's status is [error] exactly when the
    answer cannot be read, and an [error] always comes with a detail; the
    query client hands a decoded body back unchanged. *)
Theorem request_failures_are_values (mk : Client.factory) (env : world)
    (tr : list call) :
  mk tr = Ok (Client.Built (Ok tt)) ->
  (forall s,
     let c := HttpGet NCBI_URL (ncbi_term s) in
     exists gi,
       Client.OfDrugDisease.get_gene_info mk env s tr = (Ok gi, tr ++ [c]) /\
       (lookup_status gi = error -> lookup_error gi <> None) /\
       match env tr c with
       | Fails e => lookup_status gi = error /\ lookup_error gi = Some (str_exn e)
       | Body data => lookup_status gi = error <-> Reading.readable data = false
       end) /\
  (forall entrez_id target_category,
     let c := HttpPost DrugDisease.TRAPI_URL entrez_id target_category in
     exists v,
       Client.OfDrugDisease.query_translator_kg mk env entrez_id target_category tr
         = (Ok v, tr ++ [c]) /\
       match env tr c with
       | Fails e =>
           v = JObj [("error", JStr ("Connection error: " ++ str_exn e)%string)]
       | Body doc => v = doc
       end).
Proof.
  intros Hmk. split.
  - intros s c. unfold Client.OfDrugDisease.get_gene_info.
    rewrite (within_sound _ _ _ Hmk).
    destruct (drugdisease_resolves env s tr) as (gi & E & _ & Herr & Hfail).
    exists gi. split; [exact E|]. split; [exact Herr|].
    subst c. destruct (env tr _) as [data|e] eqn:Henv.
    + destruct (drugdisease_reads env s tr data Henv) as (gi' & E' & Hread).
      rewrite E in E'. injection E' as <-. exact Hread.
    + rewrite (Hfail e eq_refl). simpl. auto.
  - intros entrez_id target_category c.
    unfold Client.OfDrugDisease.query_translator_kg.
    rewrite (within_sound _ _ _ Hmk). eexists. split.
    + apply query_translator_kg_returns.
    + simpl. subst c. destruct (env tr _); reflexivity.
Qed.

Lemma request_failures_are_values_witness :
  Client.always_works [] = Ok (Client.Built (Ok tt)) /\
  Client.OfDrugDisease.get_gene_info Client.always_works Samples.offline "APOE" []
  = (Ok {| gene_symbol := None; entrez_id := None;
           lookup_status := error; lookup_error := Some "timed out" |},
     [HttpGet NCBI_URL (ncbi_term "APOE")]) /\
  (exists gi,
     Client.OfDrugDisease.get_gene_info Client.always_works
       (fun _ _ => Body (JArr [])) "APOE" []
       = (Ok gi, [HttpGet NCBI_URL (ncbi_term "APOE")]) /\
     lookup_status gi = error /\ lookup_error gi <> None) /\
  Client.OfDrugDisease.query_translator_kg Client.always_works Samples.offline
    (JStr "348") "biolink:Disease" []
  = (Ok (JObj [("error", JStr "Connection error: timed out")]),
     [HttpPost DrugDisease.TRAPI_URL (JStr "348") "biolink:Disease"]).
Proof.
  split; [reflexivity|].
  destruct (request_failures_are_values Client.always_works Samples.offline []
              eq_refl) as [Hres Hq].
  destruct (request_failures_are_values Client.always_works
              (fun _ _ => Body (JArr [])) [] eq_refl) as [Hbad _].
  split; [|split].
  - destruct (Hres "APOE") as (gi & E & _ & Hst & Hdetail).
    rewrite E. destruct gi as [sym id st err]. simpl in *. subst.
    vm_compute in E. injection E as <- <-. reflexivity.
  - destruct (Hbad "APOE") as (gi & E & Herr & Hread).
    exists gi. split; [exact E|]. simpl in Hread.
    assert (lookup_status gi = error) as Hst by (apply Hread; reflexivity).
    split; [exact Hst | exact (Herr Hst)].
  - destruct (Hq (JStr "348") "biolink:Disease") as (v & E & Hv).
    simpl in Hv. subst v. exact E.
Defined.

(** ** Names in the extractor of [mcp_diseaseEntity-checkpoint.py] *)

Section DiseaseEntityNames.

Import DiseaseEntity.

Variable nodes_map : json.

Lemma diseaseentity_node_named (ds ds' : list disease) (node : json) :
  visit_node nodes_map ds node = Ok ds' ->
  Forall (Reading.named_by_catalogue nodes_map) ds ->
  Forall (Reading.named_by_catalogue nodes_map) ds'.
Proof.
  unfold visit_node. intros H Hall.
  rstep H. rstep H. destruct v0; [|now injection H as <-].
  rstep H. rstep H.
  destruct (existsb (fun d => Py.eq (disease_id d) v) ds); simpl in H;
    [now injection H as <-|].
  rstep H. injection H as <-. apply Forall_app. split; auto.
  constructor; [|constructor]. exists v0. simpl. auto.
Qed.

Lemma diseaseentity_nodes_named (nodes : list json) (ds ds' : list disease) :
  for_each (visit_node nodes_map) nodes ds = Ok ds' ->
  Forall (Reading.named_by_catalogue nodes_map) ds ->
  Forall (Reading.named_by_catalogue nodes_map) ds'.
Proof.
  revert ds. induction nodes as [|node nodes IH]; intros ds H Hall; simpl in H.
  - now injection H as <-.
  - rstep H. eapply IH; eauto. eapply diseaseentity_node_named; eauto.
Qed.

Lemma diseaseentity_rows_named (rows : list json) (ds ds' : list disease) :
  for_each (visit_result nodes_map) rows ds = Ok ds' ->
  Forall (Reading.named_by_catalogue nodes_map) ds ->
  Forall (Reading.named_by_catalogue nodes_map) ds'.
Proof.
  revert ds. induction rows as [|row rows IH]; intros ds H Hall; simpl in H.
  - now injection H as <-.
  - rstep H. eapply IH; eauto.
    unfold visit_result in E. rstep E. rstep E. rstep E.
    eapply diseaseentity_nodes_named; eauto.
Qed.

End DiseaseEntityNames.

Lemma diseaseentity_walk_named (kg_result : json)
    (ds : list DiseaseEntity.disease) :
  DiseaseEntity.extract_disease_associations kg_result
    = Ok (map DiseaseEntity.Disease ds) ->
  exists nodes_map,
    Doc.catalogue kg_result = Ok nodes_map /\
    Forall (Reading.named_by_catalogue nodes_map) ds.
Proof.
  unfold DiseaseEntity.extract_disease_associations. intros H.
  rstep H. destruct v.
  { rstep H. destruct ds; discriminate. }
  destruct (DiseaseEntity.walk kg_result) as [ds'|e] eqn:Hw;
    [|destruct ds; discriminate].
  injection H as H. apply map_injective in H; [|intros x y Hxy; now injection Hxy].
  subst ds'. clear E.
  unfold DiseaseEntity.walk, Doc.catalogue in *.
  rstep Hw. simpl. rstep Hw. rstep Hw. simpl. rstep Hw. rstep Hw.
  exists v2. split; [reflexivity|].
  eapply diseaseentity_rows_named; eauto.
Qed.

(** ** The name of a nameless entry *)

(** C10, as stated, fails where the extraction does not go through: the row
    that binds the nameless entry D2 is followed by a row that is no dict,
    and the extractors return a single error marker, with no record for
    D2. *)
Lemma nameless_entry_lost_with_a_bad_row :
  Doc.catalogue Reading.nameless_then_bad_row
    = Ok (JObj [("D2", Doc.nameless)]) /\
  Doc.row_ids (Doc.row ["D2"]) = Ok [JStr "D2"] /\
  Py.lookup "name" [("categories", JArr [JStr "biolink:Disease"])] = None /\
  (exists detail,
     DrugDisease.extract_associations Reading.nameless_then_bad_row "Disease"
     = Ok [DrugDisease.ErrorMarker detail]) /\
  (exists detail,
     DiseaseEntity.extract_disease_associations Reading.nameless_then_bad_row
     = Ok [DiseaseEntity.ErrorMarker detail]).
Proof.
  split; [reflexivity|]. split; [reflexivity|]. split; [reflexivity|].
  split; eexists; reflexivity.
Qed.

(** C10 (amended).  Take an id [s] whose catalogue entry is a dict without
    "name".  Visiting a node with that id does not raise: unless a record for
    the id is already in the list, it appends one whose name is the id, in
    [mcpserver_drugdisease.py] and in [mcp_diseaseEntity-checkpoint.py]
    alike.  And whenever one of the two extractors answers with records (the
    document has no "error" entry and is walked without an exception) for a
    document whose rows bind [s], one of the records is the record of [s],
    named by the id. *)
Theorem extract_associations_name_falls_back_to_id
    (nodes : list (string * json)) (type_label s : string)
    (kv : list (string * json)) :
  Py.lookup s nodes = Some (JObj kv) ->
  Py.lookup "name" kv = None ->
  (forall items node,
     Py.get node "id" JNull = Ok (JStr s) ->
     DrugDisease.visit_node (JObj nodes) type_label items node
       = Ok (if existsb (fun r => Py.eq (DrugDisease.id r) (JStr s)) items
             then items
             else items ++
                  [{| DrugDisease.id := JStr s;
                      DrugDisease.name := JStr s;
                      DrugDisease.type := type_label;
                      DrugDisease.categories :=
                        match Py.lookup "categories" kv with
                        | Some c => c
                        | None => JArr []
                        end |}])) /\
  (forall diseases disease_node,
     Py.get disease_node "id" JNull = Ok (JStr s) ->
     DiseaseEntity.visit_node (JObj nodes) diseases disease_node
       = Ok (if existsb (fun d => Py.eq (DiseaseEntity.disease_id d) (JStr s))
                        diseases
             then diseases
             else diseases ++
                  [{| DiseaseEntity.disease_id := JStr s;
                      DiseaseEntity.disease_name := JStr s;
                      DiseaseEntity.categories :=
                        match Py.lookup "categories" kv with
                        | Some c => c
                        | None => JArr []
                        end |}])) /\
  (forall kg_result items ids,
     DrugDisease.extract_associations kg_result type_label
       = Ok (map DrugDisease.Assoc items) ->
     Doc.catalogue kg_result = Ok (JObj nodes) ->
     Doc.bound_ids kg_result = Ok ids ->
     In (JStr s) ids ->
     exists r, In r items /\
               DrugDisease.id r = JStr s /\ DrugDisease.name r = JStr s) /\
  (forall kg_result diseases ids,
     DiseaseEntity.extract_disease_associations kg_result
       = Ok (map DiseaseEntity.Disease diseases) ->
     Doc.catalogue kg_result = Ok (JObj nodes) ->
     Doc.bound_ids kg_result = Ok ids ->
     In (JStr s) ids ->
     exists d, In d diseases /\
               DiseaseEntity.disease_id d = JStr s /\
               DiseaseEntity.disease_name d = JStr s).
Proof.
  intros Hentry Hname.
  assert (Doc.in_catalogue (JObj nodes) (JStr s) = true) as Hknown
    by (unfold Doc.in_catalogue; simpl; now rewrite Hentry).
  split; [|split; [|split]].
  - intros items node Hid. unfold DrugDisease.visit_node.
    rewrite Hid. simpl. rewrite Hentry. simpl. rewrite Hname.
    destruct (existsb _ items); reflexivity.
  - intros diseases disease_node Hid. unfold DiseaseEntity.visit_node.
    rewrite Hid. simpl. rewrite Hentry. simpl. rewrite Hname.
    destruct (existsb _ diseases); reflexivity.
  - intros kg_result items ids Hex Hcat Hids Hin.
    apply extract_associations_records in Hex.
    destruct (walk_kept _ _ _ Hex)
      as (nodes_map & ids' & Hcat' & Hids' & Hmap & _ & Hall).
    rewrite Hcat in Hcat'. injection Hcat' as <-.
    rewrite Hids in Hids'. injection Hids' as <-.
    assert (In (JStr s) (map DrugDisease.id items)) as Hrec
      by (rewrite Hmap; now apply absorb_str).
    apply in_map_iff in Hrec. destruct Hrec as (r & Hr & Hrin).
    exists r. repeat split; auto.
    rewrite Forall_forall in Hall. destruct (Hall r Hrin) as (info & Hinfo & Hnm & _).
    rewrite Hr in Hinfo, Hnm. simpl in Hinfo. rewrite Hentry in Hinfo.
    injection Hinfo as <-. simpl in Hnm. rewrite Hname in Hnm.
    now injection Hnm as <-.
  - intros kg_result diseases ids Hex Hcat Hids Hin.
    destruct (diseaseentity_walk_kept _ _ Hex)
      as (nodes_map & ids' & Hcat' & Hids' & Hmap & _).
    rewrite Hcat in Hcat'. injection Hcat' as <-.
    rewrite Hids in Hids'. injection Hids' as <-.
    destruct (diseaseentity_walk_named _ _ Hex) as (nodes_map & Hcat'' & Hall).
    rewrite Hcat in Hcat''. injection Hcat'' as <-.
    assert (In (JStr s) (map DiseaseEntity.disease_id diseases)) as Hrec
      by (rewrite Hmap; now apply absorb_str).
    apply in_map_iff in Hrec. destruct Hrec as (d & Hd & Hdin).
    exists d. repeat split; auto.
    rewrite Forall_forall in Hall. destruct (Hall d Hdin) as (info & Hinfo & Hnm).
    rewrite Hd in Hinfo, Hnm. simpl in Hinfo. rewrite Hentry in Hinfo.
    injection Hinfo as <-. simpl in Hnm. rewrite Hname in Hnm.
    now injection Hnm as <-.
Qed.

Lemma extract_associations_name_falls_back_to_id_witness :
  Py.lookup "D2" [("D1", Doc.entry "X"); ("D2", Doc.nameless)]
    = Some Doc.nameless /\
  Py.lookup "name" [("categories", JArr [JStr "biolink:Disease"])] = None /\
  DrugDisease.visit_node
    (JObj [("D1", Doc.entry "X"); ("D2", Doc.nameless)]) "Disease" []
    (Doc.node "D2")
    = Ok [{| DrugDisease.id := JStr "D2";
             DrugDisease.name := JStr "D2";
             DrugDisease.type := "Disease";
             DrugDisease.categories := JArr [JStr "biolink:Disease"] |}] /\
  (exists r items,
     DrugDisease.extract_associations Samples.repeated "Disease"
       = Ok (map DrugDisease.Assoc items) /\
     In r items /\
     DrugDisease.id r = JStr "D2" /\ DrugDisease.name r = JStr "D2") /\
  (exists d diseases,
     DiseaseEntity.extract_disease_associations Samples.repeated
       = Ok (map DiseaseEntity.Disease diseases) /\
     In d diseases /\
     DiseaseEntity.disease_id d = JStr "D2" /\
     DiseaseEntity.disease_name d = JStr "D2").
Proof.
  split; [reflexivity|]. split; [reflexivity|].
  destruct (extract_associations_name_falls_back_to_id
              [("D1", Doc.entry "X"); ("D2", Doc.nameless)] "Disease" "D2"
              [("categories", JArr [JStr "biolink:Disease"])]
              eq_refl eq_refl) as (Hvisit & _ & Hall & Hall').
  split; [exact (Hvisit [] (Doc.node "D2") eq_refl)|]. split.
  - destruct (Hall Samples.repeated _ _ eq_refl eq_refl eq_refl)
      as (r & Hin & Hid & Hnm).
    + simpl. auto.
    + exists r. eexists. split; [reflexivity|]. auto.
  - destruct (Hall' Samples.repeated _ _ eq_refl eq_refl eq_refl)
      as (d & Hin & Hid & Hnm).
    + simpl. auto.
    + exists d. eexists. split; [reflexivity|]. auto.
Defined.

(** ** The single-gene handler and its clients *)

(** X9.  [find_gene_diseases] contains the faults of the two services.  If
    the graph service answers every query with a JSON object, or fails, then
    whatever the lookup service does: the handler of
    [mcp_generic-checkpoint.py] hands back a reply for every symbol; so does
    the handler of [mcp_diseaseEntity-checkpoint.py] as long as its HTTP
    clients are built and closed without fault; and when its first client
    cannot be built, that handler raises the client's exception, having sent
    no request. *)
Theorem find_gene_diseases_contains_faults (mk : Client.factory) (env : world)
    (sym : string) (tr : list call) :
  Shape.answers_objects env ->
  (Client.sound mk ->
   exists rep tr',
     Client.OfDiseaseEntity.find_gene_diseases mk env sym tr = (Ok rep, tr')) /\
  (forall e,
     mk tr = Raise e ->
     Client.OfDiseaseEntity.find_gene_diseases mk env sym tr = (Raise e, tr)) /\
  (exists rep tr',
     Generic.find_gene_diseases env sym tr = (Ok rep, tr')).
Proof.
  intros Henv. split; [|split].
  - intros Hmk.
    unfold Client.OfDiseaseEntity.find_gene_diseases, bind,
      Client.OfDiseaseEntity.get_gene_info,
      Client.OfDiseaseEntity.query_translator_kg.
    rewrite within_sound by apply Hmk.
    destruct (diseaseentity_resolves env (Py.upper sym) tr) as (gi & -> & Hiff & _).
    destruct (lookup_status gi) eqn:Hst; try (eexists; eexists; reflexivity).
    unfold lift, entrez_id_of.
    destruct (entrez_id gi) as [e|] eqn:He;
      [|exfalso; apply (proj2 Hiff); auto].
    rewrite within_sound by apply Hmk.
    destruct (diseaseentity_query_object env e
                (tr ++ [HttpGet NCBI_URL (ncbi_term (Py.upper sym))]) Henv)
      as (kv & ->).
    destruct (diseaseentity_total_on_objects kv) as (o & ->).
    eexists. eexists. reflexivity.
  - intros e Hmk.
    unfold Client.OfDiseaseEntity.find_gene_diseases, bind,
      Client.OfDiseaseEntity.get_gene_info.
    now rewrite (within_unbuilt _ _ _ _ Hmk).
  - unfold Generic.find_gene_diseases, bind.
    destruct (generic_resolves env (Py.upper sym) tr) as (gi & -> & Hiff & _).
    destruct (lookup_status gi) eqn:Hst; try (eexists; eexists; reflexivity).
    unfold lift, entrez_id_of.
    destruct (entrez_id gi) as [e|] eqn:He;
      [|exfalso; apply (proj2 Hiff); auto].
    destruct (generic_query_object env e
                (tr ++ [HttpGet NCBI_URL (ncbi_term (Py.upper sym))]) Henv)
      as (kv & ->).
    destruct (generic_total_on_objects kv) as (o & ->).
    eexists. eexists. reflexivity.
Qed.

Lemma find_gene_diseases_contains_faults_witness :
  Shape.answers_objects Samples.drugs_down /\
  Client.sound Client.always_works /\
  (exists rep tr',
     Client.OfDiseaseEntity.find_gene_diseases
       Client.always_works Samples.drugs_down "apoe" [] = (Ok rep, tr')) /\
  Client.OfDiseaseEntity.find_gene_diseases
    (Client.never_builds (ExternalError "Unknown scheme for proxy URL"))
    Samples.drugs_down "apoe" []
  = (Raise (ExternalError "Unknown scheme for proxy URL"), []).
Proof.
  split; [exact drugs_down_answers_objects|].
  split; [intros tr; reflexivity|].
  split.
  - destruct (find_gene_diseases_contains_faults
                Client.always_works Samples.drugs_down "apoe" []
                drugs_down_answers_objects) as [H _].
    apply H. intros tr. reflexivity.
  - destruct (find_gene_diseases_contains_faults
                (Client.never_builds (ExternalError "Unknown scheme for proxy URL"))
                Samples.drugs_down "apoe" []
                drugs_down_answers_objects) as (_ & H & _).
    apply H. reflexivity.
Defined.

(** ** The lookup and its client *)

(** X21.  A call of [get_gene_info] in [mcpserver_drugdisease.py] or
    [mcp_diseaseEntity-checkpoint.py] first builds its HTTP client.  If that
    raises, the call raises the same exception and no request is made.
    Otherwise the call makes one request, the GET for the symbol's term, and
    no graph query, and its [try] block produces a record in which the error
    detail is present exactly when the status is [error], and which names the
    symbol it was asked for, except that the error record of
    [mcpserver_drugdisease.py] has no "gene_symbol"; the call returns that
    record, unless closing the client raises, and then the call raises that
    exception.  [get_gene_info] of [mcp_generic-checkpoint.py] builds no
    client: each call makes the one request and returns such a record. *)
Theorem get_gene_info_record :
  (forall mk env s tr,
     match mk tr with
     | Raise e =>
         Client.OfDrugDisease.get_gene_info mk env s tr = (Raise e, tr)
     | Ok (Client.Built close) =>
         exists gi,
           Reading.record_for s false gi /\
           Client.OfDrugDisease.get_gene_info mk env s tr
           = (match close with Ok _ => Ok gi | Raise e => Raise e end,
              tr ++ [HttpGet NCBI_URL (ncbi_term s)])
     end) /\
  (forall mk env s tr,
     match mk tr with
     | Raise e =>
         Client.OfDiseaseEntity.get_gene_info mk env s tr = (Raise e, tr)
     | Ok (Client.Built close) =>
         exists gi,
           Reading.record_for s true gi /\
           Client.OfDiseaseEntity.get_gene_info mk env s tr
           = (match close with Ok _ => Ok gi | Raise e => Raise e end,
              tr ++ [HttpGet NCBI_URL (ncbi_term s)])
     end) /\
  (forall env s tr,
     exists gi,
       Reading.record_for s true gi /\
       Generic.get_gene_info env s tr
       = (Ok gi, tr ++ [HttpGet NCBI_URL (ncbi_term s)])).
Proof.
  destruct lookup_record_in_hand as (Hdd & Hde & Hge).
  split; [|split].
  - intros mk env s tr. destruct (mk tr) as [[close]|e] eqn:Hmk.
    + destruct (Hdd env s tr) as (gi & Hrun & Hrec).
      exists gi. split; [exact Hrec|].
      exact (within_closing mk _ tr _ close (Ok gi) Hmk Hrun).
    + exact (within_unbuilt mk _ tr e Hmk).
  - intros mk env s tr. destruct (mk tr) as [[close]|e] eqn:Hmk.
    + destruct (Hde env s tr) as (gi & Hrun & Hrec).
      exists gi. split; [exact Hrec|].
      exact (within_closing mk _ tr _ close (Ok gi) Hmk Hrun).
    + exact (within_unbuilt mk _ tr e Hmk).
  - intros env s tr. destruct (Hge env s tr) as (gi & Hrun & Hrec).
    exists gi. split; [exact Hrec | exact Hrun].
Qed.
